(** * RealtimeCG, 07-ShadowVolumes: the scene of the shadow-volume renderer

    A shallow embedding of [scene.cpp] (class [Scene]: light store, instance
    store, frame constants and the pass executor [Scene::Draw]) together with
    the part of the OpenGL state machine its calls drive.

    Conventions of the embedding
    - [float] is read as a real number ([R]) where the code keeps it finite:
      [sinf], [cosf] are [sin], [cos], and rounding is outside the model.
      Where the code can leave the finite numbers (the quotient [Init] stores
      in the light colours, the products of [lissajous]) the IEEE value is
      kept: a finite number, an infinity or NaN ([f32.t]).
    - [int] is [Z]; a [for (int i = a; i < b; ++i)] loop runs
      [Z.to_nat (b - a)] times.
    - A method is a computation over the whole program state ([World]): the
      singleton [Scene], the function-local statics, the random source and the
      OpenGL context.  It ends normally ([Ok]), in undefined behaviour
      ([Undefined]: an index out of range, a null mesh pointer, a copy past a
      buffer) or with a C++ exception ([Thrown]).
    - GLM matrices are column-major float arrays ([list R], as
      [glm::value_ptr] exposes them); the GLM matrix builders and the index
      counts of the meshes are parameters of the development. *)

From Stdlib Require Import String Reals Lra ZArith List Lia Bool.
Import ListNotations.

Local Open Scope Z_scope.

(* ------------------------------------------------------------------------- *)
(** ** GLM vectors *)

Module vec3.
Record t : Type := make { x : R; y : R; z : R }.

(** [glm::vec3(s)] *)
Definition splat (s : R) : t := make s s s.
(** [a + b], [a - b], component-wise [a * b] *)
Definition add (a b : t) : t := make (x a + x b)%R (y a + y b)%R (z a + z b)%R.
Definition sub (a b : t) : t := make (x a - x b)%R (y a - y b)%R (z a - z b)%R.
Definition mul (a b : t) : t := make (x a * x b)%R (y a * y b)%R (z a * z b)%R.
Definition dot (a b : t) : R := (x a * x b + y a * y b + z a * z b)%R.
(** [glm::length(v)] *)
Definition length (v : t) : R := sqrt (dot v v).
(** [glm::normalize(v)]: [v * inversesqrt(dot(v, v))] *)
Definition normalize (v : t) : t :=
    let k := (1 / sqrt (dot v v))%R in make (x v * k)%R (y v * k)%R (z v * k)%R.
End vec3.

Module vec4.
Record t : Type := make { x : R; y : R; z : R; w : R }.

(** [glm::vec4(s)] *)
Definition splat (s : R) : t := make s s s s.
(** [v * s] *)
Definition scale (v : t) (s : R) : t := make (x v * s)%R (y v * s)%R (z v * s)%R (w v * s)%R.
(** [glm::value_ptr(v)] *)
Definition value_ptr (v : t) : list R := [x v; y v; z v; w v].
End vec4.

(* ------------------------------------------------------------------------- *)
(** ** IEEE single precision, where a [float] can leave the finite numbers *)

Module f32.
(** A [float]: a finite number, an infinity or NaN.  Finite results are not
    rounded, and the two zeros are not told apart: a zero divisor is read as
    +0, the zero an [int] converts to. *)
Inductive t : Type :=
| Finite (r : R)
| PlusInf
| MinusInf
| NaN.

(** From this magnitude on a result rounds to an infinity: half an ulp above
    [FLT_MAX] = 2^128 - 2^104. *)
Definition OVERFLOW : R := IZR (2 ^ 128 - 2 ^ 103).

Definition overflows (r : R) : Prop := (OVERFLOW <= Rabs r)%R.

(** The [float] of an exact result. *)
Definition round (r : R) : t :=
    if Rle_dec OVERFLOW r then PlusInf
    else if Rle_dec r (- OVERFLOW) then MinusInf
    else Finite r.

(** [(float)n] for an [int] *)
Definition of_int (n : Z) : t := Finite (IZR n).

(** [a * b] *)
Definition mul (a b : t) : t :=
    match a, b with
    | NaN, _ | _, NaN => NaN
    | Finite r, Finite s => round (r * s)
    | Finite r, PlusInf | PlusInf, Finite r =>
        if Rlt_dec 0 r then PlusInf else if Rlt_dec r 0 then MinusInf else NaN
    | Finite r, MinusInf | MinusInf, Finite r =>
        if Rlt_dec 0 r then MinusInf else if Rlt_dec r 0 then PlusInf else NaN
    | PlusInf, PlusInf | MinusInf, MinusInf => PlusInf
    | PlusInf, MinusInf | MinusInf, PlusInf => MinusInf
    end.

(** [a / b]; there is no trap: a finite number over zero is an infinity. *)
Definition div (a b : t) : t :=
    match a, b with
    | NaN, _ | _, NaN => NaN
    | Finite r, Finite s =>
        if Req_dec_T s 0
        then if Rlt_dec 0 r then PlusInf else if Rlt_dec r 0 then MinusInf else NaN
        else round (r / s)
    | Finite _, PlusInf | Finite _, MinusInf => Finite 0
    | PlusInf, Finite s => if Rlt_dec s 0 then MinusInf else PlusInf
    | MinusInf, Finite s => if Rlt_dec s 0 then PlusInf else MinusInf
    | _, _ => NaN
    end.

(** [sinf], [cosf]: of an infinity or NaN they are NaN. *)
Definition sinf (a : t) : t :=
    match a with
    | Finite r => Finite (sin r)
    | _ => NaN
    end.

Definition cosf (a : t) : t :=
    match a with
    | Finite r => Finite (cos r)
    | _ => NaN
    end.

(** [lo <= a <= hi]: false of an infinity and of NaN. *)
Definition between (lo hi : R) (a : t) : Prop :=
    match a with
    | Finite r => (lo <= r <= hi)%R
    | _ => False
    end.
End f32.

(** [glm::vec3], [glm::vec4] of such values. *)
Module fvec3.
Record t : Type := make { x : f32.t; y : f32.t; z : f32.t }.

Definition of_vec3 (v : vec3.t) : t :=
    make (f32.Finite (vec3.x v)) (f32.Finite (vec3.y v)) (f32.Finite (vec3.z v)).
End fvec3.

Module fvec4.
Record t : Type := make { x : f32.t; y : f32.t; z : f32.t; w : f32.t }.

Definition of_vec4 (v : vec4.t) : t :=
    make (f32.Finite (vec4.x v)) (f32.Finite (vec4.y v)) (f32.Finite (vec4.z v))
      (f32.Finite (vec4.w v)).
(** [glm::vec4(s)] *)
Definition splat (s : f32.t) : t := make s s s s.
(** [v * s] *)
Definition scale (v : t) (s : f32.t) : t :=
    make (f32.mul (x v) s) (f32.mul (y v) s) (f32.mul (z v) s) (f32.mul (w v) s).
(** [glm::value_ptr(v)] *)
Definition value_ptr (v : t) : list f32.t := [x v; y v; z v; w v].
End fvec4.

(** Column-major 4x4 matrix, as [glm::value_ptr] lays it out. *)
Definition mat4x4 : Type := list R.
(** 3 columns of 4 rows. *)
Definition mat3x4 : Type := list R.
(** 4 columns of 3 rows. *)
Definition mat4x3 : Type := list R.

(** [glm::mat3x4(m)] for a 4x4 [m]: the first three columns. *)
Definition to_mat3x4 (m : mat4x4) : mat3x4 := firstn 12 m.

(** [glm::mat4x3(m)] for a 4x4 [m]: the first three rows of every column. *)
Fixpoint to_mat4x3 (m : mat4x4) : mat4x3 :=
  match m with
  | a :: b :: c :: _ :: rest => a :: b :: c :: to_mat4x3 rest
  | _ => []
  end.

(** [m[3]]: the fourth column of a 4x4 matrix. *)
Definition column3 (m : mat4x4) : vec4.t :=
  vec4.make (nth 12 m 0%R) (nth 13 m 0%R) (nth 14 m 0%R) (nth 15 m 0%R).

(** [glm::radians(deg)] *)
Definition radians (deg : R) : R := (deg * PI / 180)%R.

(** [PI_HALF] of MathSupport.h *)
Definition PI_HALF : R := (PI / 2)%R.

(* ------------------------------------------------------------------------- *)
(** ** The OpenGL state machine, as far as [Scene] drives it *)

(** Indices of [shaderProgram[]] used by scene.cpp; a program handle is
    identified with its index. *)
Module ShaderProgram.
Inductive t : Type :=
  | Default | Instancing | PointRendering
  | DefaultDepthPass | InstancingDepthPass | LightSourceDepthPass
  | InstancedShadowVolume.

Definition eqb (a b : t) : bool :=
    match a, b with
    | Default, Default | Instancing, Instancing | PointRendering, PointRendering
    | DefaultDepthPass, DefaultDepthPass | InstancingDepthPass, InstancingDepthPass
    | LightSourceDepthPass, LightSourceDepthPass
    | InstancedShadowVolume, InstancedShadowVolume => true
    | _, _ => false
    end.
End ShaderProgram.

Inductive GLcap : Type :=
| GL_CULL_FACE | GL_BLEND | GL_DEPTH_TEST | GL_DEPTH_CLAMP | GL_STENCIL_TEST | GL_MULTISAMPLE.

Definition GLcap_eqb (a b : GLcap) : bool :=
  match a, b with
  | GL_CULL_FACE, GL_CULL_FACE | GL_BLEND, GL_BLEND | GL_DEPTH_TEST, GL_DEPTH_TEST
  | GL_DEPTH_CLAMP, GL_DEPTH_CLAMP | GL_STENCIL_TEST, GL_STENCIL_TEST
  | GL_MULTISAMPLE, GL_MULTISAMPLE => true
  | _, _ => false
  end.

Inductive GLface : Type := GL_FRONT | GL_BACK | GL_FRONT_AND_BACK.
Inductive GLpolygon : Type := GL_LINE | GL_FILL.
Inductive GLfunc : Type := GL_LESS | GL_LEQUAL | GL_EQUAL | GL_ALWAYS.
Inductive GLstencilop : Type := GL_KEEP | GL_INCR_WRAP | GL_DECR_WRAP.
Inductive GLprimitive : Type := GL_TRIANGLES | GL_TRIANGLES_ADJACENCY | GL_POINTS.

Definition GL_DEPTH_BUFFER_BIT : Z := 0x100.
Definition GL_STENCIL_BUFFER_BIT : Z := 0x400.
Definition GL_COLOR_BUFFER_BIT : Z := 0x4000.

(** A uniform of the program in use: looked up by name
    ([glGetUniformLocation (program, name)]) or given by explicit location. *)
Inductive GLuniform : Type :=
| UniformNamed (program : ShaderProgram.t) (name : string)
| UniformAt (location : Z).

(** The OpenGL calls of scene.cpp.  [memcpy_mapped] is the [memcpy] through
    the pointer that [glMapBuffer] returned. *)
Inductive GLcall : Type :=
| glGenVertexArrays
| glGenBuffers
| glEnable (cap : GLcap)
| glDisable (cap : GLcap)
| glCullFace (face : GLface)
| glPolygonMode (face : GLface) (mode : GLpolygon)
| glDepthFunc (func : GLfunc)
| glDepthMask (flag : bool)
| glClearColor (r g b a : R)
| glClear (mask : Z)
| glColorMask (r g b a : bool)
| glStencilFunc (func : GLfunc) (ref mask : Z)
| glStencilOp (sfail dpfail dppass : GLstencilop)
| glStencilOpSeparate (face : GLface) (sfail dpfail dppass : GLstencilop)
| glBlendEquation_FUNC_ADD
| glBlendFunc_ONE_ONE
| glUseProgram (program : ShaderProgram.t)
| glUniform4f (location : GLuniform) (v0 v1 v2 v3 : f32.t)
| glUniform4fv (location : GLuniform) (value : list R)
| glUniform3fv (location : GLuniform) (value : list f32.t)
| glUniformMatrix4x3fv (location : GLuniform) (value : mat4x3)
| glUniformMatrix4fv (location : GLuniform) (value : mat4x4)
| glActiveTexture (unit : Z)
| glBindTexture (texture : Z)
| glBindSampler (unit : Z) (sampler : Z)
| glBindVertexArray (array : Z)
| glDrawElements (mode : GLprimitive) (count : Z)
| glDrawElementsInstanced (mode : GLprimitive) (count : Z) (instancecount : Z)
| glDrawArrays (mode : GLprimitive) (first count : Z)
| glPointSize (size : R)
| glBindBuffer (buffer : Z)
| glBindBufferBase (index : Z) (buffer : Z)
| glBufferData (size : Z)
| glBufferSubData (offset size : Z) (data : list R)
| glMapBuffer
| memcpy_mapped (bytes : Z) (data : list (list R))
| glUnmapBuffer.

Definition GLstencilops : Type := (GLstencilop * GLstencilop * GLstencilop)%type.

(** What the pipeline looks like at the moment a draw call is issued. *)
Record DrawState : Type := mkDrawState {
  ds_call : GLcall;
  ds_program : option ShaderProgram.t;
  ds_lightPosWS : option fvec4.t;
  ds_lightColor : option fvec4.t;
  ds_colorMask : bool * bool * bool * bool;
  ds_depthTest : bool;
  ds_depthFunc : GLfunc;
  ds_depthMask : bool;
  ds_stencilTest : bool;
  ds_stencilFunc : GLfunc * Z * Z;
  ds_stencilBack : GLstencilops;
  ds_stencilFront : GLstencilops;
  ds_cullFace : bool;
  ds_blend : bool
}.

(** What reaches the framebuffer: clears and draws, in program order. *)
Inductive GLevent : Type :=
| Cleared (mask : Z)
| Drawn (d : DrawState).

(** What reaches buffer storage. *)
Inductive GLupload : Type :=
| SubData (buffer : Z) (offset size : Z) (data : list R)
| MappedCopy (buffer : Z) (bytes : Z) (data : list (list R)).

Record GLState : Type := mkGLState {
  gl_caps : GLcap -> bool;
  gl_depthFunc : GLfunc;
  gl_depthMask : bool;
  gl_colorMask : bool * bool * bool * bool;
  gl_stencilFunc : GLfunc * Z * Z;
  gl_stencilBack : GLstencilops;
  gl_stencilFront : GLstencilops;
  gl_program : option ShaderProgram.t;
  (** four-component uniforms, per program and name *)
  gl_uniform4 : ShaderProgram.t -> string -> option fvec4.t;
  (** generic GL_UNIFORM_BUFFER binding *)
  gl_uniformBuffer : Z;
  (** size of each buffer's data store *)
  gl_bufferSize : Z -> option Z;
  (** buffer behind the pointer of the last [glMapBuffer] *)
  gl_mapped : option Z;
  (** next unused object name; names are never 0 *)
  gl_names : positive;
  gl_events : list GLevent;
  gl_uploads : list GLupload;
  gl_calls : list GLcall
}.

Definition gl_set_caps (v : GLcap -> bool) (g : GLState) : GLState :=
  mkGLState v (gl_depthFunc g) (gl_depthMask g) (gl_colorMask g) (gl_stencilFunc g)
    (gl_stencilBack g) (gl_stencilFront g) (gl_program g) (gl_uniform4 g)
    (gl_uniformBuffer g) (gl_bufferSize g) (gl_mapped g) (gl_names g) (gl_events g)
    (gl_uploads g) (gl_calls g).
Definition gl_set_depthFunc (v : GLfunc) (g : GLState) : GLState :=
  mkGLState (gl_caps g) v (gl_depthMask g) (gl_colorMask g) (gl_stencilFunc g) (gl_stencilBack g)
    (gl_stencilFront g) (gl_program g) (gl_uniform4 g) (gl_uniformBuffer g)
    (gl_bufferSize g) (gl_mapped g) (gl_names g) (gl_events g) (gl_uploads g) (gl_calls g).
Definition gl_set_depthMask (v : bool) (g : GLState) : GLState :=
  mkGLState (gl_caps g) (gl_depthFunc g) v (gl_colorMask g) (gl_stencilFunc g) (gl_stencilBack g)
    (gl_stencilFront g) (gl_program g) (gl_uniform4 g) (gl_uniformBuffer g)
    (gl_bufferSize g) (gl_mapped g) (gl_names g) (gl_events g) (gl_uploads g) (gl_calls g).
Definition gl_set_colorMask (v : bool * bool * bool * bool) (g : GLState) : GLState :=
  mkGLState (gl_caps g) (gl_depthFunc g) (gl_depthMask g) v (gl_stencilFunc g) (gl_stencilBack g)
    (gl_stencilFront g) (gl_program g) (gl_uniform4 g) (gl_uniformBuffer g)
    (gl_bufferSize g) (gl_mapped g) (gl_names g) (gl_events g) (gl_uploads g) (gl_calls g).
Definition gl_set_stencilFunc (v : GLfunc * Z * Z) (g : GLState) : GLState :=
  mkGLState (gl_caps g) (gl_depthFunc g) (gl_depthMask g) (gl_colorMask g) v (gl_stencilBack g)
    (gl_stencilFront g) (gl_program g) (gl_uniform4 g) (gl_uniformBuffer g)
    (gl_bufferSize g) (gl_mapped g) (gl_names g) (gl_events g) (gl_uploads g) (gl_calls g).
Definition gl_set_stencilBack (v : GLstencilops) (g : GLState) : GLState :=
  mkGLState (gl_caps g) (gl_depthFunc g) (gl_depthMask g) (gl_colorMask g) (gl_stencilFunc g) v
    (gl_stencilFront g) (gl_program g) (gl_uniform4 g) (gl_uniformBuffer g)
    (gl_bufferSize g) (gl_mapped g) (gl_names g) (gl_events g) (gl_uploads g) (gl_calls g).
Definition gl_set_stencilFront (v : GLstencilops) (g : GLState) : GLState :=
  mkGLState (gl_caps g) (gl_depthFunc g) (gl_depthMask g) (gl_colorMask g) (gl_stencilFunc g)
    (gl_stencilBack g) v (gl_program g) (gl_uniform4 g) (gl_uniformBuffer g)
    (gl_bufferSize g) (gl_mapped g) (gl_names g) (gl_events g) (gl_uploads g) (gl_calls g).
Definition gl_set_program (v : option ShaderProgram.t) (g : GLState) : GLState :=
  mkGLState (gl_caps g) (gl_depthFunc g) (gl_depthMask g) (gl_colorMask g) (gl_stencilFunc g)
    (gl_stencilBack g) (gl_stencilFront g) v (gl_uniform4 g) (gl_uniformBuffer g)
    (gl_bufferSize g) (gl_mapped g) (gl_names g) (gl_events g) (gl_uploads g) (gl_calls g).
Definition gl_set_uniform4 (v : ShaderProgram.t -> string -> option fvec4.t) (g : GLState)
    : GLState :=
  mkGLState (gl_caps g) (gl_depthFunc g) (gl_depthMask g) (gl_colorMask g) (gl_stencilFunc g)
    (gl_stencilBack g) (gl_stencilFront g) (gl_program g) v (gl_uniformBuffer g)
    (gl_bufferSize g) (gl_mapped g) (gl_names g) (gl_events g) (gl_uploads g) (gl_calls g).
Definition gl_set_uniformBuffer (v : Z) (g : GLState) : GLState :=
  mkGLState (gl_caps g) (gl_depthFunc g) (gl_depthMask g) (gl_colorMask g) (gl_stencilFunc g)
    (gl_stencilBack g) (gl_stencilFront g) (gl_program g) (gl_uniform4 g) v
    (gl_bufferSize g) (gl_mapped g) (gl_names g) (gl_events g) (gl_uploads g) (gl_calls g).
Definition gl_set_bufferSize (v : Z -> option Z) (g : GLState) : GLState :=
  mkGLState (gl_caps g) (gl_depthFunc g) (gl_depthMask g) (gl_colorMask g) (gl_stencilFunc g)
    (gl_stencilBack g) (gl_stencilFront g) (gl_program g) (gl_uniform4 g)
    (gl_uniformBuffer g) v (gl_mapped g) (gl_names g) (gl_events g) (gl_uploads g)
    (gl_calls g).
Definition gl_set_mapped (v : option Z) (g : GLState) : GLState :=
  mkGLState (gl_caps g) (gl_depthFunc g) (gl_depthMask g) (gl_colorMask g) (gl_stencilFunc g)
    (gl_stencilBack g) (gl_stencilFront g) (gl_program g) (gl_uniform4 g)
    (gl_uniformBuffer g) (gl_bufferSize g) v (gl_names g) (gl_events g) (gl_uploads g)
    (gl_calls g).
Definition gl_set_names (v : positive) (g : GLState) : GLState :=
  mkGLState (gl_caps g) (gl_depthFunc g) (gl_depthMask g) (gl_colorMask g) (gl_stencilFunc g)
    (gl_stencilBack g) (gl_stencilFront g) (gl_program g) (gl_uniform4 g)
    (gl_uniformBuffer g) (gl_bufferSize g) (gl_mapped g) v (gl_events g) (gl_uploads g)
    (gl_calls g).
Definition gl_set_events (v : list GLevent) (g : GLState) : GLState :=
  mkGLState (gl_caps g) (gl_depthFunc g) (gl_depthMask g) (gl_colorMask g) (gl_stencilFunc g)
    (gl_stencilBack g) (gl_stencilFront g) (gl_program g) (gl_uniform4 g)
    (gl_uniformBuffer g) (gl_bufferSize g) (gl_mapped g) (gl_names g) v (gl_uploads g)
    (gl_calls g).
Definition gl_set_uploads (v : list GLupload) (g : GLState) : GLState :=
  mkGLState (gl_caps g) (gl_depthFunc g) (gl_depthMask g) (gl_colorMask g) (gl_stencilFunc g)
    (gl_stencilBack g) (gl_stencilFront g) (gl_program g) (gl_uniform4 g)
    (gl_uniformBuffer g) (gl_bufferSize g) (gl_mapped g) (gl_names g) (gl_events g) v
    (gl_calls g).
Definition gl_set_calls (v : list GLcall) (g : GLState) : GLState :=
  mkGLState (gl_caps g) (gl_depthFunc g) (gl_depthMask g) (gl_colorMask g) (gl_stencilFunc g)
    (gl_stencilBack g) (gl_stencilFront g) (gl_program g) (gl_uniform4 g)
    (gl_uniformBuffer g) (gl_bufferSize g) (gl_mapped g) (gl_names g) (gl_events g)
    (gl_uploads g) v.

Definition gl_uniform (name : string) (g : GLState) : option fvec4.t :=
  match gl_program g with
  | Some p => gl_uniform4 g p name
  | None => None
  end.

Definition snapshot (c : GLcall) (g : GLState) : DrawState :=
  mkDrawState c (gl_program g) (gl_uniform "lightPosWS" g) (gl_uniform "lightColor" g)
    (gl_colorMask g) (gl_caps g GL_DEPTH_TEST) (gl_depthFunc g) (gl_depthMask g)
    (gl_caps g GL_STENCIL_TEST) (gl_stencilFunc g) (gl_stencilBack g) (gl_stencilFront g)
    (gl_caps g GL_CULL_FACE) (gl_caps g GL_BLEND).

(** A [glUniform4f*] reaches the program in use; a location of another
    program is GL_INVALID_OPERATION and changes nothing. *)
Definition store_uniform4 (location : GLuniform) (v : fvec4.t) (g : GLState) : GLState :=
  match location, gl_program g with
  | UniformNamed p name, Some q =>
      if ShaderProgram.eqb p q
      then gl_set_uniform4
             (fun p' name' =>
                if ShaderProgram.eqb p' p && String.eqb name' name
                then Some v else gl_uniform4 g p' name') g
      else g
  | _, _ => g
  end.

Definition set_cap (cap : GLcap) (on : bool) (g : GLState) : GLState :=
  gl_set_caps (fun c => if GLcap_eqb c cap then on else gl_caps g c) g.

Definition draw (c : GLcall) (g : GLState) : GLState :=
  gl_set_events (gl_events g ++ [Drawn (snapshot c g)]) g.

(** The effect of one call on the context. *)
Definition exec (c : GLcall) (g0 : GLState) : GLState :=
  let g := gl_set_calls (gl_calls g0 ++ [c]) g0 in
  match c with
  | glGenVertexArrays | glGenBuffers => gl_set_names (Pos.succ (gl_names g)) g
  | glEnable cap => set_cap cap true g
  | glDisable cap => set_cap cap false g
  | glDepthFunc func => gl_set_depthFunc func g
  | glDepthMask flag => gl_set_depthMask flag g
  | glClear mask => gl_set_events (gl_events g ++ [Cleared mask]) g
  | glColorMask r gr b a => gl_set_colorMask (r, gr, b, a) g
  | glStencilFunc func ref mask => gl_set_stencilFunc (func, ref, mask) g
  | glStencilOp sfail dpfail dppass =>
      gl_set_stencilBack (sfail, dpfail, dppass)
        (gl_set_stencilFront (sfail, dpfail, dppass) g)
  | glStencilOpSeparate face sfail dpfail dppass =>
      match face with
      | GL_FRONT => gl_set_stencilFront (sfail, dpfail, dppass) g
      | GL_BACK => gl_set_stencilBack (sfail, dpfail, dppass) g
      | GL_FRONT_AND_BACK =>
          gl_set_stencilBack (sfail, dpfail, dppass)
            (gl_set_stencilFront (sfail, dpfail, dppass) g)
      end
  | glUseProgram program => gl_set_program (Some program) g
  | glUniform4f location v0 v1 v2 v3 => store_uniform4 location (fvec4.make v0 v1 v2 v3) g
  | glUniform4fv location [v0; v1; v2; v3] =>
      store_uniform4 location (fvec4.of_vec4 (vec4.make v0 v1 v2 v3)) g
  | glDrawElements _ _ | glDrawElementsInstanced _ _ _ | glDrawArrays _ _ _ => draw c g
  | glBindBuffer buffer => gl_set_uniformBuffer buffer g
  | glBindBufferBase _ buffer => gl_set_uniformBuffer buffer g
  | glBufferData size =>
      let bound := gl_uniformBuffer g in
      if bound =? 0 then g
      else gl_set_bufferSize (fun b => if b =? bound then Some size else gl_bufferSize g b) g
  | glBufferSubData offset size data =>
      gl_set_uploads (gl_uploads g ++ [SubData (gl_uniformBuffer g) offset size data]) g
  | glMapBuffer =>
      gl_set_mapped
        (match gl_bufferSize g (gl_uniformBuffer g) with
         | Some _ => Some (gl_uniformBuffer g)
         | None => None
         end) g
  | memcpy_mapped bytes data =>
      match gl_mapped g with
      | Some b => gl_set_uploads (gl_uploads g ++ [MappedCopy b bytes data]) g
      | None => g
      end
  | glUnmapBuffer => gl_set_mapped None g
  | _ => g
  end.

(** [GL_UNIFORM_BLOCK_DATA_SIZE] of the two std140 blocks the shaders declare:
    [InstanceBuffer { InstanceData instanceBuffer[1024]; }] with one [mat3x4]
    per instance, and [TransformBlock { mat3x4 worldToView; mat4x4 projection; }]. *)
Definition uniformBlockDataSize (name : string) : Z :=
  if String.eqb name "InstanceBuffer" then 1024 * 48
  else if String.eqb name "TransformBlock" then 48 + 64
  else 0.

(* ------------------------------------------------------------------------- *)
(** ** Data of the scene (scene.h) *)

(** [enum class RenderPass : int] *)
Module RenderPass.
Definition DepthPass : Z := 0x0001.
Definition ShadowVolume : Z := 0x0002.
Definition DirectLight : Z := 0x0004.
Definition AmbientLight : Z := 0x0008.
Definition ShadowMap : Z := 0x0010.
Definition LightPass : Z := 0x000c.
Definition ShadowPass : Z := 0x0012.
End RenderPass.

(** [(int)a & (int)b], read as a C condition *)
Definition has (renderPass bits : Z) : bool := negb (Z.land renderPass bits =? 0).

Record RenderMode : Type := mkRenderMode {
  vsync : bool;
  wireframe : bool;
  tonemapping : bool;
  msaaLevel : Z
}.

(** The camera collaborator: the three matrices [Scene] reads. *)
Record Camera : Type := mkCamera {
  GetWorldToView : mat4x4;
  GetProjection : mat4x4;
  GetViewToWorld : mat4x4
}.

(** A mesh of the geometry provider: its vertex array and index count. *)
Record Mesh : Type := mkMesh {
  GetVAO : Z;
  GetIBOSize : Z
}.

Record InstanceData : Type := mkInstanceData {
  transformation : mat3x4
}.

Definition MAX_INSTANCES : Z := 1024.

(** [sizeof(InstanceData)]: a [glm::mat3x4] of 3 x 4 floats of 4 bytes. *)
Definition sizeof_InstanceData : Z := 3 * 4 * 4.
(** [sizeof(glm::mat3x4)], [sizeof(glm::mat4x4)] *)
Definition sizeof_mat3x4 : Z := 3 * 4 * 4.
Definition sizeof_mat4x4 : Z := 4 * 4 * 4.

Module PointLight.
Record t : Type := make {
    position : vec3.t;
    color : fvec4.t;
    movement : vec4.t
  }.
Definition set_position (p : vec3.t) (l : t) : t := make p (color l) (movement l).
End PointLight.

Module SpotLight.
Record t : Type := make {
    position : vec3.t;
    color : fvec4.t;
    movement : vec4.t;
    direction : vec3.t;
    cutOff : R;
    outerCutOff : R
  }.
Definition set_position (p : vec3.t) (l : t) : t :=
    make p (color l) (movement l) (direction l) (cutOff l) (outerCutOff l).
Definition set_direction (d : vec3.t) (l : t) : t :=
    make (position l) (color l) (movement l) d (cutOff l) (outerCutOff l).
End SpotLight.

Record Scene : Type := mkScene {
  _loadedTextures : list Z;
  _numCubes : Z;
  _cubePositions : list vec3.t;
  _numPointLights : Z;
  _pointLights : list PointLight.t;
  _numSpotLights : Z;
  _spotLights : list SpotLight.t;
  _vao : Z;
  _quad : option Mesh;
  _cube : option Mesh;
  _cubeAdjacency : option Mesh;
  _instancingBuffer : Z;
  _transformBlockUBO : Z
}.

Definition set_loadedTextures (v : list Z) (s : Scene) : Scene :=
  mkScene v (_numCubes s) (_cubePositions s) (_numPointLights s) (_pointLights s)
    (_numSpotLights s) (_spotLights s) (_vao s) (_quad s) (_cube s) (_cubeAdjacency s)
    (_instancingBuffer s) (_transformBlockUBO s).
Definition set_numCubes (v : Z) (s : Scene) : Scene :=
  mkScene (_loadedTextures s) v (_cubePositions s) (_numPointLights s) (_pointLights s)
    (_numSpotLights s) (_spotLights s) (_vao s) (_quad s) (_cube s) (_cubeAdjacency s)
    (_instancingBuffer s) (_transformBlockUBO s).
Definition set_cubePositions (v : list vec3.t) (s : Scene) : Scene :=
  mkScene (_loadedTextures s) (_numCubes s) v (_numPointLights s) (_pointLights s)
    (_numSpotLights s) (_spotLights s) (_vao s) (_quad s) (_cube s) (_cubeAdjacency s)
    (_instancingBuffer s) (_transformBlockUBO s).
Definition set_numPointLights (v : Z) (s : Scene) : Scene :=
  mkScene (_loadedTextures s) (_numCubes s) (_cubePositions s) v (_pointLights s)
    (_numSpotLights s) (_spotLights s) (_vao s) (_quad s) (_cube s) (_cubeAdjacency s)
    (_instancingBuffer s) (_transformBlockUBO s).
Definition set_pointLights (v : list PointLight.t) (s : Scene) : Scene :=
  mkScene (_loadedTextures s) (_numCubes s) (_cubePositions s) (_numPointLights s) v
    (_numSpotLights s) (_spotLights s) (_vao s) (_quad s) (_cube s) (_cubeAdjacency s)
    (_instancingBuffer s) (_transformBlockUBO s).
Definition set_numSpotLights (v : Z) (s : Scene) : Scene :=
  mkScene (_loadedTextures s) (_numCubes s) (_cubePositions s) (_numPointLights s)
    (_pointLights s) v (_spotLights s) (_vao s) (_quad s) (_cube s) (_cubeAdjacency s)
    (_instancingBuffer s) (_transformBlockUBO s).
Definition set_spotLights (v : list SpotLight.t) (s : Scene) : Scene :=
  mkScene (_loadedTextures s) (_numCubes s) (_cubePositions s) (_numPointLights s)
    (_pointLights s) (_numSpotLights s) v (_vao s) (_quad s) (_cube s) (_cubeAdjacency s)
    (_instancingBuffer s) (_transformBlockUBO s).
Definition set_vao (v : Z) (s : Scene) : Scene :=
  mkScene (_loadedTextures s) (_numCubes s) (_cubePositions s) (_numPointLights s)
    (_pointLights s) (_numSpotLights s) (_spotLights s) v (_quad s) (_cube s)
    (_cubeAdjacency s) (_instancingBuffer s) (_transformBlockUBO s).
Definition set_quad (v : option Mesh) (s : Scene) : Scene :=
  mkScene (_loadedTextures s) (_numCubes s) (_cubePositions s) (_numPointLights s)
    (_pointLights s) (_numSpotLights s) (_spotLights s) (_vao s) v (_cube s)
    (_cubeAdjacency s) (_instancingBuffer s) (_transformBlockUBO s).
Definition set_cube (v : option Mesh) (s : Scene) : Scene :=
  mkScene (_loadedTextures s) (_numCubes s) (_cubePositions s) (_numPointLights s)
    (_pointLights s) (_numSpotLights s) (_spotLights s) (_vao s) (_quad s) v
    (_cubeAdjacency s) (_instancingBuffer s) (_transformBlockUBO s).
Definition set_cubeAdjacency (v : option Mesh) (s : Scene) : Scene :=
  mkScene (_loadedTextures s) (_numCubes s) (_cubePositions s) (_numPointLights s)
    (_pointLights s) (_numSpotLights s) (_spotLights s) (_vao s) (_quad s) (_cube s) v
    (_instancingBuffer s) (_transformBlockUBO s).
Definition set_instancingBuffer (v : Z) (s : Scene) : Scene :=
  mkScene (_loadedTextures s) (_numCubes s) (_cubePositions s) (_numPointLights s)
    (_pointLights s) (_numSpotLights s) (_spotLights s) (_vao s) (_quad s) (_cube s)
    (_cubeAdjacency s) v (_transformBlockUBO s).
Definition set_transformBlockUBO (v : Z) (s : Scene) : Scene :=
  mkScene (_loadedTextures s) (_numCubes s) (_cubePositions s) (_numPointLights s)
    (_pointLights s) (_numSpotLights s) (_spotLights s) (_vao s) (_quad s) (_cube s)
    (_cubeAdjacency s) (_instancingBuffer s) v.

(** The scene as its constructor and the in-class initialisers leave it; the
    two light counts have no initialiser and start with whatever is given. *)
Definition Scene_ctor (numPointLights numSpotLights : Z) : Scene :=
  mkScene [0; 0; 0; 0; 0; 0; 0; 0] 10 [] numPointLights [] numSpotLights [] 0
    None None None 0 0.

(* ------------------------------------------------------------------------- *)
(** ** Program state and the monad of methods *)

Record World : Type := mkWorld {
  scene : Scene;
  (** [static float t] of [Scene::Update] *)
  Update_t : R;
  (** [static std::vector<InstanceData> instanceData] of
      [Scene::UpdateInstanceData]; constructed by the first call *)
  instanceData : option (list InstanceData);
  (** how many times [getRandom] has been called *)
  rand_calls : nat;
  (** [_textures.GetSampler(Sampler::Anisotropic)] *)
  anisotropic : Z;
  gl : GLState
}.

Definition with_scene (v : Scene) (w : World) : World :=
  mkWorld v (Update_t w) (instanceData w) (rand_calls w) (anisotropic w) (gl w).
Definition with_Update_t (v : R) (w : World) : World :=
  mkWorld (scene w) v (instanceData w) (rand_calls w) (anisotropic w) (gl w).
Definition with_instanceData (v : option (list InstanceData)) (w : World) : World :=
  mkWorld (scene w) (Update_t w) v (rand_calls w) (anisotropic w) (gl w).
Definition with_rand_calls (v : nat) (w : World) : World :=
  mkWorld (scene w) (Update_t w) (instanceData w) v (anisotropic w) (gl w).
Definition with_anisotropic (v : Z) (w : World) : World :=
  mkWorld (scene w) (Update_t w) (instanceData w) (rand_calls w) v (gl w).
Definition with_gl (v : GLState) (w : World) : World :=
  mkWorld (scene w) (Update_t w) (instanceData w) (rand_calls w) (anisotropic w) v.

Inductive Outcome (A : Type) : Type :=
| Ok (a : A)
| Undefined
| Thrown.
Arguments Ok {A} a.
Arguments Undefined {A}.
Arguments Thrown {A}.

Definition M (A : Type) : Type := World -> Outcome (A * World).

Definition ret {A : Type} (a : A) : M A := fun w => Ok (a, w).

Definition bind {A B : Type} (m : M A) (k : A -> M B) : M B :=
  fun w =>
    match m w with
    | Ok (a, w') => k a w'
    | Undefined => Undefined
    | Thrown => Thrown
    end.

Declare Scope scene_scope.
Delimit Scope scene_scope with scene.
Notation "x <- m ;; k" := (bind m (fun x => k))
  (at level 61, m at next level, right associativity) : scene_scope.
Notation "m ;; k" := (bind m (fun _ => k))
  (at level 61, right associativity) : scene_scope.
Local Open Scope scene_scope.

Definition undefined {A : Type} : M A := fun _ => Undefined.
Definition throw {A : Type} : M A := fun _ => Thrown.

Definition get : M World := fun w => Ok (w, w).
Definition this : M Scene := fun w => Ok (scene w, w).
Definition modify (f : Scene -> Scene) : M unit := fun w => Ok (tt, with_scene (f (scene w)) w).

(** One OpenGL call. *)
Definition call (c : GLcall) : M unit := fun w => Ok (tt, with_gl (exec c (gl w)) w).

(** [glGen*(1, &name)]: the call yields the next unused name. *)
Definition gen (c : GLcall) : M Z :=
  fun w => Ok (Zpos (gl_names (gl w)), with_gl (exec c (gl w)) w).

(** An object made by a collaborator (geometry provider, texture helper):
    it takes an unused name; the calls behind it are not part of [Scene]. *)
Definition collaborator_name : M Z :=
  fun w => Ok (Zpos (gl_names (gl w)),
               with_gl (gl_set_names (Pos.succ (gl_names (gl w))) (gl w)) w).

(** [when c m]: [if (c) m;] *)
Definition when (c : bool) (m : M unit) : M unit := if c then m else ret tt.

(** [for (int i = first; i < bound; ++i) body(i)] *)
Fixpoint iterate (n : nat) (i : Z) (body : Z -> M unit) : M unit :=
  match n with
  | O => ret tt
  | S n' => body i ;; iterate n' (i + 1) body
  end.

Definition for_ (first bound : Z) (body : Z -> M unit) : M unit :=
  iterate (Z.to_nat (bound - first)) first body.

(** [v[i]] of a [std::vector]; out of range is undefined behaviour. *)
Definition at_ {A : Type} (v : list A) (i : Z) : M A :=
  if i <? 0 then undefined
  else match nth_error v (Z.to_nat i) with
       | Some a => ret a
       | None => undefined
       end.

(** The vector after [v[i] = a], for [i] in range. *)
Fixpoint assign {A : Type} (v : list A) (i : nat) (a : A) : list A :=
  match v, i with
  | [], _ => []
  | _ :: v', O => a :: v'
  | b :: v', S i' => b :: assign v' i' a
  end.

(** [v.reserve(n)] with an [int] argument: a negative [n] converts to a
    [size_type] above [max_size()], and [reserve] throws [std::length_error]. *)
Definition reserve (n : Z) : M unit := if n <? 0 then throw else ret tt.

(* ------------------------------------------------------------------------- *)
(** ** scene.cpp *)

(** Scaling factor for lights movement curve *)
Definition scale : vec3.t := vec3.make 13.0 2.0 13.0.
(** Offset for lights movement curve *)
Definition offset : vec3.t := vec3.make 0.0 3.0 0.0.

(** Lissajous curve position calculation based on the parameters *)
Definition lissajous (p : vec4.t) (t : R) : vec3.t :=
  vec3.make (sin (vec4.x p * t)) (cos (vec4.y p * t))
            (sin (vec4.z p * t) * cos (vec4.w p * t))%R.

(** The same with the IEEE values kept: each product [p.x * t], ... can
    overflow to an infinity, of which [sinf] and [cosf] are NaN. *)
Module IEEE.
Definition lissajous (p : fvec4.t) (t : f32.t) : fvec3.t :=
    fvec3.make (f32.sinf (f32.mul (fvec4.x p) t)) (f32.cosf (f32.mul (fvec4.y p) t))
      (f32.mul (f32.sinf (f32.mul (fvec4.z p) t)) (f32.cosf (f32.mul (fvec4.w p) t))).
End IEEE.

(** [*p] for a mesh pointer; null is undefined behaviour. *)
Definition deref (p : option Mesh) : M Mesh :=
  match p with
  | Some m => ret m
  | None => undefined
  end.

(** [_loadedTextures[k]] for an enumerator [k] of [LoadedTextures]. *)
Module LoadedTextures.
Definition White : nat := 0.
Definition Grey : nat := 1.
Definition Blue : nat := 2.
Definition CheckerBoard : nat := 3.
Definition Diffuse : nat := 4.
Definition Normal : nat := 5.
Definition Specular : nat := 6.
Definition Occlusion : nat := 7.
End LoadedTextures.

Definition loadedTexture (s : Scene) (k : nat) : Z := nth k (_loadedTextures s) 0.

Definition set_loadedTexture (k : nat) (name : Z) : M unit :=
  modify (fun s => set_loadedTextures (assign (_loadedTextures s) k name) s).

Definition push_cubePosition (p : vec3.t) : M unit :=
  modify (fun s => set_cubePositions (_cubePositions s ++ [p]) s).
Definition push_pointLight (l : PointLight.t) : M unit :=
  modify (fun s => set_pointLights (_pointLights s ++ [l]) s).
Definition push_spotLight (l : SpotLight.t) : M unit :=
  modify (fun s => set_spotLights (_spotLights s ++ [l]) s).

(** [_pointLights[i].position = p], [_spotLights[i].position = p],
    [_spotLights[i].direction = d] *)
Definition assign_pointLight_position (i : Z) (p : vec3.t) : M unit :=
  s <- this ;;
  l <- at_ (_pointLights s) i ;;
  modify (set_pointLights (assign (_pointLights s) (Z.to_nat i) (PointLight.set_position p l))).
Definition assign_spotLight_position (i : Z) (p : vec3.t) : M unit :=
  s <- this ;;
  l <- at_ (_spotLights s) i ;;
  modify (set_spotLights (assign (_spotLights s) (Z.to_nat i) (SpotLight.set_position p l))).
Definition assign_spotLight_direction (i : Z) (d : vec3.t) : M unit :=
  s <- this ;;
  l <- at_ (_spotLights s) i ;;
  modify (set_spotLights (assign (_spotLights s) (Z.to_nat i) (SpotLight.set_direction d l))).

(* ------------------------------------------------------------------------- *)
(** ** A small initialised scene, for examples

    Two cubes, the hero light and one more point light, one spot light; the
    object names are those a context hands out from 1 on. *)

(** A random source that always returns the upper bound. *)
Definition sample_rnd (k : nat) (lo hi : R) : R := hi.

(** 4x4 matrices for the GLM parameters: translation and scaling as GLM
    defines them, the identity elsewhere. *)
Definition sample_identity : mat4x4 :=
  [1; 0; 0; 0;  0; 1; 0; 0;  0; 0; 1; 0;  0; 0; 0; 1]%R.
Definition sample_translate (v : vec3.t) : mat4x4 :=
  [1; 0; 0; 0;  0; 1; 0; 0;  0; 0; 1; 0;  vec3.x v; vec3.y v; vec3.z v; 1]%R.
Definition sample_scale (v : vec3.t) : mat4x4 :=
  [vec3.x v; 0; 0; 0;  0; vec3.y v; 0; 0;  0; 0; vec3.z v; 0;  0; 0; 0; 1]%R.
Definition sample_rotate (angle : R) (axis : vec3.t) : mat4x4 := sample_identity.
Definition sample_mul (a b : mat4x4) : mat4x4 := a.
Definition sample_transpose (m : mat4x4) : mat4x4 := m.
Definition sample_lookAt (eye center up : vec3.t) : mat4x4 := sample_identity.
Definition sample_perspective (fovy aspect near far : R) : mat4x4 := sample_identity.

Definition sample_camera : Camera :=
  mkCamera sample_identity sample_identity sample_identity.

Definition sample_renderMode : RenderMode := mkRenderMode true false true 4.

Definition sample_hero : PointLight.t :=
  PointLight.make (vec3.make (-3.0) 3.0 0.0) (fvec4.of_vec4 (vec4.make 10.0 10.0 10.0 (1e-3 / 2)))
    (vec4.make 0.0 1.0 0.0 0.0).

Definition sample_pointLight : PointLight.t :=
  PointLight.make (vec3.make 0.0 5.0 0.0) (fvec4.of_vec4 (vec4.make 5.0 5.0 5.0 (1e-3 / 2)))
    (vec4.make 2.0 2.0 2.0 2.0).

Definition sample_spotLight : SpotLight.t :=
  SpotLight.make (vec3.make 0.0 5.0 0.0) (fvec4.of_vec4 (vec4.make 5.0 5.0 5.0 (1e-3 / 2)))
    (vec4.make 2.0 2.0 2.0 2.0) (vec3.make 2.0 2.0 2.0) (radians 12.5) (radians 17.5).

Definition sample_scene : Scene :=
  mkScene [8; 9; 10; 11; 12; 13; 14; 15] 2
    [vec3.make 0.0 0.5 0.0; vec3.make 5.0 5.0 5.0]
    2 [sample_hero; sample_pointLight] 1 [sample_spotLight]
    4 (Some (mkMesh 1 6)) (Some (mkMesh 2 36)) (Some (mkMesh 3 72)) 5 6.

Definition sample_gl : GLState :=
  mkGLState (fun _ => false) GL_LESS true (true, true, true, true)
    (GL_ALWAYS, 0, 0xff) (GL_KEEP, GL_KEEP, GL_KEEP) (GL_KEEP, GL_KEEP, GL_KEEP)
    None (fun _ _ => None) 0
    (fun b => if b =? 5 then Some (1024 * 48) else if b =? 6 then Some (48 + 64) else None)
    None 16 [] [] [].

Definition sample_world : World := mkWorld sample_scene 0 None 10 7 sample_gl.

(** The program before [Init]: the constructed scene, no call made yet. *)
Definition start_gl : GLState :=
  mkGLState (fun cap => GLcap_eqb cap GL_MULTISAMPLE) GL_LESS true (true, true, true, true)
    (GL_ALWAYS, 0, 0xff) (GL_KEEP, GL_KEEP, GL_KEEP) (GL_KEEP, GL_KEEP, GL_KEEP)
    None (fun _ _ => None) 0 (fun _ => None) None 1 [] [] [].

Definition start_world : World := mkWorld (Scene_ctor 0 0) 0 None 0 0 start_gl.

Section SceneMethods.

(** [getRandom(lo, hi)] of MathSupport.h: [rnd k lo hi] is what its [k]-th
    call returns. *)
Variable rnd : nat -> R -> R -> R.

(** Index counts of the three meshes of the geometry provider. *)
Variables quadIndices cubeIndices cubeAdjacencyIndices : Z.

(** The GLM matrix builders. *)
Variable glm_translate : vec3.t -> mat4x4.
Variable glm_rotate : R -> vec3.t -> mat4x4.
Variable glm_scale : vec3.t -> mat4x4.
Variable glm_mul : mat4x4 -> mat4x4 -> mat4x4.
Variable glm_transpose : mat4x4 -> mat4x4.
Variable glm_lookAt : vec3.t -> vec3.t -> vec3.t -> mat4x4.
Variable glm_perspective : R -> R -> R -> R -> mat4x4.

Definition getRandom (lo hi : R) : M R :=
  fun w => Ok (rnd (rand_calls w) lo hi, with_rand_calls (S (rand_calls w)) w).

(** [Geometry::Create*()]: a new mesh with its own vertex array. *)
Definition Geometry_Create (indices : Z) : M (option Mesh) :=
  vao <- collaborator_name ;;
  ret (Some (mkMesh vao indices)).

(** [_textures.CreateSamplers()] *)
Definition Textures_CreateSamplers : M unit :=
  sampler <- collaborator_name ;;
  fun w => Ok (tt, with_anisotropic sampler w).

Definition Init (numCubes numPointLights numSpotLights : Z) : M unit :=
  s <- this ;;
  (* Check if already initialized and return *)
  if negb (_vao s =? 0) then ret tt else
  modify (set_numCubes numCubes) ;;
  modify (set_numPointLights numPointLights) ;;
  modify (set_numSpotLights numSpotLights) ;;
  (* Prepare meshes *)
  quad <- Geometry_Create quadIndices ;;
  modify (set_quad quad) ;;
  cube <- Geometry_Create cubeIndices ;;
  modify (set_cube cube) ;;
  cubeAdjacency <- Geometry_Create cubeAdjacencyIndices ;;
  modify (set_cubeAdjacency cubeAdjacency) ;;
  (* Create general use VAO *)
  vao <- gen glGenVertexArrays ;;
  modify (set_vao vao) ;;
  (* Generate the instancing buffer as Uniform Buffer Object *)
  instancingBuffer <- gen glGenBuffers ;;
  modify (set_instancingBuffer instancingBuffer) ;;
  call (glBindBuffer instancingBuffer) ;;
  call (glBufferData (uniformBlockDataSize "InstanceBuffer")) ;;
  call (glBindBuffer 0) ;;
  (* Generate the transform UBO handle *)
  transformBlockUBO <- gen glGenBuffers ;;
  modify (set_transformBlockUBO transformBlockUBO) ;;
  call (glBindBuffer transformBlockUBO) ;;
  call (glBufferData (uniformBlockDataSize "TransformBlock")) ;;
  call (glBindBufferBase 0 transformBlockUBO) ;;
  call (glBindBuffer 0) ;;
  (* Position the first cube half a meter above origin *)
  reserve numCubes ;;
  push_cubePosition (vec3.make 0.0 0.5 0.0) ;;
  (* Generate random positions for the rest of the cubes *)
  for_ 1 numCubes (fun _ =>
    x <- getRandom (-5.0) 5.0 ;;
    y <- getRandom 1.0 5.0 ;;
    z <- getRandom (-5.0) 5.0 ;;
    push_cubePosition (vec3.make x y z)) ;;
  (* Ambient intensity for the lights *)
  let ambientIntensity := f32.div (f32.Finite 1e-3) (f32.of_int numPointLights) in
  (* Position & color of the first light *)
  reserve numPointLights ;;
  let p := vec4.make 0.0 1.0 0.0 0.0 in
  push_pointLight
    (PointLight.make (vec3.make (-3.0) 3.0 0.0)
       (fvec4.make (f32.Finite 10.0) (f32.Finite 10.0) (f32.Finite 10.0) ambientIntensity) p) ;;
  (* Generate random positions for the rest of the lights *)
  for_ 1 numPointLights (fun _ =>
    x <- getRandom (-2.0) 2.0 ;;
    y <- getRandom (-2.0) 2.0 ;;
    z <- getRandom (-2.0) 2.0 ;;
    w <- getRandom (-2.0) 2.0 ;;
    let p := vec4.make x y z w in
    r <- getRandom 0.0 5.0 ;;
    g <- getRandom 0.0 5.0 ;;
    b <- getRandom 0.0 5.0 ;;
    let c := fvec4.make (f32.Finite r) (f32.Finite g) (f32.Finite b) ambientIntensity in
    push_pointLight
      (PointLight.make (vec3.add offset (vec3.mul (lissajous p 0.0) scale)) c p)) ;;
  (* Same for spot lights *)
  reserve numSpotLights ;;
  for_ 0 numSpotLights (fun _ =>
    x <- getRandom (-2.0) 2.0 ;;
    y <- getRandom (-2.0) 2.0 ;;
    z <- getRandom (-2.0) 2.0 ;;
    w <- getRandom (-2.0) 2.0 ;;
    let p := vec4.make x y z w in
    r <- getRandom 0.0 5.0 ;;
    g <- getRandom 0.0 5.0 ;;
    b <- getRandom 0.0 5.0 ;;
    let c := fvec4.make (f32.Finite r) (f32.Finite g) (f32.Finite b) ambientIntensity in
    s <- getRandom (-2.0) 2.0 ;;
    t <- getRandom (-2.0) 2.0 ;;
    u <- getRandom (-2.0) 2.0 ;;
    let dir := vec3.make s t u in
    push_spotLight
      (SpotLight.make (vec3.add offset (vec3.mul (lissajous p 0.0) scale)) c p dir
         (radians 12.5) (radians 17.5))) ;;
  (* Create texture samplers *)
  Textures_CreateSamplers ;;
  (* Prepare textures *)
  white <- collaborator_name ;; set_loadedTexture LoadedTextures.White white ;;
  grey <- collaborator_name ;; set_loadedTexture LoadedTextures.Grey grey ;;
  blue <- collaborator_name ;; set_loadedTexture LoadedTextures.Blue blue ;;
  checkerBoard <- collaborator_name ;; set_loadedTexture LoadedTextures.CheckerBoard checkerBoard ;;
  diffuse <- collaborator_name ;; set_loadedTexture LoadedTextures.Diffuse diffuse ;;
  normal <- collaborator_name ;; set_loadedTexture LoadedTextures.Normal normal ;;
  specular <- collaborator_name ;; set_loadedTexture LoadedTextures.Specular specular ;;
  occlusion <- collaborator_name ;; set_loadedTexture LoadedTextures.Occlusion occlusion.

Definition Update (dt : R) : M unit :=
  (* Animation timer *)
  w <- get ;;
  let t := Update_t w in
  (* Treat the first light as a special case with offset *)
  s <- this ;;
  l0 <- at_ (_pointLights s) 0 ;;
  assign_pointLight_position 0
    (vec3.add (vec3.make (-3.0) 2.0 0.0) (lissajous (PointLight.movement l0) t)) ;;
  (* Update the rest of the lights *)
  for_ 1 (_numPointLights s) (fun i =>
    s <- this ;;
    l <- at_ (_pointLights s) i ;;
    assign_pointLight_position i
      (vec3.add offset (vec3.mul (lissajous (PointLight.movement l) t) scale))) ;;
  (* Update the spot lights as well *)
  for_ 0 (_numSpotLights s) (fun i =>
    s <- this ;;
    l <- at_ (_spotLights s) i ;;
    assign_spotLight_position i
      (vec3.add offset (vec3.mul (lissajous (SpotLight.movement l) t) scale)) ;;
    let origin := vec3.splat 0.0 in
    s <- this ;;
    l <- at_ (_spotLights s) i ;;
    assign_spotLight_direction i (vec3.normalize (vec3.sub origin (SpotLight.position l)))) ;;
  (* Update the animation timer *)
  fun w => Ok (tt, with_Update_t (t + dt)%R w).

Definition BindTextures (diffuse normal specular occlusion : Z) : M unit :=
  w <- get ;;
  (* We want to bind textures and appropriate samplers *)
  call (glActiveTexture 0) ;;
  call (glBindTexture diffuse) ;;
  call (glBindSampler 0 (anisotropic w)) ;;
  call (glActiveTexture 1) ;;
  call (glBindTexture normal) ;;
  call (glBindSampler 1 (anisotropic w)) ;;
  call (glActiveTexture 2) ;;
  call (glBindTexture specular) ;;
  call (glBindSampler 2 (anisotropic w)) ;;
  call (glActiveTexture 3) ;;
  call (glBindTexture occlusion) ;;
  call (glBindSampler 3 (anisotropic w)).

(** [memcpy(ptr, &*instanceData.begin(), bytes)] into the mapped buffer:
    reading past the vector, writing past the buffer's data store or through
    a null [ptr] is undefined behaviour. *)
Definition memcpy_instanceData (bytes : Z) : M unit :=
  w <- get ;;
  match instanceData w, gl_mapped (gl w) with
  | Some data, Some buffer =>
      match gl_bufferSize (gl w) buffer with
      | Some size =>
          if (bytes <=? Z.of_nat (length data) * sizeof_InstanceData) && (bytes <=? size)
          then call (memcpy_mapped bytes
                       (map transformation (firstn (Z.to_nat (bytes / sizeof_InstanceData)) data)))
          else undefined
      | None => undefined
      end
  | _, _ => undefined
  end.

Definition UpdateInstanceData : M unit :=
  (* Instance data CPU side buffer *)
  w <- get ;;
  match instanceData w with
  | Some _ => ret tt
  | None =>
      fun w => Ok (tt, with_instanceData
                         (Some (repeat (mkInstanceData (repeat 0%R 12)) (Z.to_nat MAX_INSTANCES))) w)
  end ;;
  s <- this ;;
  (* Cubes *)
  let angle := 20.0%R in
  for_ 0 (_numCubes s) (fun i =>
    p <- at_ (_cubePositions s) i ;;
    let transformation := glm_translate p in
    let transformation :=
      glm_mul transformation
        (glm_rotate (radians (IZR i * angle)) (vec3.make 1.0 1.0 1.0)) in
    w <- get ;;
    match instanceData w with
    | Some data =>
        at_ data i ;;
        fun w => Ok (tt, with_instanceData
                           (Some (assign data (Z.to_nat i)
                                    (mkInstanceData (to_mat3x4 (glm_transpose transformation))))) w)
    | None => undefined
    end) ;;
  (* Bind the instancing buffer to the index 1 *)
  call (glBindBufferBase 1 (_instancingBuffer s)) ;;
  (* Update the buffer data using mapping *)
  call glMapBuffer ;;
  memcpy_instanceData ((_numCubes s * sizeof_InstanceData) mod 2 ^ 64) ;;
  call glUnmapBuffer ;;
  (* Unbind the instancing buffer *)
  call (glBindBufferBase 1 0).

Definition UpdateProgramData (program : ShaderProgram.t) (renderPass : Z) (camera : Camera)
    (lightPosition : vec3.t) (lightColor : fvec4.t)
    (lightDirection : vec3.t) (cutOff outerCutOff : R) : M unit :=
  (* Update the light position, use 4th component to pass direct light intensity *)
  when (has renderPass (Z.lor RenderPass.ShadowPass RenderPass.LightPass))
    (call (glUniform4f (UniformNamed program "lightPosWS")
             (f32.Finite (vec3.x lightPosition)) (f32.Finite (vec3.y lightPosition))
             (f32.Finite (vec3.z lightPosition))
             (f32.Finite (if has renderPass RenderPass.DirectLight then 1.0 else 0.0)))) ;;
  (* Update view position and light color *)
  when (has renderPass RenderPass.LightPass)
    ((* Update the view position *)
     let viewPos := column3 (GetViewToWorld camera) in
     call (glUniform4fv (UniformNamed program "viewPosWS") (vec4.value_ptr viewPos)) ;;
     (* Update the light color, 4th component controls ambient light intensity *)
     call (glUniform4f (UniformNamed program "lightColor")
             (fvec4.x lightColor) (fvec4.y lightColor) (fvec4.z lightColor)
             (if has renderPass RenderPass.AmbientLight then fvec4.w lightColor
              else f32.Finite 0.0))).

Definition UpdateTransformBlockSingleSpotLight (light : Z) : M unit :=
  s <- this ;;
  (* Tell OpenGL we want to work with our transform block *)
  call (glBindBuffer (_transformBlockUBO s)) ;;
  (* Update the world to view transformation matrix *)
  l <- at_ (_spotLights s) light ;;
  let lightViewMatrix :=
    glm_lookAt (SpotLight.position l)
      (vec3.add (SpotLight.position l) (SpotLight.direction l)) (vec3.make 0.0 1.0 0.0) in
  let worldToView := to_mat3x4 (glm_transpose lightViewMatrix) in
  call (glBufferSubData 0 sizeof_mat3x4 worldToView) ;;
  let near_plane := 0.1%R in
  let far_plane := 1000.1%R in
  let SHADOW_WIDTH := 1024 in
  let SHADOW_HEIGHT := 1024 in
  let lightProjectionMatrix :=
    glm_perspective (radians 45.0) (IZR SHADOW_WIDTH / IZR SHADOW_HEIGHT)%R
      near_plane far_plane in
  (* Update the projection matrix *)
  call (glBufferSubData sizeof_mat3x4 sizeof_mat4x4 lightProjectionMatrix) ;;
  (* Unbind the GL_UNIFORM_BUFFER target for now *)
  call (glBindBuffer 0).

Definition UpdateTransformBlock (camera : Camera) : M unit :=
  s <- this ;;
  (* Tell OpenGL we want to work with our transform block *)
  call (glBindBuffer (_transformBlockUBO s)) ;;
  (* Update the world to view transformation matrix *)
  let worldToView := to_mat3x4 (glm_transpose (GetWorldToView camera)) in
  call (glBufferSubData 0 sizeof_mat3x4 worldToView) ;;
  (* Update the projection matrix *)
  call (glBufferSubData sizeof_mat3x4 sizeof_mat4x4 (GetProjection camera)) ;;
  (* Unbind the GL_UNIFORM_BUFFER target for now *)
  call (glBindBuffer 0).

Definition DrawBackground (program : ShaderProgram.t) (renderPass : Z) (camera : Camera)
    (lightPosition : vec3.t) (lightColor : fvec4.t)
    (lightDirection : vec3.t) (cutOff outerCutOff : R) : M unit :=
  s <- this ;;
  (* Bind the shader program and update its data *)
  call (glUseProgram program) ;;
  UpdateProgramData program renderPass camera lightPosition lightColor lightDirection
    cutOff outerCutOff ;;
  (* Bind textures *)
  when (has renderPass RenderPass.LightPass)
    (BindTextures (loadedTexture s LoadedTextures.CheckerBoard)
       (loadedTexture s LoadedTextures.Blue) (loadedTexture s LoadedTextures.Grey)
       (loadedTexture s LoadedTextures.White)) ;;
  (* Bind the geometry *)
  quad <- deref (_quad s) ;;
  call (glBindVertexArray (GetVAO quad)) ;;
  (* Draw floor *)
  let transformation := glm_scale (vec3.make 30.0 1.0 30.0) in
  call (glUniformMatrix4x3fv (UniformAt 0) (to_mat4x3 transformation)) ;;
  call (glDrawElements GL_TRIANGLES (GetIBOSize quad)) ;;
  (* Draw Z axis wall *)
  let transformation := glm_translate (vec3.make 0.0 0.0 15.0) in
  let transformation := glm_mul transformation (glm_rotate (- PI_HALF) (vec3.make 1.0 0.0 0.0)) in
  let transformation := glm_mul transformation (glm_scale (vec3.make 30.0 1.0 30.0)) in
  call (glUniformMatrix4x3fv (UniformAt 0) (to_mat4x3 transformation)) ;;
  call (glDrawElements GL_TRIANGLES (GetIBOSize quad)) ;;
  (* Draw X axis wall *)
  let transformation := glm_translate (vec3.make 15.0 0.0 0.0) in
  let transformation := glm_mul transformation (glm_rotate PI_HALF (vec3.make 0.0 0.0 1.0)) in
  let transformation := glm_mul transformation (glm_scale (vec3.make 30.0 1.0 30.0)) in
  call (glUniformMatrix4x3fv (UniformAt 0) (to_mat4x3 transformation)) ;;
  call (glDrawElements GL_TRIANGLES (GetIBOSize quad)).

Definition DrawObjects (program : ShaderProgram.t) (renderPass : Z) (camera : Camera)
    (lightPosition : vec3.t) (lightColor : fvec4.t)
    (lightDirection : vec3.t) (cutOff outerCutOff : R) : M unit :=
  s <- this ;;
  (* Bind the shader program and update its data *)
  call (glUseProgram program) ;;
  UpdateProgramData program renderPass camera lightPosition lightColor lightDirection
    cutOff outerCutOff ;;
  (* Bind the instancing buffer to the index 1 *)
  call (glBindBufferBase 1 (_instancingBuffer s)) ;;
  (* Bind textures *)
  when (has renderPass RenderPass.LightPass)
    (BindTextures (loadedTexture s LoadedTextures.Diffuse)
       (loadedTexture s LoadedTextures.Normal) (loadedTexture s LoadedTextures.Specular)
       (loadedTexture s LoadedTextures.Occlusion)) ;;
  (* Draw cubes based on the renderPass *)
  (if has renderPass RenderPass.ShadowVolume
   then
     cubeAdjacency <- deref (_cubeAdjacency s) ;;
     call (glBindVertexArray (GetVAO cubeAdjacency)) ;;
     call (glDrawElementsInstanced GL_TRIANGLES_ADJACENCY (GetIBOSize cubeAdjacency)
             (_numCubes s))
   else
     cube <- deref (_cube s) ;;
     call (glBindVertexArray (GetVAO cube)) ;;
     call (glDrawElementsInstanced GL_TRIANGLES (GetIBOSize cube) (_numCubes s))) ;;
  (* Unbind the instancing buffer *)
  call (glBindBufferBase 1 0) ;;
  (* Draw the light object during the ambient pass *)
  when (has renderPass RenderPass.AmbientLight)
    (call (glUseProgram ShaderProgram.PointRendering) ;;
     (* Update the light position *)
     call (glUniform3fv (UniformNamed ShaderProgram.PointRendering "position")
             [f32.Finite (vec3.x lightPosition); f32.Finite (vec3.y lightPosition);
              f32.Finite (vec3.z lightPosition)]) ;;
     (* Update the color *)
     call (glUniform3fv (UniformNamed ShaderProgram.PointRendering "color")
             (firstn 3 (fvec4.value_ptr (fvec4.scale lightColor (f32.Finite 0.05))))) ;;
     (* Disable blending for lights *)
     call (glDisable GL_BLEND) ;;
     call (glPointSize 10.0) ;;
     call (glBindVertexArray (_vao s)) ;;
     call (glDrawArrays GL_POINTS 0 1)).

(** The [depthPass] lambda, the same in [Draw] and in [DrawDepthSingleSpotLight]. *)
Definition depthPass (camera : Camera) : M unit :=
  (* No need to pass real light position and color as we don't need them in the depth pass *)
  DrawBackground ShaderProgram.DefaultDepthPass RenderPass.DepthPass camera
    (vec3.splat 0.0) (fvec4.splat (f32.Finite 0.0)) (vec3.splat 0.0) 0.0 0.0 ;;
  DrawObjects ShaderProgram.InstancingDepthPass RenderPass.DepthPass camera
    (vec3.splat 0.0) (fvec4.splat (f32.Finite 0.0)) (vec3.splat 0.0) 0.0 0.0.

Definition DrawDepthSingleSpotLight (camera : Camera) (renderMode : RenderMode) (light : Z)
    : M unit :=
  UpdateTransformBlockSingleSpotLight light ;;
  (* Update the scene *)
  UpdateInstanceData ;;
  (* Enable/disable MSAA rendering *)
  (if 1 <? msaaLevel renderMode
   then call (glEnable GL_MULTISAMPLE)
   else call (glDisable GL_MULTISAMPLE)) ;;
  (* Enable backface culling *)
  call (glEnable GL_CULL_FACE) ;;
  call (glCullFace GL_BACK) ;;
  (* Enable/disable wireframe *)
  call (glPolygonMode GL_FRONT_AND_BACK (if wireframe renderMode then GL_LINE else GL_FILL)) ;;
  (* Enable depth test, clamp, and write *)
  call (glEnable GL_DEPTH_TEST) ;;
  call (glEnable GL_DEPTH_CLAMP) ;;
  call (glDepthFunc GL_LEQUAL) ;;
  call (glDepthMask true) ;;
  (* Clear the color and depth buffer *)
  call (glClearColor 0.0 0.0 0.0 1.0) ;;
  call (glClear (Z.lor GL_COLOR_BUFFER_BIT GL_DEPTH_BUFFER_BIT)) ;;
  (* Render the scene into the depth buffer only, disable color write *)
  call (glColorMask false false false false) ;;
  depthPass camera ;;
  (* We primed the depth buffer, no need to write to it anymore *)
  call (glDepthMask false).

(** The [spotLightSourceDepthPass] lambda of [Draw]; [Draw] never calls it. *)
Definition spotLightSourceDepthPass (camera : Camera) (lightPosition : vec3.t)
    (lightColor : fvec4.t) (lightDirection : vec3.t) (cutOff outerCutOff : R) : M unit :=
  (* Add the uniform of light projection and view matrices *)
  let near_plane := 1.0%R in
  let far_plane := 7.5%R in
  let SHADOW_WIDTH := 1024 in
  let SHADOW_HEIGHT := 1024 in
  let lightProjectionMatrix :=
    glm_perspective (radians 45.0) (IZR SHADOW_WIDTH / IZR SHADOW_HEIGHT)%R
      near_plane far_plane in
  call (glUniformMatrix4fv (UniformNamed ShaderProgram.LightSourceDepthPass "lightProjection")
          lightProjectionMatrix) ;;
  let lightViewMatrix :=
    glm_lookAt lightPosition (vec3.add lightPosition lightDirection) (vec3.make 0.0 1.0 0.0) in
  call (glUniformMatrix4fv (UniformNamed ShaderProgram.LightSourceDepthPass "lightView")
          lightViewMatrix) ;;
  (* Render the scene as usual, but from the light source position *)
  DrawBackground ShaderProgram.LightSourceDepthPass RenderPass.DepthPass camera lightPosition
    lightColor lightDirection cutOff outerCutOff.

(** The [lightPass] lambda of [Draw]. *)
Definition lightPass (camera : Camera) (renderPass : Z) (lightPosition : vec3.t)
    (lightColor : fvec4.t) : M unit :=
  (* Enable additive alpha blending *)
  call (glEnable GL_BLEND) ;;
  call glBlendEquation_FUNC_ADD ;;
  call glBlendFunc_ONE_ONE ;;
  (* Pass only if equal to 0, i.e., outside shadow volume *)
  call (glStencilFunc GL_EQUAL 0x00 0xff) ;;
  (* Don't update the stencil buffer *)
  call (glStencilOp GL_KEEP GL_KEEP GL_KEEP) ;;
  DrawBackground ShaderProgram.Default renderPass camera lightPosition lightColor
    (vec3.splat 0.0) 0.0 0.0 ;;
  DrawObjects ShaderProgram.Instancing renderPass camera lightPosition lightColor
    (vec3.splat 0.0) 0.0 0.0 ;;
  (* Disable blending after this pass *)
  call (glDisable GL_BLEND).

(** The [shadowVolumePass] lambda of [Draw]. *)
Definition shadowVolumePass (camera : Camera) (carmackReverse : bool)
    (lightPosition : vec3.t) (lightColor : fvec4.t) : M unit :=
  (* Disable face culling *)
  call (glDisable GL_CULL_FACE) ;;
  (* Always pass the stencil test *)
  call (glStencilFunc GL_ALWAYS 0x00 0xff) ;;
  (if carmackReverse
   then
     (* Set stencil operations for depth fail algorithm (licensed)
        arguments: face, stencil fail, depth fail, depth pass *)
     call (glStencilOpSeparate GL_BACK GL_KEEP GL_INCR_WRAP GL_KEEP) ;;
     call (glStencilOpSeparate GL_FRONT GL_KEEP GL_DECR_WRAP GL_KEEP)
   else
     (* Set stencil operations for depth pass algorithm
        arguments: face, stencil fail, depth fail, depth pass *)
     call (glStencilOpSeparate GL_BACK GL_KEEP GL_KEEP GL_DECR_WRAP) ;;
     call (glStencilOpSeparate GL_FRONT GL_KEEP GL_KEEP GL_INCR_WRAP)) ;;
  DrawObjects ShaderProgram.InstancedShadowVolume RenderPass.ShadowVolume camera lightPosition
    lightColor (vec3.splat 0.0) 0.0 0.0 ;;
  (* Enable it back again *)
  call (glEnable GL_CULL_FACE).

Definition Draw (camera : Camera) (renderMode : RenderMode) (carmackReverse : bool) : M unit :=
  UpdateTransformBlock camera ;;
  (* Update the scene *)
  UpdateInstanceData ;;
  (* Enable/disable MSAA rendering *)
  (if 1 <? msaaLevel renderMode
   then call (glEnable GL_MULTISAMPLE)
   else call (glDisable GL_MULTISAMPLE)) ;;
  (* Enable backface culling *)
  call (glEnable GL_CULL_FACE) ;;
  call (glCullFace GL_BACK) ;;
  (* Enable/disable wireframe *)
  call (glPolygonMode GL_FRONT_AND_BACK (if wireframe renderMode then GL_LINE else GL_FILL)) ;;
  (* Enable depth test, clamp, and write *)
  call (glEnable GL_DEPTH_TEST) ;;
  call (glEnable GL_DEPTH_CLAMP) ;;
  call (glDepthFunc GL_LEQUAL) ;;
  call (glDepthMask true) ;;
  (* Clear the color and depth buffer *)
  call (glClearColor 0.0 0.0 0.0 1.0) ;;
  call (glClear (Z.lor GL_COLOR_BUFFER_BIT GL_DEPTH_BUFFER_BIT)) ;;
  (* Render the scene into the depth buffer only, disable color write *)
  call (glColorMask false false false false) ;;
  depthPass camera ;;
  (* We primed the depth buffer, no need to write to it anymore *)
  call (glDepthMask false) ;;
  s <- this ;;
  (* For each light we need to render the scene with its contribution *)
  for_ 0 (_numPointLights s) (fun i =>
    (* Enable stencil test and clear the stencil buffer *)
    call (glClear GL_STENCIL_BUFFER_BIT) ;;
    call (glEnable GL_STENCIL_TEST) ;;
    (* Draw shadow volumes first, disable color write *)
    call (glColorMask false false false false) ;;
    l <- at_ (_pointLights s) i ;;
    shadowVolumePass camera carmackReverse (PointLight.position l) (PointLight.color l) ;;
    (* Draw direct light utilizing stenciled shadows, enable color write *)
    call (glColorMask true true true true) ;;
    lightPass camera RenderPass.DirectLight (PointLight.position l) (PointLight.color l) ;;
    (* Disable stencil test as we don't want shadows to affect ambient light *)
    call (glDisable GL_STENCIL_TEST) ;;
    lightPass camera RenderPass.AmbientLight (PointLight.position l) (PointLight.color l)) ;;
  (* For each spot light we need to render the scene with a shadow map *)
  for_ 0 (_numSpotLights s) (fun i =>
    (* I don't need stencil for shadow maps *)
    call (glClear GL_STENCIL_BUFFER_BIT) ;;
    call (glDisable GL_STENCIL_TEST) ;;
    (* Disable stencil test as we don't want shadows to affect ambient light *)
    call (glDisable GL_STENCIL_TEST) ;;
    l <- at_ (_spotLights s) i ;;
    lightPass camera RenderPass.AmbientLight (SpotLight.position l) (SpotLight.color l)) ;;
  (* Don't forget to leave the color write enabled *)
  call (glColorMask true true true true).

(** The frame loop of the application calls [Update] once per frame, with
    that frame's [dt]. *)
Fixpoint Updates (dts : list R) : M unit :=
  match dts with
  | [] => ret tt
  | dt :: rest => Update dt ;; Updates rest
  end.

(* ------------------------------------------------------------------------- *)
(** ** Closed forms, used to state what the methods compute *)

(** The lights of [Update] at clock value [t]. *)
Definition moved_hero (t : R) (l : PointLight.t) : PointLight.t :=
  PointLight.set_position
    (vec3.add (vec3.make (-3.0) 2.0 0.0) (lissajous (PointLight.movement l) t)) l.

Definition moved_point (t : R) (l : PointLight.t) : PointLight.t :=
  PointLight.set_position
    (vec3.add offset (vec3.mul (lissajous (PointLight.movement l) t) scale)) l.

Definition moved_spot (t : R) (l : SpotLight.t) : SpotLight.t :=
  let position := vec3.add offset (vec3.mul (lissajous (SpotLight.movement l) t) scale) in
  SpotLight.set_direction (vec3.normalize (vec3.sub (vec3.splat 0.0) position))
    (SpotLight.set_position position l).

Definition moved_pointLights (t : R) (ls : list PointLight.t) : list PointLight.t :=
  match ls with
  | [] => []
  | hero :: rest => moved_hero t hero :: map (moved_point t) rest
  end.

Definition lights_at (t : R) (s : Scene) : Scene :=
  set_spotLights (map (moved_spot t) (_spotLights s))
    (set_pointLights (moved_pointLights t (_pointLights s)) s).

(** What [Init] builds from the samples, the first of them being call [k]. *)
Definition randomCube (k : nat) : vec3.t :=
  vec3.make (rnd k (-5.0) 5.0) (rnd (1 + k) 1.0 5.0) (rnd (2 + k) (-5.0) 5.0).

Definition randomMovement (k : nat) : vec4.t :=
  vec4.make (rnd k (-2.0) 2.0) (rnd (1 + k) (-2.0) 2.0) (rnd (2 + k) (-2.0) 2.0)
    (rnd (3 + k) (-2.0) 2.0).

Definition randomColor (ambientIntensity : f32.t) (k : nat) : fvec4.t :=
  fvec4.make (f32.Finite (rnd k 0.0 5.0)) (f32.Finite (rnd (1 + k) 0.0 5.0))
    (f32.Finite (rnd (2 + k) 0.0 5.0)) ambientIntensity.

Definition randomDirection (k : nat) : vec3.t :=
  vec3.make (rnd k (-2.0) 2.0) (rnd (1 + k) (-2.0) 2.0) (rnd (2 + k) (-2.0) 2.0).

Definition randomPointLight (ambientIntensity : f32.t) (k : nat) : PointLight.t :=
  PointLight.make (vec3.add offset (vec3.mul (lissajous (randomMovement k) 0.0) scale))
    (randomColor ambientIntensity (4 + k)) (randomMovement k).

Definition randomSpotLight (ambientIntensity : f32.t) (k : nat) : SpotLight.t :=
  SpotLight.make (vec3.add offset (vec3.mul (lissajous (randomMovement k) 0.0) scale))
    (randomColor ambientIntensity (4 + k)) (randomMovement k) (randomDirection (7 + k))
    (radians 12.5) (radians 17.5).

Definition heroLight (ambientIntensity : f32.t) : PointLight.t :=
  PointLight.make (vec3.make (-3.0) 3.0 0.0)
    (fvec4.make (f32.Finite 10.0) (f32.Finite 10.0) (f32.Finite 10.0) ambientIntensity)
    (vec4.make 0.0 1.0 0.0 0.0).

(** [n] items, the [j]-th of them made from the samples that start at call
    [j * stride + k]. *)
Definition drawn {A : Type} (item : nat -> A) (stride k n : nat) : list A :=
  map (fun j => item (j * stride + k)%nat) (seq 0 n).

(** One turn of each of the three loops of [Init]. *)
Definition cube_step (w : World) : World :=
  with_rand_calls (3 + rand_calls w)
    (with_scene (set_cubePositions (_cubePositions (scene w) ++ [randomCube (rand_calls w)])
                   (scene w)) w).

Definition point_step (amb : f32.t) (w : World) : World :=
  with_rand_calls (7 + rand_calls w)
    (with_scene (set_pointLights (_pointLights (scene w) ++ [randomPointLight amb (rand_calls w)])
                   (scene w)) w).

Definition spot_step (amb : f32.t) (w : World) : World :=
  with_rand_calls (10 + rand_calls w)
    (with_scene (set_spotLights (_spotLights (scene w) ++ [randomSpotLight amb (rand_calls w)])
                   (scene w)) w).

(** The instance transforms of [UpdateInstanceData], for the cubes from index
    [i] on. *)
Definition instance_of (i : nat) (p : vec3.t) : InstanceData :=
  mkInstanceData
    (to_mat3x4
       (glm_transpose
          (glm_mul (glm_translate p)
             (glm_rotate (radians (IZR (Z.of_nat i) * 20.0)) (vec3.make 1.0 1.0 1.0))))).

Fixpoint instances (i : nat) (ps : list vec3.t) : list InstanceData :=
  match ps with
  | [] => []
  | p :: ps' => instance_of i p :: instances (S i) ps'
  end.

(** The scene as its constructor leaves it, apart from the two counts. *)
Definition constructed (s : Scene) : Prop :=
  _vao s = 0 /\ _cubePositions s = [] /\ _pointLights s = [] /\ _spotLights s = [].

(** The invariant between the counts and the vectors that [Init] establishes. *)
Definition lights_sized (s : Scene) : Prop :=
  List.length (_pointLights s) = S (Z.to_nat (_numPointLights s - 1)) /\
  List.length (_spotLights s) = Z.to_nat (_numSpotLights s).

(** What [Init] leaves behind and the per-frame methods rely on. *)
Definition initialized (w : World) : Prop :=
  0 <= _numCubes (scene w) /\
  List.length (_cubePositions (scene w)) = S (Z.to_nat (_numCubes (scene w) - 1)) /\
  lights_sized (scene w) /\
  _quad (scene w) <> None /\ _cube (scene w) <> None /\ _cubeAdjacency (scene w) <> None /\
  gl_bufferSize (gl w) (_instancingBuffer (scene w))
    = Some (uniformBlockDataSize "InstanceBuffer") /\
  (forall data, instanceData w = Some data -> List.length data = Z.to_nat MAX_INSTANCES).

(** What a first [Init] leaves. *)
Definition Init_leaves (nc np ns : Z) (w w' : World) : Prop :=
  let amb := f32.div (f32.Finite 1e-3) (f32.of_int np) in
  let k1 := rand_calls w in
  let k2 := (Z.to_nat (nc - 1) * 3 + k1)%nat in
  let k3 := (Z.to_nat (np - 1) * 7 + k2)%nat in
  _vao (scene w') <> 0 /\
  _numCubes (scene w') = nc /\
  _numPointLights (scene w') = np /\
  _numSpotLights (scene w') = ns /\
  _cubePositions (scene w')
    = _cubePositions (scene w)
      ++ vec3.make 0.0 0.5 0.0 :: drawn randomCube 3 k1 (Z.to_nat (nc - 1)) /\
  _pointLights (scene w')
    = _pointLights (scene w)
      ++ heroLight amb :: drawn (randomPointLight amb) 7 k2 (Z.to_nat (np - 1)) /\
  _spotLights (scene w')
    = _spotLights (scene w) ++ drawn (randomSpotLight amb) 10 k3 (Z.to_nat ns) /\
  _quad (scene w') <> None /\ _cube (scene w') <> None /\ _cubeAdjacency (scene w') <> None /\
  gl_bufferSize (gl w') (_instancingBuffer (scene w'))
    = Some (uniformBlockDataSize "InstanceBuffer") /\
  instanceData w' = instanceData w /\
  Update_t w' = Update_t w.

(** The stretch of [Draw] from the instance upload to the end of the depth
    pre-pass, as one computation. *)
Definition primeDepth (camera : Camera) (renderMode : RenderMode) : M unit :=
  (* Update the scene *)
  UpdateInstanceData ;;
  (* Enable/disable MSAA rendering *)
  (if 1 <? msaaLevel renderMode
   then call (glEnable GL_MULTISAMPLE)
   else call (glDisable GL_MULTISAMPLE)) ;;
  (* Enable backface culling *)
  call (glEnable GL_CULL_FACE) ;;
  call (glCullFace GL_BACK) ;;
  (* Enable/disable wireframe *)
  call (glPolygonMode GL_FRONT_AND_BACK (if wireframe renderMode then GL_LINE else GL_FILL)) ;;
  (* Enable depth test, clamp, and write *)
  call (glEnable GL_DEPTH_TEST) ;;
  call (glEnable GL_DEPTH_CLAMP) ;;
  call (glDepthFunc GL_LEQUAL) ;;
  call (glDepthMask true) ;;
  (* Clear the color and depth buffer *)
  call (glClearColor 0.0 0.0 0.0 1.0) ;;
  call (glClear (Z.lor GL_COLOR_BUFFER_BIT GL_DEPTH_BUFFER_BIT)) ;;
  (* Render the scene into the depth buffer only, disable color write *)
  call (glColorMask false false false false) ;;
  depthPass camera ;;
  (* We primed the depth buffer, no need to write to it anymore *)
  call (glDepthMask false).

(** *** The passes of a frame, as the pipeline sees them *)

Inductive Pass : Type :=
| FrameClear
| DepthPrime
| StencilClear
| ShadowVolume (carmackReverse : bool) (lightPosition : vec3.t)
| DirectLight (lightPosition : vec3.t) (lightColor : fvec4.t)
| AmbientLight (colorWrite : bool) (lightPosition : vec3.t) (lightColor : fvec4.t).

(** What a pass sends down the pipeline: a clear, a draw of the quad (the
    floor or a wall), the instanced draw of the cubes, the marker of the
    light source. *)
Inductive Drawing : Type :=
| Clear
| Quad
| Cubes
| Marker.

Definition drawings (p : Pass) : list Drawing :=
  match p with
  | FrameClear | StencilClear => [Clear]
  | DepthPrime | DirectLight _ _ => [Quad; Quad; Quad; Cubes]
  | ShadowVolume _ _ => [Cubes]
  | AmbientLight _ _ _ => [Quad; Quad; Quad; Cubes; Marker]
  end.

(** The primitive mode of an instanced draw. *)
Definition instanced (d : DrawState) : option GLprimitive :=
  match ds_call d with
  | glDrawElementsInstanced mode _ _ => Some mode
  | _ => None
  end.

Definition all4 (b : bool) : bool * bool * bool * bool := (b, b, b, b).

Definition uniform4 (v : vec3.t) (w : f32.t) : option fvec4.t :=
  Some (fvec4.make (f32.Finite (vec3.x v)) (f32.Finite (vec3.y v)) (f32.Finite (vec3.z v)) w).

(** The index count of a mesh. *)
Definition indices (mesh : option Mesh) : Z :=
  match mesh with
  | Some m => GetIBOSize m
  | None => 0
  end.

(** The draw call of a drawing, and the program it runs. *)
Definition call_of (s : Scene) (p : Pass) (k : Drawing) : option GLcall :=
  match k, p with
  | Quad, (DepthPrime | DirectLight _ _ | AmbientLight _ _ _) =>
      Some (glDrawElements GL_TRIANGLES (indices (_quad s)))
  | Cubes, ShadowVolume _ _ =>
      Some (glDrawElementsInstanced GL_TRIANGLES_ADJACENCY (indices (_cubeAdjacency s))
              (_numCubes s))
  | Cubes, (DepthPrime | DirectLight _ _ | AmbientLight _ _ _) =>
      Some (glDrawElementsInstanced GL_TRIANGLES (indices (_cube s)) (_numCubes s))
  | Marker, AmbientLight _ _ _ => Some (glDrawArrays GL_POINTS 0 1)
  | _, _ => None
  end.

Definition program_of (p : Pass) (k : Drawing) : option ShaderProgram.t :=
  match k, p with
  | Quad, DepthPrime => Some ShaderProgram.DefaultDepthPass
  | Cubes, DepthPrime => Some ShaderProgram.InstancingDepthPass
  | Cubes, ShadowVolume _ _ => Some ShaderProgram.InstancedShadowVolume
  | Quad, (DirectLight _ _ | AmbientLight _ _ _) => Some ShaderProgram.Default
  | Cubes, (DirectLight _ _ | AmbientLight _ _ _) => Some ShaderProgram.Instancing
  | Marker, AmbientLight _ _ _ => Some ShaderProgram.PointRendering
  | _, _ => None
  end.

(** Colour write, depth write and face culling during a pass; the depth test
    is on, with [GL_LEQUAL], throughout. *)
Definition color_write (p : Pass) : bool :=
  match p with
  | DirectLight _ _ => true
  | AmbientLight colorWrite _ _ => colorWrite
  | _ => false
  end.

Definition depth_write (p : Pass) : bool :=
  match p with
  | DepthPrime => true
  | _ => false
  end.

Definition culling (p : Pass) : bool :=
  match p with
  | ShadowVolume _ _ => false
  | _ => true
  end.

(** The stencil test, the blending and the light uniforms of a drawing, as
    far as the pass sets them: the depth-prime pass sets none of them, the
    shadow-volume pass leaves blending as it finds it. *)
Definition pass_state (p : Pass) (k : Drawing) (d : DrawState) : Prop :=
  match p, k with
  | ShadowVolume carmackReverse lightPosition, _ =>
      ds_lightPosWS d = uniform4 lightPosition (f32.Finite 0.0) /\
      ds_stencilTest d = true /\ ds_stencilFunc d = (GL_ALWAYS, 0x00, 0xff) /\
      ds_stencilBack d = (if carmackReverse then (GL_KEEP, GL_INCR_WRAP, GL_KEEP)
                          else (GL_KEEP, GL_KEEP, GL_DECR_WRAP)) /\
      ds_stencilFront d = (if carmackReverse then (GL_KEEP, GL_DECR_WRAP, GL_KEEP)
                           else (GL_KEEP, GL_KEEP, GL_INCR_WRAP))
  | DirectLight lightPosition lightColor, _ =>
      ds_lightPosWS d = uniform4 lightPosition (f32.Finite 1.0) /\
      ds_lightColor d
        = Some (fvec4.make (fvec4.x lightColor) (fvec4.y lightColor) (fvec4.z lightColor)
                  (f32.Finite 0.0)) /\
      ds_stencilTest d = true /\ ds_stencilFunc d = (GL_EQUAL, 0x00, 0xff) /\
      ds_stencilBack d = (GL_KEEP, GL_KEEP, GL_KEEP) /\
      ds_stencilFront d = (GL_KEEP, GL_KEEP, GL_KEEP) /\
      ds_blend d = true
  | AmbientLight _ _ _, Marker =>
      ds_stencilTest d = false /\ ds_blend d = false
  | AmbientLight _ lightPosition lightColor, _ =>
      ds_lightPosWS d = uniform4 lightPosition (f32.Finite 0.0) /\
      ds_lightColor d
        = Some (fvec4.make (fvec4.x lightColor) (fvec4.y lightColor) (fvec4.z lightColor)
                  (fvec4.w lightColor)) /\
      ds_stencilTest d = false /\
      ds_blend d = true
  | _, _ => True
  end.

(** [realises s (p, k) e]: the event [e] is the drawing [k] of pass [p] in
    the scene [s]: that clear, or that draw call with the program and the
    pipeline state of the pass. *)
Definition realises (s : Scene) (pk : Pass * Drawing) (e : GLevent) : Prop :=
  match pk, e with
  | (FrameClear, Clear), Cleared mask => mask = Z.lor GL_COLOR_BUFFER_BIT GL_DEPTH_BUFFER_BIT
  | (StencilClear, Clear), Cleared mask => mask = GL_STENCIL_BUFFER_BIT
  | (p, k), Drawn d =>
      call_of s p k = Some (ds_call d) /\
      program_of p k = ds_program d /\
      ds_colorMask d = all4 (color_write p) /\
      ds_depthTest d = true /\ ds_depthFunc d = GL_LEQUAL /\
      ds_depthMask d = depth_write p /\
      ds_cullFace d = culling p /\
      pass_state p k d
  | _, _ => False
  end.

(** The passes of a frame, in order: for a point light and for a spot light
    the passes of its turn, each turn behind the stencil clear that opens it.
    No pass of a spot light switches colour write on: it is on when a point
    light has had its turn before. *)
Definition point_passes (carmackReverse : bool) (l : PointLight.t) : list Pass :=
  [StencilClear;
   ShadowVolume carmackReverse (PointLight.position l);
   DirectLight (PointLight.position l) (PointLight.color l);
   AmbientLight true (PointLight.position l) (PointLight.color l)].

Definition spot_passes (colorWrite : bool) (l : SpotLight.t) : list Pass :=
  [StencilClear; AmbientLight colorWrite (SpotLight.position l) (SpotLight.color l)].

Definition frame_passes (carmackReverse : bool) (s : Scene) : list Pass :=
  [FrameClear; DepthPrime]
  ++ flat_map (point_passes carmackReverse)
       (firstn (Z.to_nat (_numPointLights s)) (_pointLights s))
  ++ flat_map (spot_passes (0 <? _numPointLights s))
       (firstn (Z.to_nat (_numSpotLights s)) (_spotLights s)).

(** Every clear and draw of a run of passes, in order. *)
Definition pass_drawings (ps : list Pass) : list (Pass * Drawing) :=
  flat_map (fun p => map (pair p) (drawings p)) ps.

(** The state in which the depth pre-pass leaves the pipeline for the light
    passes, and every light pass leaves it for the next. *)
Definition primed (g : GLState) : Prop :=
  gl_caps g GL_CULL_FACE = true /\ gl_caps g GL_DEPTH_TEST = true /\
  gl_depthFunc g = GL_LEQUAL /\ gl_depthMask g = false.

(** The static vector as the current call finds or constructs it. *)
Definition instanceData_or_new (w : World) : list InstanceData :=
  match instanceData w with
  | Some data => data
  | None => repeat (mkInstanceData (repeat 0%R 12)) (Z.to_nat MAX_INSTANCES)
  end.

(** The static vector after the loop over the cubes. *)
Definition instanceData_updated (w : World) : list InstanceData :=
  let n := Z.to_nat (_numCubes (scene w)) in
  instances 0 (firstn n (_cubePositions (scene w))) ++ skipn n (instanceData_or_new w).

(** The context after the mapped upload. *)
Definition uploaded (w : World) : GLState :=
  exec (glBindBufferBase 1 0)
    (exec glUnmapBuffer
       (exec (memcpy_mapped (_numCubes (scene w) * sizeof_InstanceData)
                (map transformation
                   (firstn (Z.to_nat (_numCubes (scene w))) (instanceData_updated w))))
          (exec glMapBuffer
             (exec (glBindBufferBase 1 (_instancingBuffer (scene w))) (gl w))))).

(** [maintains I m]: started in a state where [I] holds, [m] returns, and
    [I] holds again. *)
Definition maintains {A : Type} (I : World -> Prop) (m : M A) : Prop :=
  forall w, I w -> exists a w', m w = Ok (a, w') /\ I w'.

(** The calls that create an object name or a data store. *)
Definition allocates (c : GLcall) : bool :=
  match c with
  | glGenVertexArrays | glGenBuffers | glBufferData _ => true
  | _ => false
  end.

(** [steady w0 w]: of the state [w0], [w] has the scene, the clock, the
    random source, the sampler, the object names and the data stores; its
    instance vector, once constructed, has its [MAX_INSTANCES] elements. *)
Definition steady (w0 w : World) : Prop :=
  scene w = scene w0 /\ Update_t w = Update_t w0 /\ rand_calls w = rand_calls w0 /\
  anisotropic w = anisotropic w0 /\
  gl_bufferSize (gl w) = gl_bufferSize (gl w0) /\ gl_names (gl w) = gl_names (gl w0) /\
  (forall data, instanceData w = Some data -> List.length data = Z.to_nat MAX_INSTANCES).





(** The fixed-function state a draw call runs under, in the context [g]. *)
Definition drawn_under (g : GLState) (d : DrawState) : Prop :=
  ds_colorMask d = gl_colorMask g /\
  ds_depthTest d = gl_caps g GL_DEPTH_TEST /\ ds_depthFunc d = gl_depthFunc g /\
  ds_depthMask d = gl_depthMask g /\
  ds_stencilTest d = gl_caps g GL_STENCIL_TEST /\ ds_stencilFunc d = gl_stencilFunc g /\
  ds_stencilBack d = gl_stencilBack g /\ ds_stencilFront d = gl_stencilFront g /\
  ds_cullFace d = gl_caps g GL_CULL_FACE /\ ds_blend d = gl_caps g GL_BLEND.

(** The same state, of a context. *)
Definition pipeline (g : GLState) :=
  (gl_caps g, gl_depthFunc g, gl_depthMask g, gl_colorMask g, gl_stencilFunc g,
   gl_stencilBack g, gl_stencilFront g).

(* ------------------------------------------------------------------------- *)
(** ** Running a method *)

Lemma bind_run {A B : Type} (m : M A) (k : A -> M B) w a w' r :
  m w = Ok (a, w') -> k a w' = r -> bind m k w = r.
Proof. intros H1 H2. unfold bind. now rewrite H1. Qed.

Lemma bind_undefined {A B : Type} (m : M A) (k : A -> M B) w :
  m w = Undefined -> bind m k w = Undefined.
Proof. intros H. unfold bind. now rewrite H. Qed.

Lemma bind_thrown {A B : Type} (m : M A) (k : A -> M B) w :
  m w = Thrown -> bind m k w = Thrown.
Proof. intros H. unfold bind. now rewrite H. Qed.

(** Keep the state in constructor form while a method is run call by call;
    the state is to be taken apart into its fields first. *)
Ltac norm :=
  lazy beta iota zeta delta
      [scene Update_t instanceData rand_calls anisotropic gl
       with_scene with_Update_t with_instanceData with_rand_calls with_anisotropic with_gl
       _loadedTextures _numCubes _cubePositions _numPointLights _pointLights _numSpotLights
       _spotLights _vao _quad _cube _cubeAdjacency _instancingBuffer _transformBlockUBO
       set_loadedTextures set_numCubes set_cubePositions set_numPointLights set_pointLights
       set_numSpotLights set_spotLights set_vao set_quad set_cube set_cubeAdjacency
       set_instancingBuffer set_transformBlockUBO
       gl_caps gl_depthFunc gl_depthMask gl_colorMask gl_stencilFunc gl_stencilBack
       gl_stencilFront gl_program gl_uniform4 gl_uniformBuffer gl_bufferSize gl_mapped
       gl_names gl_events gl_uploads gl_calls
       gl_set_caps gl_set_depthFunc gl_set_depthMask gl_set_colorMask gl_set_stencilFunc
       gl_set_stencilBack gl_set_stencilFront gl_set_program gl_set_uniform4
       gl_set_uniformBuffer gl_set_bufferSize gl_set_mapped gl_set_names gl_set_events
       gl_set_uploads gl_set_calls
       exec set_cap draw snapshot store_uniform4 gl_uniform Z.eqb negb
       GetVAO GetIBOSize ShaderProgram.eqb vec4.value_ptr].

(** The same, running the calls of a piece of straight-line code as well. *)
Ltac norm_run :=
  lazy beta iota zeta delta
      [scene Update_t instanceData rand_calls anisotropic gl
       with_scene with_Update_t with_instanceData with_rand_calls with_anisotropic with_gl
       _loadedTextures _numCubes _cubePositions _numPointLights _pointLights _numSpotLights
       _spotLights _vao _quad _cube _cubeAdjacency _instancingBuffer _transformBlockUBO
       set_loadedTextures set_numCubes set_cubePositions set_numPointLights set_pointLights
       set_numSpotLights set_spotLights set_vao set_quad set_cube set_cubeAdjacency
       set_instancingBuffer set_transformBlockUBO
       gl_caps gl_depthFunc gl_depthMask gl_colorMask gl_stencilFunc gl_stencilBack
       gl_stencilFront gl_program gl_uniform4 gl_uniformBuffer gl_bufferSize gl_mapped
       gl_names gl_events gl_uploads gl_calls
       gl_set_caps gl_set_depthFunc gl_set_depthMask gl_set_colorMask gl_set_stencilFunc
       gl_set_stencilBack gl_set_stencilFront gl_set_program gl_set_uniform4
       gl_set_uniformBuffer gl_set_bufferSize gl_set_mapped gl_set_names gl_set_events
       gl_set_uploads gl_set_calls
       exec set_cap draw snapshot store_uniform4 gl_uniform Z.eqb negb
       GetVAO GetIBOSize ShaderProgram.eqb vec4.value_ptr
       bind ret call get this modify when deref].

Ltac step_by tac := eapply bind_run; [tac | cbv beta; norm].
Ltac step := step_by ltac:(reflexivity).

Lemma nth_error_middle {A : Type} (pre : list A) a post :
  nth_error (pre ++ a :: post) (List.length pre) = Some a.
Proof. induction pre; simpl; auto. Qed.

Lemma assign_middle {A : Type} (pre : list A) a b post :
  assign (pre ++ a :: post) (List.length pre) b = pre ++ b :: post.
Proof. induction pre; simpl; [reflexivity | now rewrite IHpre]. Qed.

Lemma at_middle {A : Type} (pre : list A) a post w :
  at_ (pre ++ a :: post) (Z.of_nat (List.length pre)) w = Ok (a, w).
Proof.
  unfold at_.
  destruct (Z.of_nat (List.length pre) <? 0) eqn:E; [apply Z.ltb_lt in E; lia|].
  rewrite Nat2Z.id, nth_error_middle. reflexivity.
Qed.

Lemma at_beyond {A : Type} (v : list A) i w :
  Z.of_nat (List.length v) <= i -> at_ v i w = (Undefined : Outcome (A * World)).
Proof.
  intros H. unfold at_.
  destruct (i <? 0) eqn:E; [reflexivity|].
  apply Z.ltb_ge in E.
  destruct (nth_error v (Z.to_nat i)) eqn:N; [|reflexivity].
  assert (nth_error v (Z.to_nat i) <> None) as N' by congruence.
  apply nth_error_Some in N'. lia.
Qed.

Lemma iterate_const (body : M unit) (f : World -> World) :
  (forall w, body w = Ok (tt, f w)) ->
  forall n i w, iterate n i (fun _ => body) w = Ok (tt, Nat.iter n f w).
Proof.
  intros Hb. induction n as [|n IH]; intros i w.
  - reflexivity.
  - simpl iterate. eapply bind_run; [apply Hb|]. rewrite IH.
    rewrite <- Nat.iter_succ_r. reflexivity.
Qed.

Lemma iterate_app (body : Z -> M unit) n1 : forall n2 i w,
  iterate (n1 + n2) i body w
  = bind (iterate n1 i body) (fun _ => iterate n2 (i + Z.of_nat n1) body) w.
Proof.
  induction n1 as [|n1 IH]; intros n2 i w.
  - simpl. unfold bind, ret. now rewrite Z.add_0_r.
  - change (iterate (S n1 + n2) i body) with (body i ;; iterate (n1 + n2) (i + 1) body).
    change (iterate (S n1) i body) with (body i ;; iterate n1 (i + 1) body).
    replace (i + Z.of_nat (S n1)) with (i + 1 + Z.of_nat n1) by lia.
    unfold bind at 1 2 3. destruct (body i w) as [[[] w1]| |]; try reflexivity.
    apply IH.
Qed.

Lemma reserve_ok n w : 0 <= n -> reserve n w = Ok (tt, w).
Proof.
  intros H. unfold reserve.
  destruct (n <? 0) eqn:E; [apply Z.ltb_lt in E; lia | reflexivity].
Qed.

Lemma reserve_throws n w : n < 0 -> reserve n w = (Thrown : Outcome (unit * World)).
Proof. intros H. unfold reserve. apply Z.ltb_lt in H. now rewrite H. Qed.

(* ------------------------------------------------------------------------- *)
(** ** Light store: [Update] *)

Lemma point_turn t pre a post w :
  _pointLights (scene w) = pre ++ a :: post ->
  (s <- this ;;
   l <- at_ (_pointLights s) (Z.of_nat (List.length pre)) ;;
   assign_pointLight_position (Z.of_nat (List.length pre))
     (vec3.add offset (vec3.mul (lissajous (PointLight.movement l) t) scale))) w
  = Ok (tt, with_scene (set_pointLights (pre ++ moved_point t a :: post) (scene w)) w).
Proof.
  intros H. unfold assign_pointLight_position, bind, this, modify.
  rewrite H, at_middle. cbv beta iota. rewrite H, at_middle. cbv beta iota.
  rewrite Nat2Z.id, assign_middle. reflexivity.
Qed.

Lemma point_loop t mid : forall pre post w,
  _pointLights (scene w) = pre ++ mid ++ post ->
  iterate (List.length mid) (Z.of_nat (List.length pre))
    (fun i =>
       s <- this ;;
       l <- at_ (_pointLights s) i ;;
       assign_pointLight_position i
         (vec3.add offset (vec3.mul (lissajous (PointLight.movement l) t) scale))) w
  = Ok (tt, with_scene (set_pointLights (pre ++ map (moved_point t) mid ++ post) (scene w)) w).
Proof.
  induction mid as [|a mid IH]; intros pre post w H.
  - simpl in *. unfold ret. rewrite <- H. destruct w as [s ? ? ? ? ?]; destruct s; reflexivity.
  - simpl iterate. eapply bind_run; [apply point_turn; exact H|].
    replace (Z.of_nat (List.length pre) + 1)
      with (Z.of_nat (List.length (pre ++ [moved_point t a])))
      by (rewrite length_app; simpl; lia).
    rewrite (IH (pre ++ [moved_point t a]) post).
    + simpl. rewrite <- app_assoc. reflexivity.
    + simpl. rewrite <- app_assoc. reflexivity.
Qed.

Lemma spot_turn t pre a post w :
  _spotLights (scene w) = pre ++ a :: post ->
  (s <- this ;;
   l <- at_ (_spotLights s) (Z.of_nat (List.length pre)) ;;
   assign_spotLight_position (Z.of_nat (List.length pre))
     (vec3.add offset (vec3.mul (lissajous (SpotLight.movement l) t) scale)) ;;
   let origin := vec3.splat 0.0 in
   s <- this ;;
   l <- at_ (_spotLights s) (Z.of_nat (List.length pre)) ;;
   assign_spotLight_direction (Z.of_nat (List.length pre))
     (vec3.normalize (vec3.sub origin (SpotLight.position l)))) w
  = Ok (tt, with_scene (set_spotLights (pre ++ moved_spot t a :: post) (scene w)) w).
Proof.
  intros H. unfold assign_spotLight_position, assign_spotLight_direction, bind, this, modify.
  rewrite H, at_middle. cbv beta iota. rewrite H, at_middle. cbv beta iota.
  rewrite Nat2Z.id, assign_middle. cbn [scene with_scene _spotLights set_spotLights].
  rewrite at_middle. cbv beta iota. cbn [scene with_scene _spotLights set_spotLights].
  rewrite at_middle. cbv beta iota. rewrite assign_middle. reflexivity.
Qed.

Lemma spot_loop t mid : forall pre post w,
  _spotLights (scene w) = pre ++ mid ++ post ->
  iterate (List.length mid) (Z.of_nat (List.length pre))
    (fun i =>
       s <- this ;;
       l <- at_ (_spotLights s) i ;;
       assign_spotLight_position i
         (vec3.add offset (vec3.mul (lissajous (SpotLight.movement l) t) scale)) ;;
       let origin := vec3.splat 0.0 in
       s <- this ;;
       l <- at_ (_spotLights s) i ;;
       assign_spotLight_direction i (vec3.normalize (vec3.sub origin (SpotLight.position l)))) w
  = Ok (tt, with_scene (set_spotLights (pre ++ map (moved_spot t) mid ++ post) (scene w)) w).
Proof.
  induction mid as [|a mid IH]; intros pre post w H.
  - simpl in *. unfold ret. rewrite <- H. destruct w as [s ? ? ? ? ?]; destruct s; reflexivity.
  - simpl iterate. eapply bind_run; [apply spot_turn; exact H|].
    replace (Z.of_nat (List.length pre) + 1)
      with (Z.of_nat (List.length (pre ++ [moved_spot t a])))
      by (rewrite length_app; simpl; lia).
    rewrite (IH (pre ++ [moved_spot t a]) post).
    + simpl. rewrite <- app_assoc. reflexivity.
    + simpl. rewrite <- app_assoc. reflexivity.
Qed.

(** [Update] in one equation: every light is moved to its place at the clock
    value the call found, then the clock advances. *)
Lemma Update_run dt w :
  lights_sized (scene w) ->
  Update dt w
  = Ok (tt, with_Update_t (Update_t w + dt)%R
              (with_scene (lights_at (Update_t w) (scene w)) w)).
Proof.
  intros [Hp Hs]. unfold Update.
  destruct (_pointLights (scene w)) as [|hero rest] eqn:E; [discriminate|].
  simpl in Hp. injection Hp as Hp.
  eapply bind_run; [reflexivity|]. cbv beta.
  eapply bind_run; [reflexivity|]. cbv beta. rewrite E.
  eapply bind_run; [apply (at_middle [] hero rest)|]. cbv beta.
  eapply bind_run.
  { unfold assign_pointLight_position.
    eapply bind_run; [reflexivity|]. cbv beta. rewrite E.
    eapply bind_run; [apply (at_middle [] hero rest)|]. reflexivity. }
  unfold for_. rewrite <- Hp, Z.sub_0_r, <- Hs.
  eapply bind_run.
  { apply (point_loop (Update_t w) rest [moved_hero (Update_t w) hero] []).
    simpl. rewrite app_nil_r. reflexivity. }
  eapply bind_run.
  { apply (spot_loop (Update_t w) (_spotLights (scene w)) [] []).
    simpl. rewrite app_nil_r. reflexivity. }
  unfold lights_at, moved_pointLights. rewrite E. simpl. rewrite !app_nil_r.
  destruct w as [s ? ? ? ? ?]; destruct s; reflexivity.
Qed.

Lemma lights_at_sized t s : lights_sized s -> lights_sized (lights_at t s).
Proof.
  intros [Hp Hs]. unfold lights_sized, lights_at. destruct s; simpl in *.
  split.
  - rewrite <- Hp. unfold moved_pointLights.
    destruct _pointLights0; simpl; [reflexivity | now rewrite length_map].
  - now rewrite length_map.
Qed.

Lemma lights_at_again t1 t2 s : lights_at t2 (lights_at t1 s) = lights_at t2 s.
Proof.
  assert (forall ls, moved_pointLights t2 (moved_pointLights t1 ls) = moved_pointLights t2 ls)
    as Hp.
  { intros [|hero rest]; [reflexivity|]. simpl. f_equal.
    rewrite map_map. apply map_ext. intros l. reflexivity. }
  assert (forall ls, map (moved_spot t2) (map (moved_spot t1) ls) = map (moved_spot t2) ls)
    as Hs.
  { intros ls. rewrite map_map. apply map_ext. intros l. reflexivity. }
  unfold lights_at. destruct s; simpl. now rewrite Hp, Hs.
Qed.

Lemma Updates_run dts : forall dt w,
  lights_sized (scene w) ->
  Updates (dts ++ [dt]) w
  = Ok (tt, with_Update_t (fold_left Rplus dts (Update_t w) + dt)%R
              (with_scene (lights_at (fold_left Rplus dts (Update_t w)) (scene w)) w)).
Proof.
  induction dts as [|d dts IH]; intros dt w H.
  - simpl. eapply bind_run; [apply Update_run; exact H|]. reflexivity.
  - simpl. eapply bind_run; [apply Update_run; exact H|].
    rewrite IH by (apply lights_at_sized; exact H).
    simpl. rewrite lights_at_again. reflexivity.
Qed.

(* ------------------------------------------------------------------------- *)
(** ** Theorems on the light store *)

(** Over the reals the components of [lissajous] are sines, cosines and a
    product of the two. *)
Lemma lissajous_real_range (p : vec4.t) (t : R) :
  (-1 <= vec3.x (lissajous p t) <= 1 /\
   -1 <= vec3.y (lissajous p t) <= 1 /\
   -1 <= vec3.z (lissajous p t) <= 1)%R.
Proof.
  unfold lissajous; simpl.
  pose proof (SIN_bound (vec4.x p * t)) as Hx.
  pose proof (COS_bound (vec4.y p * t)) as Hy.
  pose proof (SIN_bound (vec4.z p * t)) as Hs.
  pose proof (COS_bound (vec4.w p * t)) as Hc.
  repeat split; try lra; nra.
Qed.

Lemma OVERFLOW_value : f32.OVERFLOW = 340282356779733661637539395458142568448%R.
Proof. reflexivity. Qed.

(** A product that overflows is an infinity, one that does not is itself. *)
Lemma round_cases (r : R) :
  (f32.overflows r /\ (f32.round r = f32.PlusInf \/ f32.round r = f32.MinusInf)) \/
  (~ f32.overflows r /\ f32.round r = f32.Finite r).
Proof.
  unfold f32.overflows, f32.round. rewrite OVERFLOW_value.
  destruct (Rle_dec _ r) as [H|H].
  - left. split; [|now left]. rewrite Rabs_pos_eq; lra.
  - destruct (Rle_dec r _) as [H'|H'].
    + left. split; [|now right]. rewrite <- Rabs_Ropp, Rabs_pos_eq; lra.
    + right. split; [|reflexivity]. unfold Rabs. destruct (Rcase_abs r); lra.
Qed.

Lemma sinf_round (r : R) :
  (f32.overflows r /\ f32.sinf (f32.round r) = f32.NaN) \/
  (~ f32.overflows r /\ f32.sinf (f32.round r) = f32.Finite (sin r)).
Proof.
  destruct (round_cases r) as [[H [-> | ->]]|[H ->]]; [left | left | right]; now split.
Qed.

Lemma cosf_round (r : R) :
  (f32.overflows r /\ f32.cosf (f32.round r) = f32.NaN) \/
  (~ f32.overflows r /\ f32.cosf (f32.round r) = f32.Finite (cos r)).
Proof.
  destruct (round_cases r) as [[H [-> | ->]]|[H ->]]; [left | left | right]; now split.
Qed.

Lemma round_unit (r : R) : (-1 <= r <= 1)%R -> f32.round r = f32.Finite r.
Proof.
  intros H. destruct (round_cases r) as [[Ho _]|[_ E]]; [|exact E].
  unfold f32.overflows in Ho. rewrite OVERFLOW_value in Ho.
  unfold Rabs in Ho. destruct (Rcase_abs r); lra.
Qed.

Lemma sinf_cases (a : f32.t) : f32.sinf a = f32.NaN \/ exists r, f32.sinf a = f32.Finite (sin r).
Proof. destruct a; [right; eexists; reflexivity | now left..]. Qed.

Lemma cosf_cases (a : f32.t) : f32.cosf a = f32.NaN \/ exists r, f32.cosf a = f32.Finite (cos r).
Proof. destruct a; [right; eexists; reflexivity | now left..]. Qed.

(** C7, amended.  For finite trajectory parameters [p] and a finite time [t]
    a component of [lissajous p t] lies in [-1, 1] exactly when no float
    product under its [sinf] and [cosf] overflows; a product that overflows
    makes the component NaN.  When none of the four products overflows the
    result is the vector of sines and cosines over the reals.  Whatever the
    arguments, infinities and NaN included, a component is in [-1, 1] or
    NaN. *)
Theorem lissajous_range (p : vec4.t) (t : R) :
  let v := IEEE.lissajous (fvec4.of_vec4 p) (f32.Finite t) in
  (f32.between (-1) 1 (fvec3.x v) <-> ~ f32.overflows (vec4.x p * t)) /\
  (f32.between (-1) 1 (fvec3.y v) <-> ~ f32.overflows (vec4.y p * t)) /\
  (f32.between (-1) 1 (fvec3.z v)
   <-> ~ f32.overflows (vec4.z p * t) /\ ~ f32.overflows (vec4.w p * t)) /\
  (f32.overflows (vec4.x p * t) -> fvec3.x v = f32.NaN) /\
  (f32.overflows (vec4.y p * t) -> fvec3.y v = f32.NaN) /\
  (f32.overflows (vec4.z p * t) \/ f32.overflows (vec4.w p * t) -> fvec3.z v = f32.NaN) /\
  (~ f32.overflows (vec4.x p * t) -> ~ f32.overflows (vec4.y p * t) ->
   ~ f32.overflows (vec4.z p * t) -> ~ f32.overflows (vec4.w p * t) ->
   v = fvec3.of_vec3 (lissajous p t)) /\
  (forall (q : fvec4.t) (s : f32.t),
     let u := IEEE.lissajous q s in
     (f32.between (-1) 1 (fvec3.x u) \/ fvec3.x u = f32.NaN) /\
     (f32.between (-1) 1 (fvec3.y u) \/ fvec3.y u = f32.NaN) /\
     (f32.between (-1) 1 (fvec3.z u) \/ fvec3.z u = f32.NaN)).
Proof.
  cbv zeta. rewrite <- !and_assoc. split.
  - rewrite !and_assoc.
    destruct (lissajous_real_range p t) as (Rx & Ry & Rz).
    unfold lissajous in Rx, Ry, Rz. cbn [vec3.x vec3.y vec3.z] in Rx, Ry, Rz.
    unfold IEEE.lissajous, fvec4.of_vec4, fvec3.of_vec3, lissajous.
    cbn [fvec4.x fvec4.y fvec4.z fvec4.w fvec3.x fvec3.y fvec3.z vec3.x vec3.y vec3.z f32.mul].
    destruct (sinf_round (vec4.x p * t)) as [[Hx ->]|[Hx ->]];
    destruct (cosf_round (vec4.y p * t)) as [[Hy ->]|[Hy ->]];
    destruct (sinf_round (vec4.z p * t)) as [[Hz ->]|[Hz ->]];
    destruct (cosf_round (vec4.w p * t)) as [[Hw ->]|[Hw ->]];
    cbn [f32.mul f32.between]; rewrite ?(round_unit _ Rz); cbn [f32.between];
    repeat split; intros; try tauto; try reflexivity; try assumption.
  - intros q s. unfold IEEE.lissajous. cbn [fvec3.x fvec3.y fvec3.z].
    split; [|split].
    + destruct (sinf_cases (f32.mul (fvec4.x q) s)) as [->|[r ->]]; [now right|].
      left. apply SIN_bound.
    + destruct (cosf_cases (f32.mul (fvec4.y q) s)) as [->|[r ->]]; [now right|].
      left. apply COS_bound.
    + destruct (sinf_cases (f32.mul (fvec4.z q) s)) as [->|[a ->]]; [now right|].
      destruct (cosf_cases (f32.mul (fvec4.w q) s)) as [->|[b ->]]; [now right|].
      left. cbn [f32.mul].
      assert (-1 <= sin a * cos b <= 1)%R as Hz.
      { pose proof (SIN_bound a). pose proof (COS_bound b). split; nra. }
      rewrite (round_unit _ Hz). exact Hz.
Qed.

(** C9.  [Update dt] places the lights with the clock value left by the calls
    before it and only then adds [dt]: after the calls with deltas
    [dts ++ [dt]], started with the clock at 0, the lights stand where the
    trajectories are at the sum of [dts] (at 0 when this was the first call,
    whatever [dt] is), and the clock holds the sum of all the deltas. *)
Theorem Update_uses_clock_before_increment (dts : list R) (dt : R) (w : World) :
  lights_sized (scene w) ->
  Update_t w = 0%R ->
  exists w',
    Updates (dts ++ [dt]) w = Ok (tt, w') /\
    scene w' = lights_at (fold_left Rplus dts 0%R) (scene w) /\
    Update_t w' = (fold_left Rplus dts 0 + dt)%R.
Proof.
  intros Hs Ht. eexists. split.
  - rewrite Updates_run by exact Hs. rewrite Ht. reflexivity.
  - split; reflexivity.
Qed.

(** C3, amended.  [Update dt], called with the clock at [t], leaves the
    trajectory parameters alone and recomputes the position of every point
    light but the first and of every spot light as
    [offset + lissajous movement t * scale]; the first point light is placed
    at [(-3, 2, 0) + lissajous movement t]; every spot light's direction
    becomes [normalize (origin - position)] for its new position. *)
Theorem Update_positions (dt : R) (w : World) :
  lights_sized (scene w) ->
  exists w',
    Update dt w = Ok (tt, w') /\
    map PointLight.movement (_pointLights (scene w'))
      = map PointLight.movement (_pointLights (scene w)) /\
    map SpotLight.movement (_spotLights (scene w'))
      = map SpotLight.movement (_spotLights (scene w)) /\
    (forall i l, (1 <= i)%nat -> nth_error (_pointLights (scene w')) i = Some l ->
       PointLight.position l
       = vec3.add offset (vec3.mul (lissajous (PointLight.movement l) (Update_t w)) scale)) /\
    (forall l, nth_error (_pointLights (scene w')) 0 = Some l ->
       PointLight.position l
       = vec3.add (vec3.make (-3.0) 2.0 0.0) (lissajous (PointLight.movement l) (Update_t w))) /\
    (forall l, In l (_spotLights (scene w')) ->
       SpotLight.position l
       = vec3.add offset (vec3.mul (lissajous (SpotLight.movement l) (Update_t w)) scale) /\
       SpotLight.direction l
       = vec3.normalize (vec3.sub (vec3.splat 0.0) (SpotLight.position l))).
Proof.
  intros Hs. eexists. split; [apply Update_run; exact Hs|].
  destruct w as [s t ? ? ? ?]; destruct s; simpl.
  unfold moved_pointLights.
  repeat split.
  - destruct _pointLights0 as [|hero rest]; [reflexivity|]. simpl. f_equal.
    rewrite map_map. apply map_ext. intros l. reflexivity.
  - rewrite map_map. apply map_ext. intros l. reflexivity.
  - intros i l Hi Hl. destruct _pointLights0 as [|hero rest]; [destruct i; discriminate|].
    destruct i as [|i]; [lia|]. simpl in Hl.
    apply nth_error_In, in_map_iff in Hl. destruct Hl as (l0 & <- & _). reflexivity.
  - intros l Hl. destruct _pointLights0 as [|hero rest]; [discriminate|].
    simpl in Hl. injection Hl as <-. reflexivity.
  - apply in_map_iff in H. destruct H as (l0 & <- & _). reflexivity.
  - apply in_map_iff in H. destruct H as (l0 & <- & _). reflexivity.
Qed.

(* ------------------------------------------------------------------------- *)
(** ** Light store: [Init] *)

Lemma drawn_S {A : Type} (item : nat -> A) stride k n :
  drawn item stride k (S n) = drawn item stride k n ++ [item (n * stride + k)%nat].
Proof. unfold drawn. rewrite seq_S, map_app. reflexivity. Qed.

Lemma drawn_length {A : Type} (item : nat -> A) stride k n :
  List.length (drawn item stride k n) = n.
Proof. unfold drawn. now rewrite length_map, length_seq. Qed.


Lemma cube_steps n : forall w,
  Nat.iter n cube_step w
  = with_rand_calls (n * 3 + rand_calls w)
      (with_scene (set_cubePositions
                     (_cubePositions (scene w) ++ drawn randomCube 3 (rand_calls w) n)
                     (scene w)) w).
Proof.
  induction n as [|n IH]; intros w.
  - simpl. unfold drawn. simpl. rewrite app_nil_r.
    destruct w as [s ? ? ? ? ?]; destruct s; reflexivity.
  - simpl Nat.iter. rewrite IH, drawn_S. unfold cube_step. simpl.
    rewrite <- app_assoc. reflexivity.
Qed.

Lemma point_steps amb n : forall w,
  Nat.iter n (point_step amb) w
  = with_rand_calls (n * 7 + rand_calls w)
      (with_scene (set_pointLights
                     (_pointLights (scene w) ++ drawn (randomPointLight amb) 7 (rand_calls w) n)
                     (scene w)) w).
Proof.
  induction n as [|n IH]; intros w.
  - simpl. unfold drawn. simpl. rewrite app_nil_r.
    destruct w as [s ? ? ? ? ?]; destruct s; reflexivity.
  - simpl Nat.iter. rewrite IH, drawn_S. unfold point_step. simpl.
    rewrite <- app_assoc. reflexivity.
Qed.

Lemma spot_steps amb n : forall w,
  Nat.iter n (spot_step amb) w
  = with_rand_calls (n * 10 + rand_calls w)
      (with_scene (set_spotLights
                     (_spotLights (scene w) ++ drawn (randomSpotLight amb) 10 (rand_calls w) n)
                     (scene w)) w).
Proof.
  induction n as [|n IH]; intros w.
  - simpl. unfold drawn. simpl. rewrite app_nil_r.
    destruct w as [s ? ? ? ? ?]; destruct s; reflexivity.
  - simpl Nat.iter. rewrite IH, drawn_S. unfold spot_step. simpl.
    rewrite <- app_assoc. reflexivity.
Qed.

(** The guard of [Init]. *)
Lemma Init_guard nc np ns w :
  _vao (scene w) <> 0 -> Init nc np ns w = Ok (tt, w).
Proof.
  intros H. unfold Init, bind, this.
  destruct (_vao (scene w) =? 0) eqn:E.
  - apply Z.eqb_eq in E. contradiction.
  - reflexivity.
Qed.

Ltac run_to_reserve :=
  unfold Init; step; repeat step.

Lemma Init_cases nc np ns w :
  _vao (scene w) = 0 ->
  ((nc < 0 \/ np < 0 \/ ns < 0) /\ Init nc np ns w = Thrown) \/
  (0 <= nc /\ 0 <= np /\ 0 <= ns /\
   exists w', Init nc np ns w = Ok (tt, w') /\ Init_leaves nc np ns w w').
Proof.
  intros Hv.
  destruct w as [s t inst k a g]; destruct s; destruct g. simpl in Hv. subst.
  destruct (Z.lt_ge_cases nc 0) as [Hc|Hc].
  { left. split; [lia|]. run_to_reserve.
    apply bind_thrown, reserve_throws; exact Hc. }
  destruct (Z.lt_ge_cases np 0) as [Hp|Hp].
  { left. split; [lia|]. run_to_reserve.
    step_by ltac:(apply reserve_ok; assumption).
    step. unfold for_.
    step_by ltac:(apply (iterate_const _ cube_step); reflexivity).
    apply bind_thrown, reserve_throws; exact Hp. }
  destruct (Z.lt_ge_cases ns 0) as [Hs|Hs].
  { left. split; [lia|]. run_to_reserve.
    step_by ltac:(apply reserve_ok; assumption).
    step. unfold for_.
    step_by ltac:(apply (iterate_const _ cube_step); reflexivity).
    step_by ltac:(apply reserve_ok; assumption).
    step.
    step_by ltac:(apply (iterate_const _ (point_step (f32.div (f32.Finite 1e-3) (f32.of_int np)))); reflexivity).
    apply bind_thrown, reserve_throws; exact Hs. }
  right. repeat (split; [assumption|]).
  eexists. split.
  - run_to_reserve.
    step_by ltac:(apply reserve_ok; assumption).
    step. unfold for_.
    step_by ltac:(apply (iterate_const _ cube_step); reflexivity).
    rewrite cube_steps; norm.
    step_by ltac:(apply reserve_ok; assumption).
    step.
    step_by ltac:(apply (iterate_const _ (point_step (f32.div (f32.Finite 1e-3) (f32.of_int np)))); reflexivity).
    rewrite point_steps; norm.
    step_by ltac:(apply reserve_ok; assumption).
    step_by ltac:(apply (iterate_const _ (spot_step (f32.div (f32.Finite 1e-3) (f32.of_int np)))); reflexivity).
    rewrite spot_steps; norm.
    repeat step.
    reflexivity.
  - unfold Init_leaves. norm.
    repeat split; try discriminate; try (rewrite <- app_assoc; reflexivity).
    + now rewrite Z.sub_0_r.
    + rewrite (Pos.eqb_refl (Pos.succ (Pos.succ (Pos.succ (Pos.succ gl_names0))))).
      replace (Pos.eqb _ _) with false; [reflexivity|].
      symmetry. apply Pos.eqb_neq. lia.
Qed.

(** A first [Init] that returns has established [initialized]. *)
Lemma Init_initialized nc np ns w w' :
  constructed (scene w) ->
  (forall data, instanceData w = Some data -> List.length data = Z.to_nat MAX_INSTANCES) ->
  Init nc np ns w = Ok (tt, w') ->
  initialized w'.
Proof.
  intros (Hv & Hcubes & Hpoints & Hspots) Hdata Hrun.
  destruct (Init_cases nc np ns w Hv) as [[_ Hthrown]|(Hc & Hp & Hs & w1 & Hok & Hleaves)].
  { congruence. }
  assert (w1 = w') as -> by congruence.
  destruct Hleaves as (_ & Hnc & Hnp & Hns & Hcp & Hpl & Hsl & Hq & Hcu & Hca & Hbuf & Hinst & _).
  unfold initialized, lights_sized.
  rewrite Hnc, Hnp, Hns, Hcp, Hpl, Hsl, Hcubes, Hpoints, Hspots, Hinst.
  simpl. rewrite !drawn_length. repeat split; assumption.
Qed.

(** C5.  A call of [Init] on a scene that an earlier call of [Init] has
    initialised returns with the whole program state as it found it: scene,
    statics, random source and OpenGL context (no call is issued). *)
Theorem Init_reentry (nc np ns nc' np' ns' : Z) (w w' : World) :
  Init nc np ns w = Ok (tt, w') ->
  Init nc' np' ns' w' = Ok (tt, w').
Proof.
  intros Hrun.
  destruct (Z.eq_dec (_vao (scene w)) 0) as [Hv|Hv].
  - destruct (Init_cases nc np ns w Hv) as [[_ Hthrown]|(_ & _ & _ & w1 & Hok & Hleaves)].
    + congruence.
    + assert (w1 = w') as -> by congruence.
      apply Init_guard. apply Hleaves.
  - rewrite (Init_guard nc np ns w Hv) in Hrun.
    assert (w = w') as <- by congruence.
    apply Init_guard. exact Hv.
Qed.

(** The quotient [1e-3f / numPointLights]: there is no test of the divisor,
    and over zero it is +infinity. *)
Lemma ambient_quotient (np : Z) :
  (np = 0 -> f32.div (f32.Finite 1e-3) (f32.of_int np) = f32.PlusInf) /\
  (np <> 0 -> f32.div (f32.Finite 1e-3) (f32.of_int np) = f32.Finite (1e-3 / IZR np)).
Proof.
  unfold f32.div, f32.of_int. split.
  - intros ->. destruct (Req_dec_T 0 0) as [_|H]; [|contradiction].
    destruct (Rlt_dec 0 1e-3) as [_|H]; [reflexivity | lra].
  - intros Hnp.
    assert (IZR np <> 0%R) as Hr by (apply not_0_IZR; exact Hnp).
    destruct (Req_dec_T (IZR np) 0) as [H|_]; [contradiction|].
    assert (forall c, 0 < c -> Rabs (c / IZR np) <= c)%R as Hq.
    { intros c Hc. unfold Rdiv. rewrite Rabs_mult, Rabs_inv, (Rabs_pos_eq c) by lra.
      assert (1 <= Rabs (IZR np))%R as H1.
      { rewrite <- abs_IZR. apply IZR_le. lia. }
      assert (0 < / Rabs (IZR np) <= 1)%R as [H2 H3].
      { split; [apply Rinv_0_lt_compat; lra|].
        rewrite <- Rinv_1. apply Rinv_le_contravar; lra. }
      nra. }
    specialize (Hq 1e-3%R ltac:(lra)).
    unfold f32.round, f32.OVERFLOW.
    change (2 ^ 128 - 2 ^ 103) with 340282356779733661637539395458142568448.
    pose proof (Rle_abs (1e-3 / IZR np)) as Hu.
    pose proof (Rle_abs (- (1e-3 / IZR np))) as Hl. rewrite Rabs_Ropp in Hl.
    destruct (Rle_dec _ _) as [H|_]; [lra|].
    destruct (Rle_dec _ _) as [H|_]; [lra|].
    reflexivity.
Qed.

(** C8.  [Init], run on the constructed scene with counts that [reserve]
    accepts, puts the hero light at (-3, 3, 0) first in the point-light
    array and the [numPointLights - 1] random ones behind it, so the array is
    not empty even for [numPointLights = 0]; the fourth colour component of
    every point and spot light is the float quotient
    [1e-3 / numPointLights], computed without a guard: for a positive count
    it is the finite quotient, for [numPointLights = 0] the call still
    returns, the division is by zero, and what every light (the hero and
    each spot light) stores is +infinity. *)
Theorem Init_hero_and_ambient (nc np ns : Z) (w : World) :
  constructed (scene w) ->
  0 <= nc -> 0 <= np -> 0 <= ns ->
  exists w' rest ambientIntensity,
    Init nc np ns w = Ok (tt, w') /\
    ambientIntensity = f32.div (f32.Finite 1e-3) (f32.of_int np) /\
    _pointLights (scene w')
      = PointLight.make (vec3.make (-3.0) 3.0 0.0)
          (fvec4.make (f32.Finite 10.0) (f32.Finite 10.0) (f32.Finite 10.0) ambientIntensity)
          (vec4.make 0.0 1.0 0.0 0.0) :: rest /\
    List.length rest = Z.to_nat (np - 1) /\
    List.length (_spotLights (scene w')) = Z.to_nat ns /\
    Forall (fun l => fvec4.w (PointLight.color l) = ambientIntensity)
      (_pointLights (scene w')) /\
    Forall (fun l => fvec4.w (SpotLight.color l) = ambientIntensity)
      (_spotLights (scene w')) /\
    (0 < np -> ambientIntensity = f32.Finite (1e-3 / IZR np)) /\
    (np = 0 -> rest = [] /\ ambientIntensity = f32.PlusInf).
Proof.
  intros (Hv & _ & Hpoints & Hspots) Hc Hp Hs.
  destruct (Init_cases nc np ns w Hv) as [[Hneg _]|(_ & _ & _ & w' & Hok & Hleaves)].
  { lia. }
  destruct Hleaves as (_ & _ & _ & _ & _ & Hpl & Hsl & _).
  rewrite Hpoints in Hpl. rewrite Hspots in Hsl. simpl in Hpl, Hsl.
  eexists. eexists. eexists. split; [exact Hok|].
  split; [reflexivity|].
  split; [exact Hpl|].
  split; [apply drawn_length|].
  split; [rewrite Hsl; apply drawn_length|].
  split; [|split; [|split]].
  - rewrite Hpl. constructor; [reflexivity|].
    apply Forall_forall. intros l Hl. unfold drawn in Hl.
    apply in_map_iff in Hl. destruct Hl as (j & <- & _). reflexivity.
  - rewrite Hsl. apply Forall_forall. intros l Hl. unfold drawn in Hl.
    apply in_map_iff in Hl. destruct Hl as (j & <- & _). reflexivity.
  - intros Hpos. apply ambient_quotient. lia.
  - intros ->. split; [reflexivity | now apply ambient_quotient].
Qed.

(* ------------------------------------------------------------------------- *)
(** ** Instance store: [UpdateInstanceData] *)

Lemma inst_turn (cubes : list vec3.t) pre_c p post_c pre_d old post_d w :
  cubes = pre_c ++ p :: post_c ->
  instanceData w = Some (pre_d ++ old :: post_d) ->
  List.length pre_d = List.length pre_c ->
  (p <- at_ cubes (Z.of_nat (List.length pre_c)) ;;
   let transformation := glm_translate p in
   let transformation :=
     glm_mul transformation
       (glm_rotate (radians (IZR (Z.of_nat (List.length pre_c)) * 20.0)) (vec3.make 1.0 1.0 1.0)) in
   w <- get ;;
   match instanceData w with
   | Some data =>
       at_ data (Z.of_nat (List.length pre_c)) ;;
       fun w => Ok (tt, with_instanceData
                          (Some (assign data (Z.to_nat (Z.of_nat (List.length pre_c)))
                                   (mkInstanceData (to_mat3x4 (glm_transpose transformation))))) w)
   | None => undefined
   end) w
  = Ok (tt, with_instanceData
              (Some (pre_d ++ instance_of (List.length pre_c) p :: post_d)) w).
Proof.
  intros Hc Hd Hl. subst cubes.
  eapply bind_run; [apply at_middle|]. cbv beta zeta.
  eapply bind_run; [reflexivity|]. cbv beta. rewrite Hd.
  rewrite <- Hl.
  eapply bind_run; [apply at_middle|]. cbv beta.
  rewrite Nat2Z.id, assign_middle. reflexivity.
Qed.

Lemma inst_loop (cubes : list vec3.t) mid : forall pre_c post_c pre_d olds post_d w,
  cubes = pre_c ++ mid ++ post_c ->
  instanceData w = Some (pre_d ++ olds ++ post_d) ->
  List.length pre_d = List.length pre_c ->
  List.length olds = List.length mid ->
  iterate (List.length mid) (Z.of_nat (List.length pre_c))
    (fun i =>
       p <- at_ cubes i ;;
       let transformation := glm_translate p in
       let transformation :=
         glm_mul transformation
           (glm_rotate (radians (IZR i * 20.0)) (vec3.make 1.0 1.0 1.0)) in
       w <- get ;;
       match instanceData w with
       | Some data =>
           at_ data i ;;
           fun w => Ok (tt, with_instanceData
                              (Some (assign data (Z.to_nat i)
                                       (mkInstanceData
                                          (to_mat3x4 (glm_transpose transformation))))) w)
       | None => undefined
       end) w
  = Ok (tt, with_instanceData
              (Some (pre_d ++ instances (List.length pre_c) mid ++ post_d)) w).
Proof.
  induction mid as [|p mid IH]; intros pre_c post_c pre_d olds post_d w Hc Hd Hl Ho.
  - destruct olds; [|discriminate]. simpl in *. unfold ret. rewrite <- Hd.
    destruct w; reflexivity.
  - destruct olds as [|old olds]; [discriminate|]. simpl in Ho. injection Ho as Ho.
    simpl iterate.
    eapply bind_run; [apply (inst_turn cubes pre_c p (mid ++ post_c) pre_d old (olds ++ post_d));
                      assumption|].
    replace (Z.of_nat (List.length pre_c) + 1)
      with (Z.of_nat (List.length (pre_c ++ [p])))
      by (rewrite length_app; simpl; lia).
    rewrite (IH (pre_c ++ [p]) post_c (pre_d ++ [instance_of (List.length pre_c) p]) olds post_d).
    + simpl. rewrite <- app_assoc. simpl. rewrite length_app. simpl.
      rewrite Nat.add_1_r. reflexivity.
    + rewrite <- app_assoc. exact Hc.
    + simpl. rewrite <- app_assoc. reflexivity.
    + rewrite !length_app. simpl. lia.
    + exact Ho.
Qed.

Lemma instanceData_or_new_length w :
  (forall data, instanceData w = Some data -> List.length data = Z.to_nat MAX_INSTANCES) ->
  List.length (instanceData_or_new w) = Z.to_nat MAX_INSTANCES.
Proof.
  intros H. unfold instanceData_or_new. destruct (instanceData w) as [data|].
  - apply H. reflexivity.
  - apply repeat_length.
Qed.

Lemma instances_length i ps : List.length (instances i ps) = List.length ps.
Proof. revert i. induction ps as [|p ps IH]; intros i; simpl; [reflexivity | now rewrite IH]. Qed.

Lemma instanceData_updated_length w :
  initialized w -> _numCubes (scene w) <= MAX_INSTANCES ->
  List.length (instanceData_updated w) = Z.to_nat MAX_INSTANCES.
Proof.
  intros (H0 & Hcubes & _ & _ & _ & _ & _ & Hdata) Hmax.
  unfold instanceData_updated. rewrite length_app, instances_length, length_firstn, length_skipn.
  rewrite (instanceData_or_new_length w Hdata), Hcubes. lia.
Qed.

Lemma static_init w :
  (w0 <- get ;;
   match instanceData w0 with
   | Some _ => ret tt
   | None =>
       fun w => Ok (tt, with_instanceData
                          (Some (repeat (mkInstanceData (repeat 0%R 12))
                                   (Z.to_nat MAX_INSTANCES))) w)
   end) w
  = Ok (tt, with_instanceData (Some (instanceData_or_new w)) w).
Proof.
  unfold bind, get, instanceData_or_new. destruct w as [s t [data|] k a g]; reflexivity.
Qed.

Lemma memcpy_run w data buffer size bytes :
  instanceData w = Some data ->
  gl_mapped (gl w) = Some buffer ->
  gl_bufferSize (gl w) buffer = Some size ->
  bytes <= Z.of_nat (List.length data) * sizeof_InstanceData ->
  bytes <= size ->
  memcpy_instanceData bytes w
  = Ok (tt, with_gl
              (exec (memcpy_mapped bytes
                       (map transformation
                          (firstn (Z.to_nat (bytes / sizeof_InstanceData)) data))) (gl w)) w).
Proof.
  intros Hd Hm Hs Hb1 Hb2. unfold memcpy_instanceData.
  eapply bind_run; [reflexivity|]. cbv beta.
  rewrite Hd, Hm, Hs.
  apply Z.leb_le in Hb1, Hb2. rewrite Hb1, Hb2. reflexivity.
Qed.

Lemma UpdateInstanceData_run w :
  initialized w -> _numCubes (scene w) <= MAX_INSTANCES ->
  UpdateInstanceData w
  = Ok (tt, with_gl (uploaded w) (with_instanceData (Some (instanceData_updated w)) w)).
Proof.
  intros Hinit Hmax.
  pose proof (instanceData_updated_length w Hinit Hmax) as Hlen.
  destruct Hinit as (H0 & Hcubes & _ & _ & _ & _ & Hbuf & Hdata).
  pose proof (instanceData_or_new_length w Hdata) as Hnew.
  unfold UpdateInstanceData.
  eapply bind_run; [reflexivity|]. cbv beta.
  eapply bind_run; [apply static_init|]. cbv beta.
  eapply bind_run; [reflexivity|]. cbv beta zeta.
  unfold for_. rewrite Z.sub_0_r.
  cbn [scene with_instanceData _numCubes _cubePositions].
  set (n := Z.to_nat (_numCubes (scene w))).
  eapply bind_run.
  { replace n with (List.length (firstn n (_cubePositions (scene w)))) at 1
      by (rewrite length_firstn, Hcubes; unfold n; lia).
    apply (inst_loop _ (firstn n (_cubePositions (scene w))) []
             (skipn n (_cubePositions (scene w))) []
             (firstn n (instanceData_or_new w)) (skipn n (instanceData_or_new w))).
    - simpl. symmetry. apply firstn_skipn.
    - simpl. rewrite firstn_skipn. destruct w; reflexivity.
    - reflexivity.
    - rewrite !length_firstn, Hnew, Hcubes. unfold n. lia. }
  simpl app. fold n. change (instances 0 (firstn n (_cubePositions (scene w)))
                             ++ skipn n (instanceData_or_new w))
    with (instanceData_updated w).
  unfold uploaded.
  generalize dependent (instanceData_updated w). intros data' Hlen.
  subst n. clear Hnew Hdata Hcubes.
  destruct w as [s t inst k a g]. destruct s, g.
  cbn [scene gl _numCubes _instancingBuffer gl_bufferSize] in Hbuf, Hmax, H0. norm.
  assert ((_numCubes0 * sizeof_InstanceData) mod 2 ^ 64 = _numCubes0 * sizeof_InstanceData)
    as Hbytes.
  { apply Z.mod_small. unfold sizeof_InstanceData, MAX_INSTANCES in *.
    change (2 ^ 64) with 18446744073709551616. lia. }
  rewrite Hbytes.
  step. step.
  step_by ltac:(eapply memcpy_run;
                [ reflexivity
                | norm; rewrite Hbuf; reflexivity
                | norm; exact Hbuf
                | rewrite Hlen; unfold sizeof_InstanceData, MAX_INSTANCES in *; lia
                | unfold uniformBlockDataSize, sizeof_InstanceData, MAX_INSTANCES in *;
                  simpl; lia ]).
  rewrite Hbuf.
  rewrite Z.div_mul by (unfold sizeof_InstanceData; discriminate).
  step. reflexivity.
Qed.

Lemma UpdateInstanceData_overflows w :
  initialized w -> MAX_INSTANCES < _numCubes (scene w) ->
  UpdateInstanceData w = Undefined.
Proof.
  intros (H0 & Hcubes & _ & _ & _ & _ & Hbuf & Hdata) Hmax.
  pose proof (instanceData_or_new_length w Hdata) as Hnew.
  unfold UpdateInstanceData.
  eapply bind_run; [reflexivity|]. cbv beta.
  eapply bind_run; [apply static_init|]. cbv beta.
  eapply bind_run; [reflexivity|]. cbv beta zeta.
  unfold for_. rewrite Z.sub_0_r.
  cbn [scene with_instanceData _numCubes _cubePositions].
  remember (Z.to_nat MAX_INSTANCES) as m eqn:Hm.
  assert (Z.of_nat m < _numCubes (scene w)) as Hm'
    by (subst m; unfold MAX_INSTANCES in *; lia).
  clear Hmax Hm.
  assert (exists r, Z.to_nat (_numCubes (scene w)) = (m + S r)%nat) as [r ->].
  { exists (Z.to_nat (_numCubes (scene w)) - S m)%nat. lia. }
  apply bind_undefined. rewrite iterate_app.
  eapply bind_run.
  { replace m with (List.length (firstn m (_cubePositions (scene w)))) at 1
      by (rewrite length_firstn, Hcubes; lia).
    apply (inst_loop _ (firstn m (_cubePositions (scene w))) []
             (skipn m (_cubePositions (scene w))) []
             (instanceData_or_new w) []).
    - symmetry. apply firstn_skipn.
    - rewrite app_nil_r. destruct w; reflexivity.
    - reflexivity.
    - rewrite length_firstn, Hnew, Hcubes. lia. }
  cbn [iterate List.length app]. apply bind_undefined.
  destruct (nth_error (_cubePositions (scene w)) m) as [p|] eqn:Hp.
  - eapply bind_run.
    { unfold at_. rewrite Z.add_0_l.
      destruct (Z.of_nat m <? 0) eqn:E; [apply Z.ltb_lt in E; lia|].
      rewrite Nat2Z.id, Hp. reflexivity. }
    cbv beta zeta.
    eapply bind_run; [reflexivity|]. cbv beta.
    cbn [instanceData with_instanceData].
    apply bind_undefined, at_beyond.
    rewrite app_nil_r, instances_length, length_firstn, Hcubes. lia.
  - apply bind_undefined, at_beyond.
    apply nth_error_None in Hp. lia.
Qed.

(** C6.  With [numCubes <= MAX_INSTANCES], [UpdateInstanceData] returns: every
    write of the loop was inside the static vector, which keeps its
    [MAX_INSTANCES] elements, and one copy of exactly
    [numCubes * sizeof(InstanceData)] bytes, no more than the data store of
    the instance buffer holds, went into that buffer.  With
    [numCubes > MAX_INSTANCES] the call runs past the end of the vector; this
    happens for no other count. *)
Theorem UpdateInstanceData_bounds (w : World) :
  initialized w ->
  (_numCubes (scene w) <= MAX_INSTANCES ->
   exists w' data,
     UpdateInstanceData w = Ok (tt, w') /\
     instanceData w' = Some data /\
     List.length data = Z.to_nat MAX_INSTANCES /\
     gl_uploads (gl w')
       = gl_uploads (gl w)
         ++ [MappedCopy (_instancingBuffer (scene w))
               (_numCubes (scene w) * sizeof_InstanceData)
               (map transformation (firstn (Z.to_nat (_numCubes (scene w))) data))] /\
     gl_bufferSize (gl w') (_instancingBuffer (scene w))
       = Some (MAX_INSTANCES * sizeof_InstanceData) /\
     _numCubes (scene w) * sizeof_InstanceData <= MAX_INSTANCES * sizeof_InstanceData) /\
  (MAX_INSTANCES < _numCubes (scene w) -> UpdateInstanceData w = Undefined) /\
  (UpdateInstanceData w = Undefined -> MAX_INSTANCES < _numCubes (scene w)).
Proof.
  intros Hinit. split; [|split].
  - intros Hmax. eexists. eexists.
    split; [apply UpdateInstanceData_run; assumption|].
    split; [reflexivity|].
    split; [apply instanceData_updated_length; assumption|].
    destruct Hinit as (_ & _ & _ & _ & _ & _ & Hbuf & _).
    unfold uploaded.
    generalize dependent (instanceData_updated w). intros data.
    destruct w as [s t inst k a g]. destruct s, g.
    cbn [scene gl _numCubes _instancingBuffer gl_bufferSize] in *.
    norm. rewrite Hbuf.
    split; [reflexivity|]. split; [exact Hbuf|].
    unfold sizeof_InstanceData, MAX_INSTANCES in *. lia.
  - apply UpdateInstanceData_overflows. exact Hinit.
  - intros Hundef. destruct (Z.le_gt_cases (_numCubes (scene w)) MAX_INSTANCES) as [Hle|Hgt].
    + rewrite (UpdateInstanceData_run w Hinit Hle) in Hundef. discriminate.
    + exact Hgt.
Qed.

(* ------------------------------------------------------------------------- *)
(** ** Frame constants and the pass executor *)

Lemma at_ok {A : Type} (v : list A) i a w :
  0 <= i -> nth_error v (Z.to_nat i) = Some a -> at_ v i w = Ok (a, w).
Proof.
  intros Hi Ha. unfold at_.
  destruct (i <? 0) eqn:E; [apply Z.ltb_lt in E; lia|].
  now rewrite Ha.
Qed.

(** Evaluate the tests [(int)renderPass & ...] on the pass constants. *)
Ltac eval_has :=
  repeat match goal with
         | |- context [has ?a ?b] =>
             let v := eval vm_compute in (has a b) in change (has a b) with v
         end.

(** Run the straight-line code of the drawing methods on a state given by
    its fields. *)
Ltac run :=
  unfold lightPass, shadowVolumePass, depthPass, DrawObjects, DrawBackground,
    UpdateProgramData, BindTextures, UpdateTransformBlock,
    UpdateTransformBlockSingleSpotLight;
  eval_has;
  norm_run.

(** C4.  [UpdateTransformBlockSingleSpotLight light] uploads to the transform
    block, at offset 0, the look-at matrix from the light's position towards
    position + direction (up (0, 1, 0)), transposed and cut to the 3x4 the
    block stores, and behind it the perspective projection with a 45 degree
    field of view, aspect 1024 / 1024, near plane 0.1 and far plane 1000.1. *)
Theorem spot_capture_transform (light : Z) (l : SpotLight.t) (w : World) :
  0 <= light ->
  nth_error (_spotLights (scene w)) (Z.to_nat light) = Some l ->
  exists w',
    UpdateTransformBlockSingleSpotLight light w = Ok (tt, w') /\
    scene w' = scene w /\
    gl_uploads (gl w')
    = gl_uploads (gl w)
      ++ [SubData (_transformBlockUBO (scene w)) 0 sizeof_mat3x4
            (to_mat3x4
               (glm_transpose
                  (glm_lookAt (SpotLight.position l)
                     (vec3.add (SpotLight.position l) (SpotLight.direction l))
                     (vec3.make 0.0 1.0 0.0))));
          SubData (_transformBlockUBO (scene w)) sizeof_mat3x4 sizeof_mat4x4
            (glm_perspective (radians 45.0) (IZR 1024 / IZR 1024) 0.1 1000.1)].
Proof.
  intros Hi Hl.
  destruct w as [s t inst k a g]. destruct s, g.
  cbn [scene _spotLights] in Hl.
  eexists. split.
  - unfold UpdateTransformBlockSingleSpotLight.
    step. step.
    step_by ltac:(apply (at_ok _ _ l); [exact Hi | exact Hl]).
    run. reflexivity.
  - norm. split; [reflexivity|]. rewrite <- app_assoc. reflexivity.
Qed.

(** C2.  In the shadow-volume pass the cubes are drawn with the stencil test
    set to always pass and face culling disabled; with [carmackReverse] back
    faces increment and front faces decrement the stencil value on depth
    fail, without it back faces decrement and front faces increment on depth
    pass; when the pass returns face culling is enabled again. *)
Theorem shadowVolumePass_stencil (camera : Camera) (carmackReverse : bool)
    (lightPosition : vec3.t) (lightColor : fvec4.t) (w : World) :
  _cubeAdjacency (scene w) <> None ->
  exists w' d,
    shadowVolumePass camera carmackReverse lightPosition lightColor w = Ok (tt, w') /\
    gl_events (gl w') = gl_events (gl w) ++ [Drawn d] /\
    instanced d = Some GL_TRIANGLES_ADJACENCY /\
    ds_stencilFunc d = (GL_ALWAYS, 0x00, 0xff) /\
    ds_cullFace d = false /\
    ds_stencilBack d
      = (if carmackReverse then (GL_KEEP, GL_INCR_WRAP, GL_KEEP)
         else (GL_KEEP, GL_KEEP, GL_DECR_WRAP)) /\
    ds_stencilFront d
      = (if carmackReverse then (GL_KEEP, GL_DECR_WRAP, GL_KEEP)
         else (GL_KEEP, GL_KEEP, GL_INCR_WRAP)) /\
    gl_caps (gl w') GL_CULL_FACE = true.
Proof.
  intros Hmesh.
  destruct w as [s t inst k a g]. destruct s, g.
  cbn [scene _cubeAdjacency] in Hmesh.
  destruct _cubeAdjacency0 as [mesh|]; [clear Hmesh | contradiction].
  destruct carmackReverse.
  - eexists. eexists. split; [run; reflexivity|].
    norm. repeat split; reflexivity.
  - eexists. eexists. split; [run; reflexivity|].
    norm. repeat split; reflexivity.
Qed.

Lemma pass_drawings_app ps1 ps2 :
  pass_drawings (ps1 ++ ps2) = pass_drawings ps1 ++ pass_drawings ps2.
Proof. apply flat_map_app. Qed.

(** Settle the capabilities a snapshot reads from the context the passes
    start in, then compare every event with its drawing. *)
Ltac drawn_as_specified Hcull Hdepth :=
  cbv beta iota delta [GLcap_eqb];
  rewrite ?Hcull, ?Hdepth;
  repeat constructor.

(** One turn of the point-light loop of [Draw]. *)
Lemma point_light_turn camera carmackReverse (lights : list PointLight.t) pre l post w :
  lights = pre ++ l :: post ->
  _quad (scene w) <> None -> _cube (scene w) <> None -> _cubeAdjacency (scene w) <> None ->
  primed (gl w) ->
  exists g' evs,
    (call (glClear GL_STENCIL_BUFFER_BIT) ;;
     call (glEnable GL_STENCIL_TEST) ;;
     call (glColorMask false false false false) ;;
     l <- at_ lights (Z.of_nat (List.length pre)) ;;
     shadowVolumePass camera carmackReverse (PointLight.position l) (PointLight.color l) ;;
     call (glColorMask true true true true) ;;
     lightPass camera RenderPass.DirectLight (PointLight.position l) (PointLight.color l) ;;
     call (glDisable GL_STENCIL_TEST) ;;
     lightPass camera RenderPass.AmbientLight (PointLight.position l) (PointLight.color l)) w
    = Ok (tt, with_gl g' w) /\
    primed g' /\
    gl_colorMask g' = all4 true /\
    gl_events g' = gl_events (gl w) ++ evs /\
    Forall2 (realises (scene w)) (pass_drawings (point_passes carmackReverse l)) evs.
Proof.
  intros Hl Hq Hc Hca (Hcull & Hdepth & Hfunc & Hmask). subst lights.
  destruct w as [s t inst k a g]. destruct s, g.
  cbn [scene gl _quad _cube _cubeAdjacency gl_caps gl_depthFunc gl_depthMask] in *.
  destruct _quad0 as [quad|]; [clear Hq | contradiction].
  destruct _cube0 as [cube|]; [clear Hc | contradiction].
  destruct _cubeAdjacency0 as [cubeAdjacency|]; [clear Hca | contradiction].
  subst gl_depthFunc0 gl_depthMask0.
  destruct carmackReverse.
  - eexists. eexists. split.
    { step. step. step. step_by ltac:(apply at_middle). run. reflexivity. }
    unfold primed. norm. split.
    { drawn_as_specified Hcull Hdepth. }
    split; [reflexivity|]. split.
    { rewrite <- !app_assoc. reflexivity. }
    drawn_as_specified Hcull Hdepth.
  - eexists. eexists. split.
    { step. step. step. step_by ltac:(apply at_middle). run. reflexivity. }
    unfold primed. norm. split.
    { drawn_as_specified Hcull Hdepth. }
    split; [reflexivity|]. split.
    { rewrite <- !app_assoc. reflexivity. }
    drawn_as_specified Hcull Hdepth.
Qed.

Lemma point_light_loop camera carmackReverse (lights : list PointLight.t) mid :
  forall pre post w,
  lights = pre ++ mid ++ post ->
  _quad (scene w) <> None -> _cube (scene w) <> None -> _cubeAdjacency (scene w) <> None ->
  primed (gl w) ->
  exists g' evs,
    iterate (List.length mid) (Z.of_nat (List.length pre))
      (fun i =>
         call (glClear GL_STENCIL_BUFFER_BIT) ;;
         call (glEnable GL_STENCIL_TEST) ;;
         call (glColorMask false false false false) ;;
         l <- at_ lights i ;;
         shadowVolumePass camera carmackReverse (PointLight.position l) (PointLight.color l) ;;
         call (glColorMask true true true true) ;;
         lightPass camera RenderPass.DirectLight (PointLight.position l) (PointLight.color l) ;;
         call (glDisable GL_STENCIL_TEST) ;;
         lightPass camera RenderPass.AmbientLight (PointLight.position l) (PointLight.color l)) w
    = Ok (tt, with_gl g' w) /\
    primed g' /\
    gl_colorMask g' = match mid with
                      | [] => gl_colorMask (gl w)
                      | _ :: _ => all4 true
                      end /\
    gl_events g' = gl_events (gl w) ++ evs /\
    Forall2 (realises (scene w)) (pass_drawings (flat_map (point_passes carmackReverse) mid)) evs.
Proof.
  induction mid as [|l mid IH]; intros pre post w Hl Hq Hc Hca Hp.
  - exists (gl w), []. simpl. rewrite app_nil_r.
    repeat split; try apply Hp; try constructor.
    destruct w; reflexivity.
  - destruct (point_light_turn camera carmackReverse lights pre l (mid ++ post) w
                Hl Hq Hc Hca Hp) as (g1 & evs1 & Hrun1 & Hp1 & Hm1 & He1 & Hd1).
    destruct (IH (pre ++ [l]) post (with_gl g1 w)) as (g2 & evs2 & Hrun2 & Hp2 & Hm2 & He2 & Hd2);
      try assumption.
    { rewrite <- app_assoc. exact Hl. }
    exists g2, (evs1 ++ evs2).
    split; [|split; [exact Hp2|split; [|split]]].
    + cbn [iterate List.length]. eapply bind_run; [exact Hrun1|].
      replace (Z.of_nat (List.length pre) + 1) with (Z.of_nat (List.length (pre ++ [l])))
        by (rewrite length_app; simpl; lia).
      exact Hrun2.
    + rewrite Hm2. cbn [gl with_gl]. destruct mid; [exact Hm1 | reflexivity].
    + rewrite He2. cbn [gl with_gl]. rewrite He1, app_assoc. reflexivity.
    + cbn [flat_map]. rewrite pass_drawings_app. apply Forall2_app; assumption.
Qed.

(** One turn of the spot-light loop of [Draw]: colour write stays as the
    turn finds it. *)
Lemma spot_light_turn camera colorWrite (lights : list SpotLight.t) pre l post w :
  lights = pre ++ l :: post ->
  _quad (scene w) <> None -> _cube (scene w) <> None ->
  primed (gl w) ->
  gl_colorMask (gl w) = all4 colorWrite ->
  exists g' evs,
    (call (glClear GL_STENCIL_BUFFER_BIT) ;;
     call (glDisable GL_STENCIL_TEST) ;;
     call (glDisable GL_STENCIL_TEST) ;;
     l <- at_ lights (Z.of_nat (List.length pre)) ;;
     lightPass camera RenderPass.AmbientLight (SpotLight.position l) (SpotLight.color l)) w
    = Ok (tt, with_gl g' w) /\
    primed g' /\
    gl_colorMask g' = all4 colorWrite /\
    gl_events g' = gl_events (gl w) ++ evs /\
    Forall2 (realises (scene w)) (pass_drawings (spot_passes colorWrite l)) evs.
Proof.
  intros Hl Hq Hc (Hcull & Hdepth & Hfunc & Hmask) Hcw. subst lights.
  destruct w as [s t inst k a g]. destruct s, g.
  cbn [scene gl _quad _cube gl_caps gl_depthFunc gl_depthMask gl_colorMask] in *.
  destruct _quad0 as [quad|]; [clear Hq | contradiction].
  destruct _cube0 as [cube|]; [clear Hc | contradiction].
  subst gl_depthFunc0 gl_depthMask0 gl_colorMask0.
  eexists. eexists. split.
  { step. step. step. step_by ltac:(apply at_middle). run. reflexivity. }
  unfold primed. norm. split.
  { drawn_as_specified Hcull Hdepth. }
  split; [reflexivity|]. split.
  { rewrite <- !app_assoc. reflexivity. }
  drawn_as_specified Hcull Hdepth.
Qed.

Lemma spot_light_loop camera colorWrite (lights : list SpotLight.t) mid :
  forall pre post w,
  lights = pre ++ mid ++ post ->
  _quad (scene w) <> None -> _cube (scene w) <> None ->
  primed (gl w) ->
  gl_colorMask (gl w) = all4 colorWrite ->
  exists g' evs,
    iterate (List.length mid) (Z.of_nat (List.length pre))
      (fun i =>
         call (glClear GL_STENCIL_BUFFER_BIT) ;;
         call (glDisable GL_STENCIL_TEST) ;;
         call (glDisable GL_STENCIL_TEST) ;;
         l <- at_ lights i ;;
         lightPass camera RenderPass.AmbientLight (SpotLight.position l) (SpotLight.color l)) w
    = Ok (tt, with_gl g' w) /\
    primed g' /\
    gl_colorMask g' = all4 colorWrite /\
    gl_events g' = gl_events (gl w) ++ evs /\
    Forall2 (realises (scene w)) (pass_drawings (flat_map (spot_passes colorWrite) mid)) evs.
Proof.
  induction mid as [|l mid IH]; intros pre post w Hl Hq Hc Hp Hcw.
  - exists (gl w), []. simpl. rewrite app_nil_r.
    repeat split; try apply Hp; try assumption; try constructor.
    destruct w; reflexivity.
  - destruct (spot_light_turn camera colorWrite lights pre l (mid ++ post) w Hl Hq Hc Hp Hcw)
      as (g1 & evs1 & Hrun1 & Hp1 & Hm1 & He1 & Hd1).
    destruct (IH (pre ++ [l]) post (with_gl g1 w)) as (g2 & evs2 & Hrun2 & Hp2 & Hm2 & He2 & Hd2);
      try assumption.
    { rewrite <- app_assoc. exact Hl. }
    exists g2, (evs1 ++ evs2).
    split; [|split; [exact Hp2|split; [exact Hm2|split]]].
    + cbn [iterate List.length]. eapply bind_run; [exact Hrun1|].
      replace (Z.of_nat (List.length pre) + 1) with (Z.of_nat (List.length (pre ++ [l])))
        by (rewrite length_app; simpl; lia).
      exact Hrun2.
    + rewrite He2. cbn [gl with_gl]. rewrite He1, app_assoc. reflexivity.
    + cbn [flat_map]. rewrite pass_drawings_app. apply Forall2_app; assumption.
Qed.

Lemma UpdateTransformBlock_run camera w :
  exists g',
    UpdateTransformBlock camera w = Ok (tt, with_gl g' w) /\
    gl_events g' = gl_events (gl w) /\
    gl_bufferSize g' = gl_bufferSize (gl w).
Proof.
  destruct w as [s t inst k a g]. destruct s, g.
  eexists. split; [run; reflexivity|].
  norm. split; reflexivity.
Qed.

Lemma bind_bind {A B C : Type} (m : M A) (f : A -> M B) (g : B -> M C) w :
  bind (bind m f) g w = bind m (fun a => bind (f a) g) w.
Proof. unfold bind. destruct (m w) as [[a w1]| |]; reflexivity. Qed.

Lemma bind_cong {A B : Type} (m : M A) (k1 k2 : A -> M B) w :
  (forall a w', k1 a w' = k2 a w') -> bind m k1 w = bind m k2 w.
Proof. intros H. unfold bind. destruct (m w) as [[a w1]| |]; [apply H | reflexivity..]. Qed.

(** [primeDepth] is that stretch of [Draw], whatever follows it. *)
Lemma primeDepth_then camera renderMode (rest : M unit) w :
  (UpdateInstanceData ;;
   (if 1 <? msaaLevel renderMode
    then call (glEnable GL_MULTISAMPLE)
    else call (glDisable GL_MULTISAMPLE)) ;;
   call (glEnable GL_CULL_FACE) ;;
   call (glCullFace GL_BACK) ;;
   call (glPolygonMode GL_FRONT_AND_BACK (if wireframe renderMode then GL_LINE else GL_FILL)) ;;
   call (glEnable GL_DEPTH_TEST) ;;
   call (glEnable GL_DEPTH_CLAMP) ;;
   call (glDepthFunc GL_LEQUAL) ;;
   call (glDepthMask true) ;;
   call (glClearColor 0.0 0.0 0.0 1.0) ;;
   call (glClear (Z.lor GL_COLOR_BUFFER_BIT GL_DEPTH_BUFFER_BIT)) ;;
   call (glColorMask false false false false) ;;
   depthPass camera ;;
   call (glDepthMask false) ;;
   rest) w
  = (primeDepth camera renderMode ;; rest) w.
Proof.
  unfold primeDepth. symmetry.
  repeat (rewrite bind_bind; apply bind_cong; intros [] ?).
  reflexivity.
Qed.

Lemma primeDepth_run camera renderMode w :
  initialized w -> _numCubes (scene w) <= MAX_INSTANCES ->
  exists g' evs,
    primeDepth camera renderMode w
    = Ok (tt, with_gl g' (with_instanceData (Some (instanceData_updated w)) w)) /\
    primed g' /\
    gl_colorMask g' = all4 false /\
    gl_events g' = gl_events (gl w) ++ evs /\
    Forall2 (realises (scene w)) (pass_drawings [FrameClear; DepthPrime]) evs.
Proof.
  intros Hinit Hmax.
  pose proof (UpdateInstanceData_run w Hinit Hmax) as Hrun.
  destruct Hinit as (_ & _ & _ & Hq & Hc & _ & Hbuf & _).
  unfold uploaded in Hrun.
  generalize dependent (instanceData_updated w). intros data Hrun.
  destruct w as [s t inst k a g]. destruct s, g.
  cbn [scene gl _quad _cube _numCubes _instancingBuffer gl_bufferSize] in *.
  destruct _quad0 as [quad|]; [clear Hq | contradiction].
  destruct _cube0 as [cube|]; [clear Hc | contradiction].
  revert Hrun. norm. rewrite Hbuf. norm. intros Hrun.
  unfold primeDepth.
  destruct (1 <? msaaLevel renderMode).
  - eexists. eexists. split.
    { step_by ltac:(exact Hrun). do 11 step.
      step_by ltac:(run; reflexivity). reflexivity. }
    unfold primed. norm. split; [repeat split|]. split; [reflexivity|]. split.
    { rewrite <- !app_assoc. reflexivity. }
    repeat constructor.
  - eexists. eexists. split.
    { step_by ltac:(exact Hrun). do 11 step.
      step_by ltac:(run; reflexivity). reflexivity. }
    unfold primed. norm. split; [repeat split|]. split; [reflexivity|]. split.
    { rewrite <- !app_assoc. reflexivity. }
    repeat constructor.
Qed.

(** C1.  One call of [Draw] on an initialised scene of at most
    [MAX_INSTANCES] cubes returns, and the clears and draw calls it issues
    are, one for one and in this order, those of the passes
    [frame_passes]: the clear of colour and depth and the depth-prime pass
    (colour write off, depth test LEQUAL, depth write on); for each of the
    first [numPointLights] point lights, by index, a stencil clear, the
    shadow-volume pass (colour write off), the direct-light pass and the
    ambient-light pass; for each spot light a stencil clear and an
    ambient-light pass, and nothing else.  A pass is the three draws of the
    quad (floor and walls) and the instanced draw of the cubes, the
    shadow-volume pass the cubes alone, and an ambient-light pass ends with
    the marker of the light; every draw runs the program of its pass under
    the pipeline state of its pass.  From the depth-prime pass on depth write
    is off, and [Draw] leaves colour write on. *)
Theorem Draw_passes (camera : Camera) (renderMode : RenderMode) (carmackReverse : bool)
    (w : World) :
  initialized w ->
  _numCubes (scene w) <= MAX_INSTANCES ->
  exists w' frame,
    Draw camera renderMode carmackReverse w = Ok (tt, w') /\
    scene w' = scene w /\
    gl_events (gl w') = gl_events (gl w) ++ frame /\
    Forall2 (realises (scene w)) (pass_drawings (frame_passes carmackReverse (scene w))) frame /\
    gl_depthMask (gl w') = false /\
    gl_colorMask (gl w') = all4 true.
Proof.
  intros Hinit Hmax.
  destruct (UpdateTransformBlock_run camera w) as (g1 & Hrun1 & He1 & Hb1).
  assert (initialized (with_gl g1 w)) as Hinit1.
  { unfold initialized in *. cbn [scene gl with_gl]. now rewrite Hb1. }
  destruct (primeDepth_run camera renderMode (with_gl g1 w) Hinit1 Hmax)
    as (g2 & evs2 & Hrun2 & Hp2 & Hm2 & He2 & Hd2).
  destruct Hinit as (_ & _ & (Hpl & Hsl) & Hq & Hc & Hca & _ & _).
  set (w2 := with_gl g2 (with_instanceData (Some (instanceData_updated (with_gl g1 w)))
                           (with_gl g1 w))) in *.
  set (np := Z.to_nat (_numPointLights (scene w))).
  set (ns := Z.to_nat (_numSpotLights (scene w))).
  destruct (point_light_loop camera carmackReverse (_pointLights (scene w))
              (firstn np (_pointLights (scene w))) [] (skipn np (_pointLights (scene w))) w2)
    as (g3 & evs3 & Hrun3 & Hp3 & Hm3 & He3 & Hd3); try assumption.
  { symmetry. apply firstn_skipn. }
  assert (gl_colorMask g3 = all4 (0 <? _numPointLights (scene w))) as Hcw.
  { rewrite Hm3. unfold w2. cbn [gl with_gl]. rewrite Hm2.
    destruct (_pointLights (scene w)) as [|hero others]; [discriminate Hpl|].
    destruct (0 <? _numPointLights (scene w)) eqn:E.
    - apply Z.ltb_lt in E. destruct np eqn:En; [unfold np in En; lia | reflexivity].
    - apply Z.ltb_ge in E. replace np with O by (unfold np; lia). reflexivity. }
  destruct (spot_light_loop camera (0 <? _numPointLights (scene w)) (_spotLights (scene w))
              (firstn ns (_spotLights (scene w))) [] (skipn ns (_spotLights (scene w)))
              (with_gl g3 w2))
    as (g4 & evs4 & Hrun4 & Hp4 & Hm4 & He4 & Hd4); try assumption.
  { symmetry. apply firstn_skipn. }
  rewrite length_firstn in Hrun3, Hrun4.
  replace (Nat.min np (List.length (_pointLights (scene w)))) with np in Hrun3
    by (rewrite Hpl; unfold np; lia).
  replace (Nat.min ns (List.length (_spotLights (scene w)))) with ns in Hrun4
    by (rewrite Hsl; unfold ns; lia).
  exists (with_gl (exec (glColorMask true true true true) g4) w2), (evs2 ++ evs3 ++ evs4).
  split; [|split; [reflexivity|split; [|split; [|split]]]].
  - unfold Draw.
    eapply bind_run; [exact Hrun1|].
    rewrite primeDepth_then.
    eapply bind_run; [exact Hrun2|].
    eapply bind_run; [reflexivity|]. cbv beta.
    unfold for_. rewrite !Z.sub_0_r.
    eapply bind_run; [exact Hrun3|].
    eapply bind_run; [exact Hrun4|].
    destruct w as [s t inst k a g]; reflexivity.
  - cbn [gl with_gl]. destruct g4; cbn [exec gl_events gl_set_colorMask gl_set_calls].
    cbn [gl_events] in He4. rewrite He4. cbn [gl with_gl]. rewrite He3.
    unfold w2. cbn [gl with_gl]. rewrite He2. cbn [gl with_gl]. rewrite He1.
    rewrite <- !app_assoc. reflexivity.
  - unfold frame_passes. rewrite !pass_drawings_app.
    apply Forall2_app; [exact Hd2|]. apply Forall2_app; assumption.
  - cbn [gl with_gl]. destruct Hp4 as (_ & _ & _ & Hd4'). destruct g4; exact Hd4'.
  - cbn [gl with_gl]. destruct g4; reflexivity.
Qed.

(* ------------------------------------------------------------------------- *)
(** ** More on the light store *)

(** X1.  [Update] works on the light store alone: it returns with the OpenGL
    context, the instance vector, the random source and the sampler as it
    found them, and in the scene nothing but the two light arrays differs,
    which keep their lengths and, light by light, colour and cone. *)
Theorem Update_touches_lights_only (dt : R) (w : World) :
  lights_sized (scene w) ->
  exists w',
    Update dt w = Ok (tt, w') /\
    gl w' = gl w /\ instanceData w' = instanceData w /\
    rand_calls w' = rand_calls w /\ anisotropic w' = anisotropic w /\
    set_pointLights (_pointLights (scene w)) (set_spotLights (_spotLights (scene w)) (scene w'))
      = scene w /\
    map PointLight.color (_pointLights (scene w')) = map PointLight.color (_pointLights (scene w)) /\
    map SpotLight.color (_spotLights (scene w')) = map SpotLight.color (_spotLights (scene w)) /\
    map SpotLight.cutOff (_spotLights (scene w')) = map SpotLight.cutOff (_spotLights (scene w)) /\
    map SpotLight.outerCutOff (_spotLights (scene w'))
      = map SpotLight.outerCutOff (_spotLights (scene w)).
Proof.
  intros Hs. eexists. split; [apply Update_run; exact Hs|].
  destruct w as [s t ? ? ? ?]; destruct s; simpl.
  repeat split.
  - unfold moved_pointLights. destruct _pointLights0 as [|hero rest]; [reflexivity|].
    simpl. f_equal. rewrite map_map. apply map_ext. intros l. reflexivity.
  - rewrite map_map. apply map_ext. intros l. reflexivity.
  - rewrite map_map. apply map_ext. intros l. reflexivity.
  - rewrite map_map. apply map_ext. intros l. reflexivity.
Qed.

(** X2.  Nothing of the scene can be used before [Init]: on the scene as
    the constructor leaves it, [Update], [Draw] and
    [DrawDepthSingleSpotLight] all index an empty array, which is undefined
    behaviour. *)
Theorem use_before_Init_undefined (w : World) (a b : Z) (dt : R)
    (camera : Camera) (renderMode : RenderMode) (carmackReverse : bool) (light : Z) :
  scene w = Scene_ctor a b ->
  Update dt w = Undefined /\
  Draw camera renderMode carmackReverse w = Undefined /\
  DrawDepthSingleSpotLight camera renderMode light w = Undefined.
Proof.
  intros Hs. destruct w as [s t inst k an g]. simpl in Hs. subst s.
  split; [|split].
  - reflexivity.
  - unfold Draw. destruct g.
    eapply bind_run; [run; reflexivity|]. cbv beta.
    apply bind_undefined. unfold UpdateInstanceData.
    destruct inst as [data|].
    + do 3 step. apply bind_undefined. reflexivity.
    + do 3 step. apply bind_undefined. reflexivity.
  - unfold DrawDepthSingleSpotLight. apply bind_undefined.
    unfold UpdateTransformBlockSingleSpotLight. destruct g.
    step. step. apply bind_undefined.
    unfold at_. destruct (light <? 0); [reflexivity|].
    destruct (Z.to_nat light); reflexivity.
Qed.

(* ------------------------------------------------------------------------- *)
(** ** Invariants of the drawing methods *)

Section Maintains.

Variable I : World -> Prop.








End Maintains.

Lemma exec_allocates_nothing (c : GLcall) (g : GLState) :
  allocates c = false ->
  gl_bufferSize (exec c g) = gl_bufferSize g /\ gl_names (exec c g) = gl_names g.
Proof.
  intros Hc. destruct g.
  destruct c; try discriminate Hc; try (split; reflexivity).
  - destruct face; split; reflexivity.
  - destruct location as [p name|loc]; [|split; reflexivity].
    simpl. unfold store_uniform4; simpl.
    destruct gl_program0 as [q|]; [|split; reflexivity].
    destruct (ShaderProgram.eqb p q); split; reflexivity.
  - destruct value as [|v0 [|v1 [|v2 [|v3 [|v4 value]]]]]; try (split; reflexivity).
    destruct location as [p name|loc]; [|split; reflexivity].
    simpl. unfold store_uniform4; simpl.
    destruct gl_program0 as [q|]; [|split; reflexivity].
    destruct (ShaderProgram.eqb p q); split; reflexivity.
  - simpl. destruct gl_mapped0; split; reflexivity.
Qed.

Section Steady.

Variable w0 : World.
Hypothesis w0_initialized : initialized w0.
Hypothesis w0_cubes : _numCubes (scene w0) <= MAX_INSTANCES.

Lemma steady_refl : steady w0 w0.
Proof.
  unfold steady. repeat split; try reflexivity.
  apply w0_initialized.
Qed.

Lemma steady_initialized w : steady w0 w -> initialized w.
Proof.
  intros (Hs & _ & _ & _ & Hb & _ & Hd).
  destruct w0_initialized as (H1 & H2 & H3 & H4 & H5 & H6 & H7 & _).
  unfold initialized. rewrite Hs, Hb. repeat split; try assumption; apply H3.
Qed.





Lemma steady_UpdateInstanceData : maintains (steady w0) UpdateInstanceData.
Proof.
  intros w H.
  pose proof (steady_initialized w H) as Hinit.
  assert (_numCubes (scene w) <= MAX_INSTANCES) as Hmax
    by (destruct H as [-> _]; exact w0_cubes).
  eexists. eexists. split; [apply UpdateInstanceData_run; assumption|].
  destruct H as (Hs & Ht & Hr & Ha & Hb & Hn & Hd).
  unfold steady, uploaded.
  cbn [scene Update_t rand_calls anisotropic gl instanceData with_gl with_instanceData].
  repeat match goal with
         | |- context [exec ?c ?g] =>
             destruct (exec_allocates_nothing c g eq_refl) as [-> ->]
         end.
  repeat split; try assumption.
  intros data E. injection E as <-. apply instanceData_updated_length; assumption.
Qed.







End Steady.





(* ------------------------------------------------------------------------- *)
(** ** The depth capture of one spot light *)



(* ------------------------------------------------------------------------- *)
(** ** More on the instance store *)

Lemma instanceData_updated_parts w :
  initialized w -> _numCubes (scene w) <= MAX_INSTANCES ->
  let n := Z.to_nat (_numCubes (scene w)) in
  firstn n (instanceData_updated w) = instances 0 (firstn n (_cubePositions (scene w))) /\
  skipn n (instanceData_updated w) = skipn n (instanceData_or_new w).
Proof.
  intros Hinit Hmax n.
  assert (List.length (instances 0 (firstn n (_cubePositions (scene w)))) = n) as Hlen.
  { rewrite instances_length, length_firstn.
    destruct Hinit as (_ & Hc & _). rewrite Hc. unfold n. lia. }
  unfold instanceData_updated. fold n. split.
  - rewrite firstn_app, Hlen, Nat.sub_diag. simpl. rewrite app_nil_r.
    rewrite <- Hlen at 1. apply firstn_all.
  - rewrite skipn_app, Hlen, Nat.sub_diag. simpl.
    rewrite <- Hlen at 1. rewrite skipn_all. reflexivity.
Qed.

Lemma uploaded_leaves w :
  initialized w ->
  gl_mapped (uploaded w) = None /\ gl_uniformBuffer (uploaded w) = 0 /\
  gl_uploads (uploaded w)
  = gl_uploads (gl w)
    ++ [MappedCopy (_instancingBuffer (scene w)) (_numCubes (scene w) * sizeof_InstanceData)
          (map transformation
             (firstn (Z.to_nat (_numCubes (scene w))) (instanceData_updated w)))].
Proof.
  intros (_ & _ & _ & _ & _ & _ & Hbuf & _).
  unfold uploaded. generalize (instanceData_updated w). intros data.
  destruct w as [s t inst k a g]. destruct s, g.
  cbn [scene gl _numCubes _instancingBuffer gl_bufferSize] in *.
  norm. rewrite Hbuf. repeat split.
Qed.

(** X6.  [UpdateInstanceData] on an initialised scene of at most
    [MAX_INSTANCES] cubes rewrites the first [numCubes] elements of the static
    vector, one transform per cube position in order, and leaves the elements
    behind them as they were (zero matrices after the first call); it returns
    with no buffer mapped and none bound to the uniform-buffer target.  A
    second call finds the vector it needs: it computes the same elements and
    uploads the same bytes again. *)
Theorem UpdateInstanceData_settles (w : World) :
  initialized w ->
  _numCubes (scene w) <= MAX_INSTANCES ->
  let n := Z.to_nat (_numCubes (scene w)) in
  exists w1 w2 data,
    UpdateInstanceData w = Ok (tt, w1) /\
    instanceData w1 = Some data /\
    firstn n data = instances 0 (firstn n (_cubePositions (scene w))) /\
    skipn n data = skipn n (instanceData_or_new w) /\
    gl_mapped (gl w1) = None /\ gl_uniformBuffer (gl w1) = 0 /\
    UpdateInstanceData w1 = Ok (tt, w2) /\
    instanceData w2 = Some data /\
    gl_uploads (gl w2)
    = gl_uploads (gl w)
      ++ [MappedCopy (_instancingBuffer (scene w)) (_numCubes (scene w) * sizeof_InstanceData)
            (map transformation (firstn n data));
          MappedCopy (_instancingBuffer (scene w)) (_numCubes (scene w) * sizeof_InstanceData)
            (map transformation (firstn n data))].
Proof.
  intros Hinit Hmax n.
  destruct (instanceData_updated_parts w Hinit Hmax) as [Hfirst Hskip]. fold n in Hfirst, Hskip.
  pose proof (UpdateInstanceData_run w Hinit Hmax) as Hrun1.
  set (w1 := with_gl (uploaded w) (with_instanceData (Some (instanceData_updated w)) w)) in *.
  assert (steady w w1) as Hsteady.
  { destruct (steady_UpdateInstanceData w Hinit Hmax w (steady_refl w Hinit))
      as ([] & w1' & Hrun1' & Hsteady).
    rewrite Hrun1 in Hrun1'. injection Hrun1' as <-. exact Hsteady. }
  pose proof (steady_initialized w Hinit w1 Hsteady) as Hinit1.
  assert (scene w1 = scene w) as Hscene by apply Hsteady.
  assert (_numCubes (scene w1) <= MAX_INSTANCES) as Hmax1 by (rewrite Hscene; exact Hmax).
  pose proof (UpdateInstanceData_run w1 Hinit1 Hmax1) as Hrun2.
  assert (instanceData_updated w1 = instanceData_updated w) as Hsame.
  { unfold instanceData_updated at 1. rewrite Hscene. fold n.
    unfold instanceData_or_new, w1. cbn [instanceData with_gl with_instanceData].
    rewrite Hskip. unfold instanceData_updated. reflexivity. }
  exists w1. eexists. exists (instanceData_updated w).
  split; [exact Hrun1|]. split; [reflexivity|].
  split; [exact Hfirst|]. split; [exact Hskip|].
  destruct (uploaded_leaves w Hinit) as (Hm & Hu & Hup).
  destruct (uploaded_leaves w1 Hinit1) as (_ & _ & Hup1).
  split; [exact Hm|]. split; [exact Hu|].
  split; [exact Hrun2|]. split.
  { cbn [instanceData with_gl with_instanceData]. now rewrite Hsame. }
  cbn [gl with_gl]. rewrite Hup1, Hsame, Hscene.
  unfold w1 at 1. cbn [gl with_gl]. rewrite Hup, <- app_assoc. reflexivity.
Qed.

(* ------------------------------------------------------------------------- *)
(** ** More on [Init] *)

Lemma Init_context nc np ns w :
  _vao (scene w) = 0 -> 0 <= nc -> 0 <= np -> 0 <= ns ->
  exists w',
    Init nc np ns w = Ok (tt, w') /\
    rand_calls w'
    = (Z.to_nat ns * 10 + (Z.to_nat (np - 1) * 7 + (Z.to_nat (nc - 1) * 3 + rand_calls w)))%nat /\
    gl_events (gl w') = gl_events (gl w) /\
    gl_uploads (gl w') = gl_uploads (gl w) /\
    gl_uniformBuffer (gl w') = 0 /\
    _transformBlockUBO (scene w') <> 0 /\
    _transformBlockUBO (scene w') <> _instancingBuffer (scene w') /\
    gl_bufferSize (gl w') (_transformBlockUBO (scene w'))
    = Some (uniformBlockDataSize "TransformBlock").
Proof.
  intros Hv Hc Hp Hs.
  destruct w as [s t inst k a g]; destruct s; destruct g. simpl in Hv. subst.
  eexists. split.
  - run_to_reserve.
    step_by ltac:(apply reserve_ok; assumption).
    step. unfold for_.
    step_by ltac:(apply (iterate_const _ cube_step); reflexivity).
    rewrite cube_steps; norm.
    step_by ltac:(apply reserve_ok; assumption).
    step.
    step_by ltac:(apply (iterate_const _ (point_step (f32.div (f32.Finite 1e-3) (f32.of_int np)))); reflexivity).
    rewrite point_steps; norm.
    step_by ltac:(apply reserve_ok; assumption).
    step_by ltac:(apply (iterate_const _ (spot_step (f32.div (f32.Finite 1e-3) (f32.of_int np)))); reflexivity).
    rewrite spot_steps; norm.
    repeat step.
    reflexivity.
  - norm. rewrite Z.sub_0_r.
    repeat split; try discriminate.
    + intros E. injection E as E. lia.
    + rewrite (Pos.eqb_refl (Pos.succ (Pos.succ (Pos.succ (Pos.succ (Pos.succ gl_names0)))))).
      reflexivity.
Qed.

(** X7.  A first [Init] with counts that [reserve] accepts draws from the
    random source exactly three numbers for every cube but the first, seven
    for every point light but the first and ten for every spot light, and
    sends nothing down the pipeline: no draw, no clear and no upload. *)
Theorem Init_random_budget (nc np ns : Z) (w : World) :
  _vao (scene w) = 0 -> 0 <= nc -> 0 <= np -> 0 <= ns ->
  exists w',
    Init nc np ns w = Ok (tt, w') /\
    Z.of_nat (rand_calls w')
    = Z.of_nat (rand_calls w) + 3 * Z.max 0 (nc - 1) + 7 * Z.max 0 (np - 1) + 10 * ns /\
    gl_events (gl w') = gl_events (gl w) /\
    gl_uploads (gl w') = gl_uploads (gl w).
Proof.
  intros Hv Hc Hp Hs.
  destruct (Init_context nc np ns w Hv Hc Hp Hs) as (w' & Hrun & Hr & He & Hu & _).
  exists w'. split; [exact Hrun|]. split; [|split; assumption].
  rewrite Hr. lia.
Qed.

(** X8.  The transform block's data store, as a first [Init] allocates it,
    is exactly what [UpdateTransformBlock] fills: the call uploads to that
    buffer (which is not the instance buffer, and not the name 0) two ranges
    that follow one another from offset 0 and end at the size of the store,
    and it leaves the uniform-buffer target unbound, as [Init] did. *)
Theorem transform_block_uploads_fit (nc np ns : Z) (camera : Camera) (w : World) :
  _vao (scene w) = 0 -> 0 <= nc -> 0 <= np -> 0 <= ns ->
  exists w1 w2 size size1 size2 data1 data2,
    Init nc np ns w = Ok (tt, w1) /\
    _transformBlockUBO (scene w1) <> 0 /\
    _transformBlockUBO (scene w1) <> _instancingBuffer (scene w1) /\
    gl_bufferSize (gl w1) (_transformBlockUBO (scene w1)) = Some size /\
    gl_uniformBuffer (gl w1) = 0 /\
    UpdateTransformBlock camera w1 = Ok (tt, w2) /\
    gl_uploads (gl w2)
    = gl_uploads (gl w1)
      ++ [SubData (_transformBlockUBO (scene w1)) 0 size1 data1;
          SubData (_transformBlockUBO (scene w1)) size1 size2 data2] /\
    0 < size1 /\ 0 < size2 /\ size1 + size2 = size /\
    gl_uniformBuffer (gl w2) = 0 /\
    gl_bufferSize (gl w2) = gl_bufferSize (gl w1).
Proof.
  intros Hv Hc Hp Hs.
  destruct (Init_context nc np ns w Hv Hc Hp Hs)
    as (w1 & Hrun & _ & _ & _ & Hb & Hn0 & Hni & Hsize).
  destruct w1 as [s1 t1 inst1 k1 a1 g1]. destruct s1, g1.
  eexists. eexists. eexists. eexists. eexists. eexists. eexists.
  split; [exact Hrun|].
  split; [exact Hn0|]. split; [exact Hni|]. split; [exact Hsize|]. split; [exact Hb|].
  split; [run; reflexivity|].
  norm. split; [rewrite <- app_assoc; reflexivity|].
  repeat split.
Qed.

(** X9.  [Init] has no undefined behaviour, whatever the state and the
    counts are, and it throws in one case only: the scene is not initialised
    yet and one of the three counts is negative. *)
Theorem Init_outcomes (nc np ns : Z) (w : World) :
  Init nc np ns w <> Undefined /\
  (Init nc np ns w = Thrown <-> _vao (scene w) = 0 /\ (nc < 0 \/ np < 0 \/ ns < 0)).
Proof.
  destruct (Z.eq_dec (_vao (scene w)) 0) as [Hv|Hv].
  - destruct (Init_cases nc np ns w Hv) as [[Hneg Hthrown]|(Hc & Hp & Hs & w' & Hok & _)].
    + rewrite Hthrown. split; [discriminate|]. split; [intros _; split; assumption | reflexivity].
    + rewrite Hok. split; [discriminate|]. split; [discriminate|]. intros [_ Hneg]. lia.
  - rewrite (Init_guard nc np ns w Hv). split; [discriminate|].
    split; [discriminate|]. intros [Hv' _]. contradiction.
Qed.

(* ------------------------------------------------------------------------- *)
(** ** Draw submission *)

(** X10.  [DrawBackground], for every program and pass, draws the quad three
    times (floor and two walls) with [glDrawElements], under the program
    given and under the fixed-function state the caller has set, which it
    leaves as it is; it clears nothing, uploads to no buffer and keeps the
    uniform-buffer binding.  Without the quad mesh the call dereferences a
    null pointer. *)
Theorem DrawBackground_draws (program : ShaderProgram.t) (renderPass : Z) (camera : Camera)
    (lightPosition : vec3.t) (lightColor : fvec4.t) (lightDirection : vec3.t)
    (cutOff outerCutOff : R) (w : World) :
  (forall quad, _quad (scene w) = Some quad ->
     exists g' d1 d2 d3,
       DrawBackground program renderPass camera lightPosition lightColor lightDirection
         cutOff outerCutOff w = Ok (tt, with_gl g' w) /\
       gl_events g' = gl_events (gl w) ++ [Drawn d1; Drawn d2; Drawn d3] /\
       Forall (fun d => ds_call d = glDrawElements GL_TRIANGLES (GetIBOSize quad) /\
                        ds_program d = Some program /\ drawn_under (gl w) d) [d1; d2; d3] /\
       pipeline g' = pipeline (gl w) /\
       gl_uploads g' = gl_uploads (gl w) /\
       gl_uniformBuffer g' = gl_uniformBuffer (gl w) /\
       gl_bufferSize g' = gl_bufferSize (gl w)) /\
  (_quad (scene w) = None ->
   DrawBackground program renderPass camera lightPosition lightColor lightDirection
     cutOff outerCutOff w = Undefined).
Proof.
  destruct w as [s t inst k a g]. destruct s, g.
  cbn [scene gl _quad]. split.
  - intros quad ->.
    unfold DrawBackground, UpdateProgramData, BindTextures.
    destruct program;
      destruct (has renderPass (Z.lor RenderPass.ShadowPass RenderPass.LightPass));
      destruct (has renderPass RenderPass.LightPass);
      (eexists; eexists; eexists; eexists;
       split; [norm_run; reflexivity|];
       norm; unfold drawn_under, pipeline; norm;
       split; [rewrite <- !app_assoc; reflexivity|];
       repeat split; repeat constructor).
  - intros ->.
    unfold DrawBackground, UpdateProgramData, BindTextures.
    destruct program;
      destruct (has renderPass (Z.lor RenderPass.ShadowPass RenderPass.LightPass));
      destruct (has renderPass RenderPass.LightPass);
      norm_run; reflexivity.
Qed.

(** X11.  [DrawObjects] issues one instanced draw of [_numCubes] instances,
    under the program given and the caller's fixed-function state: of the
    adjacency mesh as [GL_TRIANGLES_ADJACENCY] when the pass has the
    [ShadowVolume] bit, of the plain cube mesh as [GL_TRIANGLES] otherwise;
    the other mesh is not looked at.  In a pass with the [AmbientLight] bit
    the light marker follows, one point drawn by the point program with
    blending switched off, and blending stays off; in every other pass the
    fixed-function state is left as it was.  The call ends with no buffer
    bound to the uniform-buffer target.  Without the mesh of the pass the
    call dereferences a null pointer. *)
Theorem DrawObjects_draws (program : ShaderProgram.t) (renderPass : Z) (camera : Camera)
    (lightPosition : vec3.t) (lightColor : fvec4.t) (lightDirection : vec3.t)
    (cutOff outerCutOff : R) (w : World) :
  let mesh_of_pass :=
    if has renderPass RenderPass.ShadowVolume then _cubeAdjacency (scene w)
    else _cube (scene w) in
  (forall mesh, mesh_of_pass = Some mesh ->
     exists g' d marker,
       DrawObjects program renderPass camera lightPosition lightColor lightDirection
         cutOff outerCutOff w = Ok (tt, with_gl g' w) /\
       gl_events g' = gl_events (gl w) ++ Drawn d :: marker /\
       ds_call d
       = glDrawElementsInstanced
           (if has renderPass RenderPass.ShadowVolume then GL_TRIANGLES_ADJACENCY
            else GL_TRIANGLES)
           (GetIBOSize mesh) (_numCubes (scene w)) /\
       ds_program d = Some program /\ drawn_under (gl w) d /\
       gl_uniformBuffer g' = 0 /\
       gl_uploads g' = gl_uploads (gl w) /\
       (has renderPass RenderPass.AmbientLight = false ->
        marker = [] /\ pipeline g' = pipeline (gl w)) /\
       (has renderPass RenderPass.AmbientLight = true ->
        exists p,
          marker = [Drawn p] /\ ds_call p = glDrawArrays GL_POINTS 0 1 /\
          ds_program p = Some ShaderProgram.PointRendering /\ ds_blend p = false /\
          gl_caps g' GL_BLEND = false)) /\
  (mesh_of_pass = None ->
   DrawObjects program renderPass camera lightPosition lightColor lightDirection
     cutOff outerCutOff w = Undefined).
Proof.
  destruct w as [s t inst k a g]. destruct s, g.
  cbn [scene gl _cube _cubeAdjacency _numCubes]. cbv zeta. split.
  - intros mesh Hmesh.
    unfold DrawObjects, UpdateProgramData, BindTextures.
    destruct program;
      destruct (has renderPass RenderPass.ShadowVolume); subst;
      destruct (has renderPass (Z.lor RenderPass.ShadowPass RenderPass.LightPass));
      destruct (has renderPass RenderPass.LightPass);
      destruct (has renderPass RenderPass.AmbientLight);
      (eexists; eexists; eexists;
       split; [norm_run; reflexivity|];
       norm; unfold drawn_under, pipeline; norm;
       split; [rewrite <- ?app_assoc; reflexivity|];
       repeat split; try discriminate;
       intros _; eexists; repeat split).
  - intros Hmesh.
    unfold DrawObjects, UpdateProgramData, BindTextures.
    destruct program;
      destruct (has renderPass RenderPass.ShadowVolume); subst;
      destruct (has renderPass (Z.lor RenderPass.ShadowPass RenderPass.LightPass));
      destruct (has renderPass RenderPass.LightPass);
      norm_run; reflexivity.
Qed.

End SceneMethods.

(* ------------------------------------------------------------------------- *)
(** ** The direction of the spot lights, from [Init] to [Update] *)


(* ------------------------------------------------------------------------- *)
(** ** Examples *)

Lemma sample_world_initialized : initialized sample_world.
Proof.
  unfold initialized, lights_sized. simpl.
  repeat split; try reflexivity; try discriminate; try lia.
Defined.

Lemma start_world_constructed : constructed (scene start_world).
Proof. repeat split. Defined.


(** C1 at the sample scene. *)
Lemma Draw_passes_witness :
  initialized sample_world /\
  _numCubes (scene sample_world) <= MAX_INSTANCES /\
  exists w' frame,
    Draw sample_translate sample_rotate sample_scale sample_mul sample_transpose
      sample_camera sample_renderMode true sample_world = Ok (tt, w') /\
    scene w' = scene sample_world /\
    gl_events (gl w') = gl_events (gl sample_world) ++ frame /\
    Forall2 (realises (scene sample_world))
      (pass_drawings (frame_passes true (scene sample_world))) frame /\
    gl_depthMask (gl w') = false /\
    gl_colorMask (gl w') = all4 true.
Proof.
  split; [exact sample_world_initialized|].
  split; [discriminate|].
  apply (Draw_passes sample_translate sample_rotate sample_scale sample_mul sample_transpose
           sample_camera sample_renderMode true sample_world).
  - exact sample_world_initialized.
  - discriminate.
Defined.

(** C2 at the sample scene, for the depth-fail algorithm. *)
Lemma shadowVolumePass_stencil_witness :
  _cubeAdjacency (scene sample_world) <> None /\
  exists w' d,
    shadowVolumePass sample_camera true (PointLight.position sample_hero)
      (PointLight.color sample_hero) sample_world = Ok (tt, w') /\
    gl_events (gl w') = gl_events (gl sample_world) ++ [Drawn d] /\
    instanced d = Some GL_TRIANGLES_ADJACENCY /\
    ds_stencilFunc d = (GL_ALWAYS, 0x00, 0xff) /\
    ds_cullFace d = false /\
    ds_stencilBack d = (GL_KEEP, GL_INCR_WRAP, GL_KEEP) /\
    ds_stencilFront d = (GL_KEEP, GL_DECR_WRAP, GL_KEEP) /\
    gl_caps (gl w') GL_CULL_FACE = true.
Proof.
  split; [discriminate|].
  apply (shadowVolumePass_stencil sample_camera true (PointLight.position sample_hero)
           (PointLight.color sample_hero) sample_world).
  discriminate.
Defined.

(** C3 as stated fails at the hero light: after [Update] on the sample scene
    its position is not [offset + lissajous movement t * scale]. *)
Lemma Update_positions_hero_counterexample :
  exists w' l,
    Update 1 sample_world = Ok (tt, w') /\
    nth_error (_pointLights (scene w')) 0 = Some l /\
    PointLight.position l
    <> vec3.add offset
         (vec3.mul (lissajous (PointLight.movement l) (Update_t sample_world)) scale).
Proof.
  eexists. eexists. split.
  - apply Update_run. unfold lights_sized. simpl. split; reflexivity.
  - split; [reflexivity|].
    intros Heq. apply (f_equal vec3.x) in Heq.
    unfold moved_hero, lissajous in Heq. simpl in Heq.
    replace (0.0 * 0)%R with 0%R in Heq by lra. rewrite sin_0 in Heq. lra.
Qed.

(** C3, amended, at the sample scene. *)
Lemma Update_positions_witness :
  lights_sized (scene sample_world) /\
  exists w', Update 1 sample_world = Ok (tt, w').
Proof.
  assert (lights_sized (scene sample_world)) as H
    by (unfold lights_sized; simpl; split; reflexivity).
  split; [exact H|].
  destruct (Update_positions 1 sample_world H) as (w' & Hrun & _).
  exists w'. exact Hrun.
Defined.

(** C4 at the spot light of the sample scene. *)
Lemma spot_capture_transform_witness :
  0 <= 0 /\
  nth_error (_spotLights (scene sample_world)) (Z.to_nat 0) = Some sample_spotLight /\
  exists w',
    UpdateTransformBlockSingleSpotLight sample_transpose sample_lookAt sample_perspective
      0 sample_world = Ok (tt, w') /\
    scene w' = scene sample_world /\
    gl_uploads (gl w')
    = gl_uploads (gl sample_world)
      ++ [SubData 6 0 sizeof_mat3x4
            (to_mat3x4
               (sample_transpose
                  (sample_lookAt (SpotLight.position sample_spotLight)
                     (vec3.add (SpotLight.position sample_spotLight)
                        (SpotLight.direction sample_spotLight))
                     (vec3.make 0.0 1.0 0.0))));
          SubData 6 sizeof_mat3x4 sizeof_mat4x4
            (sample_perspective (radians 45.0) (IZR 1024 / IZR 1024) 0.1 1000.1)].
Proof.
  split; [lia|]. split; [reflexivity|].
  apply (spot_capture_transform sample_transpose sample_lookAt sample_perspective
           0 sample_spotLight sample_world).
  - lia.
  - reflexivity.
Defined.

(** C5 from the start of the program: a first [Init], then a second one with
    other counts. *)
Lemma Init_reentry_witness :
  exists w',
    Init sample_rnd 6 36 72 10 2 1 start_world = Ok (tt, w') /\
    Init sample_rnd 6 36 72 3 4 5 w' = Ok (tt, w').
Proof.
  destruct (Init_cases sample_rnd 6 36 72 10 2 1 start_world eq_refl)
    as [[Hneg _]|(_ & _ & _ & w' & Hok & _)]; [lia|].
  exists w'. split; [exact Hok|].
  exact (Init_reentry sample_rnd 6 36 72 10 2 1 3 4 5 start_world w' Hok).
Defined.

(** C6 at the sample scene. *)
Lemma UpdateInstanceData_bounds_witness :
  initialized sample_world /\
  exists w',
    UpdateInstanceData sample_translate sample_rotate sample_mul sample_transpose sample_world
    = Ok (tt, w').
Proof.
  split; [exact sample_world_initialized|].
  destruct (UpdateInstanceData_bounds sample_translate sample_rotate sample_mul
              sample_transpose sample_world sample_world_initialized) as (Hin & _ & _).
  destruct Hin as (w' & data & Hrun & _); [discriminate|].
  exists w'. exact Hrun.
Defined.

(** C7 as stated fails where a product overflows: 2.0f and 3e38f are
    finite floats, their product is not, and [lissajous] of them has NaN in
    every component. *)
Lemma lissajous_range_counterexample :
  ~ f32.overflows 2.0 /\ ~ f32.overflows 3e38 /\
  IEEE.lissajous (fvec4.of_vec4 (vec4.make 2.0 2.0 2.0 2.0)) (f32.Finite 3e38)
  = fvec3.make f32.NaN f32.NaN f32.NaN /\
  ~ f32.between (-1) 1
      (fvec3.x (IEEE.lissajous (fvec4.of_vec4 (vec4.make 2.0 2.0 2.0 2.0)) (f32.Finite 3e38))).
Proof.
  assert (forall r, 0 <= r -> r < f32.OVERFLOW -> ~ f32.overflows r)%R as Hsmall.
  { intros r H0 H1 H. unfold f32.overflows in H. rewrite Rabs_pos_eq in H; lra. }
  assert (f32.round (2.0 * 3e38) = f32.PlusInf) as Hinf.
  { unfold f32.round. rewrite OVERFLOW_value.
    destruct (Rle_dec _ _) as [_|H]; [reflexivity | lra]. }
  assert (IEEE.lissajous (fvec4.of_vec4 (vec4.make 2.0 2.0 2.0 2.0)) (f32.Finite 3e38)
          = fvec3.make f32.NaN f32.NaN f32.NaN) as E.
  { unfold IEEE.lissajous, fvec4.of_vec4.
    cbn [fvec4.x fvec4.y fvec4.z fvec4.w vec4.x vec4.y vec4.z vec4.w f32.mul].
    rewrite Hinf. reflexivity. }
  split; [apply Hsmall; rewrite ?OVERFLOW_value; lra|].
  split; [apply Hsmall; rewrite ?OVERFLOW_value; lra|].
  split; [exact E|].
  rewrite E. intros [].
Qed.

(** C8 from the start of the program with [numPointLights = 0]: the hero
    light is there, and it and the spot light hold +infinity. *)
Lemma Init_hero_and_ambient_witness :
  constructed (scene start_world) /\ 0 <= 1 /\ 0 <= 0 /\ 0 <= 1 /\
  exists w',
    Init sample_rnd 6 36 72 1 0 1 start_world = Ok (tt, w') /\
    _pointLights (scene w')
      = [PointLight.make (vec3.make (-3.0) 3.0 0.0)
           (fvec4.make (f32.Finite 10.0) (f32.Finite 10.0) (f32.Finite 10.0) f32.PlusInf)
           (vec4.make 0.0 1.0 0.0 0.0)] /\
    List.length (_spotLights (scene w')) = 1%nat /\
    Forall (fun l => fvec4.w (SpotLight.color l) = f32.PlusInf) (_spotLights (scene w')).
Proof.
  split; [exact start_world_constructed|].
  split; [lia|]. split; [lia|]. split; [lia|].
  destruct (Init_hero_and_ambient sample_rnd 6 36 72 1 0 1 start_world
              start_world_constructed)
    as (w' & rest & amb & Hrun & _ & Hpl & _ & Hlen & _ & Hspots & _ & Hzero);
    try lia.
  destruct (Hzero eq_refl) as [Hrest Hamb]. subst rest amb.
  exists w'. split; [exact Hrun|]. split; [exact Hpl|]. split; [exact Hlen | exact Hspots].
Defined.

(** C9 at the sample scene: three frames. *)
Lemma Update_uses_clock_before_increment_witness :
  lights_sized (scene sample_world) /\ Update_t sample_world = 0%R /\
  exists w',
    Updates ([0.25; 0.5] ++ [1])%R sample_world = Ok (tt, w') /\
    scene w' = lights_at (fold_left Rplus [0.25; 0.5]%R 0%R) (scene sample_world) /\
    Update_t w' = (fold_left Rplus [0.25; 0.5] 0 + 1)%R.
Proof.
  assert (lights_sized (scene sample_world)) as H
    by (unfold lights_sized; simpl; split; reflexivity).
  split; [exact H|]. split; [reflexivity|].
  apply (Update_uses_clock_before_increment [0.25; 0.5]%R 1%R sample_world H).
  reflexivity.
Defined.


(* ------------------------------------------------------------------------- *)
(** ** Examples for the further properties *)

Lemma sample_lights_sized : lights_sized (scene sample_world).
Proof. unfold lights_sized; simpl; split; reflexivity. Defined.

(** [Update] at the sample scene. *)
Lemma Update_touches_lights_only_witness :
  lights_sized (scene sample_world) /\
  exists w', Update 1 sample_world = Ok (tt, w') /\ gl w' = gl sample_world.
Proof.
  split; [exact sample_lights_sized|].
  destruct (Update_touches_lights_only 1 sample_world sample_lights_sized)
    as (w' & Hrun & Hgl & _).
  exists w'. split; assumption.
Defined.

(** The three per-frame methods before [Init], from the start of the
    program. *)
Lemma use_before_Init_undefined_witness :
  scene start_world = Scene_ctor 0 0 /\
  Update 1 start_world = Undefined /\
  Draw sample_translate sample_rotate sample_scale sample_mul sample_transpose
    sample_camera sample_renderMode true start_world = Undefined /\
  DrawDepthSingleSpotLight sample_translate sample_rotate sample_scale sample_mul
    sample_transpose sample_lookAt sample_perspective sample_camera sample_renderMode 0
    start_world = Undefined.
Proof.
  split; [reflexivity|].
  apply (use_before_Init_undefined sample_translate sample_rotate sample_scale sample_mul
           sample_transpose sample_lookAt sample_perspective start_world 0 0 1 sample_camera
           sample_renderMode true 0).
  reflexivity.
Defined.




(** The instance upload at the sample scene, twice. *)
Lemma UpdateInstanceData_settles_witness :
  initialized sample_world /\
  _numCubes (scene sample_world) <= MAX_INSTANCES /\
  exists w1 w2,
    UpdateInstanceData sample_translate sample_rotate sample_mul sample_transpose sample_world
    = Ok (tt, w1) /\
    UpdateInstanceData sample_translate sample_rotate sample_mul sample_transpose w1
    = Ok (tt, w2) /\
    instanceData w2 = instanceData w1.
Proof.
  split; [exact sample_world_initialized|].
  split; [discriminate|].
  destruct (UpdateInstanceData_settles sample_translate sample_rotate sample_mul
              sample_transpose sample_world sample_world_initialized)
    as (w1 & w2 & data & Hrun1 & Hd1 & _ & _ & _ & _ & Hrun2 & Hd2 & _); [discriminate|].
  exists w1, w2. split; [exact Hrun1|]. split; [exact Hrun2|]. congruence.
Defined.

(** [Init (3, 2, 1)] from the start of the program draws 2 * 3 + 1 * 7 +
    1 * 10 random numbers. *)
Lemma Init_random_budget_witness :
  _vao (scene start_world) = 0 /\ 0 <= 3 /\ 0 <= 2 /\ 0 <= 1 /\
  exists w',
    Init sample_rnd 6 36 72 3 2 1 start_world = Ok (tt, w') /\
    Z.of_nat (rand_calls w') = 23.
Proof.
  split; [reflexivity|]. split; [lia|]. split; [lia|]. split; [lia|].
  destruct (Init_random_budget sample_rnd 6 36 72 3 2 1 start_world eq_refl)
    as (w' & Hrun & Hcalls & _); try lia.
  exists w'. split; [exact Hrun | exact Hcalls].
Defined.

(** [Init] and the first upload of the camera, from the start of the
    program. *)
Lemma transform_block_uploads_fit_witness :
  _vao (scene start_world) = 0 /\ 0 <= 3 /\ 0 <= 2 /\ 0 <= 1 /\
  exists w1 w2,
    Init sample_rnd 6 36 72 3 2 1 start_world = Ok (tt, w1) /\
    UpdateTransformBlock sample_transpose sample_camera w1 = Ok (tt, w2).
Proof.
  split; [reflexivity|]. split; [lia|]. split; [lia|]. split; [lia|].
  destruct (transform_block_uploads_fit sample_rnd 6 36 72 sample_transpose 3 2 1
              sample_camera start_world eq_refl)
    as (w1 & w2 & size & size1 & size2 & data1 & data2 & Hrun1 & _ & _ & _ & _ & Hrun2 & _);
    try lia.
  exists w1, w2. split; assumption.
Defined.
